(** * Puzzle Zone: the action layer over the three puzzle tables

    A shallow embedding of the actions module (the seven [defineAction]
    entries of its [server] object and [requireUser]), of the three table
    declarations and of the seed step, followed by the properties of the
    handlers.

    Modelling conventions
    - A table is the list of its rows in storage order; [select] filters it,
      [update] rewrites the matching rows in place, [insert] appends and
      enforces the declared [primaryKey].
    - The storage client refuses what it cannot carry: a number that is not
      finite cannot be bound to a statement, a limit or offset that does not
      fit 64 bits is a type mismatch, and a row holding an integer beyond
      the safe integers cannot be read back.
    - A handler is a computation in the monad [Action]: it threads the
      storage and the journal of storage statements issued so far, and
      either returns or throws.
    - [new Date()] and [crypto.randomUUID()] read the [Runtime] of the
      request.
    - Text is [string], timestamps and integer-valued numbers are [Z], the
      free [z.number()] score is an IEEE double ([float]); an optional
      property or nullable column is an [option].  Arithmetic on
      integer-valued numbers is that of doubles: the exact result, rounded
      to the nearest double ([js_round]).
    - Text is read back from the storage as it was written.  The client
      does so for text without the character of code 0; a statement about
      text that was written and is read back assumes that ([nul_free]). *)

From Stdlib Require Import ZArith String List Bool PrimFloat Lia.
Import ListNotations.
Open Scope string_scope.
Open Scope Z_scope.

Set Implicit Arguments.

(* ================================================================== *)
(** * JavaScript values *)

Definition Date := Z.

(** Truthiness of a [string | undefined]: only a present, non-empty string
    passes an [x ? a : b] or [if (x)] test. *)
Definition truthy (x : option string) : bool :=
  match x with
  | Some EmptyString => false
  | Some (String _ _) => true
  | None => false
  end.

(** [...(x ? { key: x } : {})]: the property is there only for a truthy [x]. *)
Definition spread_if_truthy (x : option string) : option string :=
  if truthy x then x else None.

(* ================================================================== *)
(** * Request context *)

Module User.
Record t := { id : string }.
End User.

Record Locals := { user : option User.t }.
Record ActionAPIContext := { locals : option Locals }.

(** The platform as one request sees it: the value of [new Date()] and
    the value of [crypto.randomUUID()]. *)
Record Runtime := { newDate : Date; randomUUID : string }.

(* ================================================================== *)
(** * Numbers

    A JavaScript number that holds an integer is that integer.  Every
    integer below [2^53] in absolute value is a double; a larger one is
    rounded to 53 significant bits, ties to even. *)

Definition MAX_SAFE_INTEGER : Z := 2 ^ 53 - 1.

Definition js_round (n : Z) : Z :=
  let a := Z.abs n in
  if a <=? MAX_SAFE_INTEGER then n
  else
    let unit := 2 ^ (Z.log2 a - 52) in
    let q := a / unit in
    let r := a mod unit in
    let q' :=
      if (unit <? 2 * r) || ((unit =? 2 * r) && Z.odd q) then q + 1 else q in
    Z.sgn n * (q' * unit).

(** [a - b] and [a * b] on integer-valued doubles. *)
Definition js_sub (a b : Z) : Z := js_round (a - b).
Definition js_mul (a b : Z) : Z := js_round (a * b).

(** The result of the arithmetic is [Infinity]. *)
Definition js_infinite (n : Z) : bool := 2 ^ 1024 <=? Z.abs n.

(** What the storage does with numbers.  The numeric columns are declared
    [integer]: a number that holds an integer strictly within 64 bits is
    stored as an INTEGER (so [-0] becomes [0]), any other number as a REAL.
    The client hands a REAL back as it is and an INTEGER only when it is a
    safe integer. *)
Definition fits_int64 (n : Z) : bool := (- 2 ^ 63 <? n) && (n <? 2 ^ 63).

Definition reads_back (n : Z) : bool :=
  negb (fits_int64 n) || (Z.abs n <=? MAX_SAFE_INTEGER).

Definition number_reads_back (f : float) : bool :=
  negb ((9007199254740992 <=? abs f)%float
        && (abs f <? 9223372036854775808)%float).

Definition store_number (f : float) : float :=
  if (f =? 0)%float then 0%float else f.

Definition whenever {A : Type} (p : A -> bool) (x : option A) : bool :=
  match x with Some a => p a | None => true end.

(* ================================================================== *)
(** * Tables *)

Module PuzzleTemplates.
Record row := {
  id : string;
  userId : option string;
  name : string;
  puzzleType : option string;
  difficulty : option string;
  description : option string;
  dataJson : option string;
  solutionJson : option string;
  isSystem : bool;
  createdAt : Date;
  updatedAt : Date
}.
End PuzzleTemplates.

Module PuzzleSessions.
Record row := {
  id : string;
  puzzleTemplateId : string;
  userId : string;
  startedAt : Date;
  completedAt : option Date;
  status : option string;
  score : option float;
  timeTakenSeconds : option Z
}.
End PuzzleSessions.

Module PuzzleAttempts.
Record row := {
  id : string;
  sessionId : string;
  attemptIndex : Z;
  attemptDataJson : option string;
  isCorrect : bool;
  createdAt : Date
}.
End PuzzleAttempts.

Record Db := {
  templates : list PuzzleTemplates.row;
  sessions : list PuzzleSessions.row;
  attempts : list PuzzleAttempts.row
}.

Inductive TableName := TPuzzleTemplates | TPuzzleSessions | TPuzzleAttempts.

(** A table object: where its rows live in the storage, its primary key,
    and which of its rows the client can read back. *)
Record Table (R : Type) := {
  tname : TableName;
  rows : Db -> list R;
  with_rows : list R -> Db -> Db;
  pkey : R -> string;
  readable : R -> bool
}.

Definition tblPuzzleTemplates : Table PuzzleTemplates.row := {|
  tname := TPuzzleTemplates;
  rows := templates;
  with_rows := fun l d =>
    {| templates := l; sessions := sessions d; attempts := attempts d |};
  pkey := PuzzleTemplates.id;
  readable := fun _ => true
|}.

Definition tblPuzzleSessions : Table PuzzleSessions.row := {|
  tname := TPuzzleSessions;
  rows := sessions;
  with_rows := fun l d =>
    {| templates := templates d; sessions := l; attempts := attempts d |};
  pkey := PuzzleSessions.id;
  readable := fun s =>
    whenever number_reads_back (PuzzleSessions.score s)
    && whenever reads_back (PuzzleSessions.timeTakenSeconds s)
|}.

Definition tblPuzzleAttempts : Table PuzzleAttempts.row := {|
  tname := TPuzzleAttempts;
  rows := attempts;
  with_rows := fun l d =>
    {| templates := templates d; sessions := sessions d; attempts := l |};
  pkey := PuzzleAttempts.id;
  readable := fun a => reads_back (PuzzleAttempts.attemptIndex a)
|}.

(* ================================================================== *)
(** * Query conditions

    A condition is its truth value on a row.  SQL comparison with NULL is
    unknown, and a row is kept only when the whole condition is true; the
    handlers never negate, so unknown and false select the same rows and
    [eq] on a NULL column is [false]. *)

Module sql.
Definition cond (R : Type) := R -> bool.

Class Comparable (C V : Type) := same : C -> V -> bool.
#[global] Instance text_text : Comparable string string := String.eqb.
#[global] Instance nullable_text : Comparable (option string) string :=
  fun c v => match c with Some x => String.eqb x v | None => false end.
#[global] Instance bool_bool : Comparable bool bool := Bool.eqb.

Definition eq {R C V} `{Comparable C V} (col : R -> C) (v : V) : cond R :=
  fun r => same (col r) v.
Definition and {R} (p q : cond R) : cond R := fun r => p r && q r.
Definition or {R} (p q : cond R) : cond R := fun r => p r || q r.

(** [conds.reduce((prev, current) => prev ? op(prev, current) : current)]
    on a list that starts with [first]: a condition object is always
    truthy, so every step takes the [op] branch. *)
Definition reduce {R} (op : cond R -> cond R -> cond R)
    (first : cond R) (more : list (cond R)) : cond R :=
  fold_left op more first.

Definition where_ {R} (w : cond R) (l : list R) : list R := filter w l.
(** A negative LIMIT means no limit, a negative OFFSET means none. *)
Definition limit {R} (n : Z) (l : list R) : list R :=
  if n <? 0 then l else firstn (Z.to_nat n) l.
Definition offset {R} (k : Z) (l : list R) : list R := skipn (Z.to_nat k) l.
End sql.

(* ================================================================== *)
(** * The action monad *)

Inductive ErrorCode := UNAUTHORIZED | NOT_FOUND | FORBIDDEN | BAD_REQUEST.

(** An [ActionError], or an error of the storage: a refused primary key,
    the client's [RangeError], the engine's SQLITE_MISMATCH. *)
Inductive Failure :=
| ActionError (code : ErrorCode) (message : string)
| PrimaryKeyViolation (t : TableName)
| RangeError
| SQLITE_MISMATCH.

Inductive Outcome (A : Type) :=
| Return (a : A)
| Throw (e : Failure).
Arguments Throw {A} e.

Inductive Statement :=
| SELECT (t : TableName)
| INSERT (t : TableName)
| UPDATE (t : TableName).

Record World := { db : Db; journal : list Statement }.

Definition Action (A : Type) := World -> Outcome A * World.

Definition ret {A} (a : A) : Action A := fun w => (Return a, w).
Definition throw {A} (e : Failure) : Action A := fun w => (Throw e, w).
Definition bind {A B} (m : Action A) (k : A -> Action B) : Action B :=
  fun w =>
    match m w with
    | (Return a, w') => k a w'
    | (Throw e, w') => (Throw e, w')
    end.

Notation "x <- m ;; k" := (bind m (fun x => k))
  (at level 100, m at next level, right associativity).
Notation "m ;;; k" := (bind m (fun _ => k))
  (at level 100, right associativity).

Definition issue (s : Statement) (w : World) : World :=
  {| db := db w; journal := journal w ++ [s] |}.

(** [db.select().from(T)] followed by the clauses [q]: the statement runs,
    and the client fails on an answer that holds a row it cannot read. *)
Definition select {R} (T : Table R) (q : list R -> list R) : Action (list R) :=
  fun w =>
    let found := q (rows T (db w)) in
    if forallb (readable T) found
    then (Return found, issue (SELECT (tname T)) w)
    else (Throw RangeError, issue (SELECT (tname T)) w).

(** [db.select().from(T).where(c).limit(n).offset(k)]: the client refuses
    to bind an infinite number, the engine a limit or offset that is not a
    64-bit integer. *)
Definition select_page {R} (T : Table R) (c : sql.cond R) (n k : Z)
    : Action (list R) :=
  fun w =>
    if js_infinite n || js_infinite k then (Throw RangeError, w)
    else if fits_int64 n && fits_int64 k
    then select T (fun l => sql.limit n (sql.offset k (sql.where_ c l))) w
    else (Throw SQLITE_MISMATCH, issue (SELECT (tname T)) w).

(** [db.insert(T).values(r)]: refused when the primary key is taken. *)
Definition insert {R} (T : Table R) (r : R) : Action unit :=
  fun w =>
    let w' := issue (INSERT (tname T)) w in
    if existsb (fun x => String.eqb (pkey T x) (pkey T r)) (rows T (db w))
    then (Throw (PrimaryKeyViolation (tname T)), w')
    else (Return tt,
          {| db := with_rows T (rows T (db w) ++ [r]) (db w);
             journal := journal w' |}).

(** [db.update(T).set(f).where(c)], where [numbers] are the numbers among
    the values that [set] binds: the client refuses one that is not finite
    before it sends the statement. *)
Definition update {R} (T : Table R) (numbers : list float) (f : R -> R)
    (c : sql.cond R) : Action unit :=
  fun w =>
    if forallb is_finite numbers
    then
      (Return tt,
       {| db := with_rows T (map (fun r => if c r then f r else r) (rows T (db w))) (db w);
          journal := journal w ++ [UPDATE (tname T)] |})
    else (Throw RangeError, w).

(** The result envelope of every action. *)
Record Envelope (D : Type) := { success : bool; data : D }.

(* ================================================================== *)
(** * Input schemas

    The combinators of the [z.object] schemas that the actions declare.  A
    schema maps the unparsed object (every property possibly missing) to the
    object handed to the handler, or rejects it. *)

Module z.
Definition nonempty (s : string) : bool :=
  match s with EmptyString => false | String _ _ => true end.

(** [z.string().min(1)] *)
Definition string_min1 (x : option string) : option string :=
  match x with
  | Some s => if nonempty s then Some s else None
  | None => None
  end.
(** [z.string().min(1).optional()] *)
Definition string_min1_optional (x : option string) : option (option string) :=
  match x with
  | Some s => if nonempty s then Some (Some s) else None
  | None => Some None
  end.
(** [z.string().optional()] *)
Definition string_optional (x : option string) : option (option string) :=
  Some x.
(** [z.boolean().default(d)] *)
Definition boolean_default (d : bool) (x : option bool) : option bool :=
  Some (match x with Some b => b | None => d end).
(** [z.number().int().positive()] on an integer-valued number. *)
Definition int_positive (x : option Z) : option Z :=
  match x with
  | Some n => if 0 <? n then Some n else None
  | None => None
  end.
Definition int_positive_optional (x : option Z) : option (option Z) :=
  match x with
  | Some n => if 0 <? n then Some (Some n) else None
  | None => Some None
  end.
Definition int_positive_default (d : Z) (x : option Z) : option Z :=
  match x with
  | Some n => if 0 <? n then Some n else None
  | None => Some d
  end.
Definition int_positive_max_default (m d : Z) (x : option Z) : option Z :=
  match x with
  | Some n => if (0 <? n) && (n <=? m) then Some n else None
  | None => Some d
  end.
(** [z.number().optional()]: any double but NaN. *)
Definition number_optional (x : option float) : option (option float) :=
  match x with
  | Some f => if is_nan f then None else Some (Some f)
  | None => Some None
  end.

Definition andThen {A B} (x : option A) (k : A -> option B) : option B :=
  match x with Some a => k a | None => None end.
End z.

Notation "'parse' x <- m ; k" := (z.andThen m (fun x => k))
  (at level 100, x name, m at next level, right associativity).

(* ================================================================== *)
(** * requireUser *)

Definition requireUser (context : ActionAPIContext) : Action User.t :=
  let user := match locals context with Some l => user l | None => None end in
  match user with
  | None =>
      throw (ActionError UNAUTHORIZED
               "You must be signed in to perform this action.")
  | Some u => ret u
  end.

(* ================================================================== *)
(** * The actions *)

Module createPuzzleTemplate.
Module wire.
Record t := {
  name : option string;
  puzzleType : option string;
  difficulty : option string;
  description : option string;
  dataJson : option string;
  solutionJson : option string
}.
End wire.

Record input := {
  name : string;
  puzzleType : option string;
  difficulty : option string;
  description : option string;
  dataJson : option string;
  solutionJson : option string
}.

Definition schema (x : wire.t) : option input :=
  parse n <- z.string_min1 (wire.name x);
  parse p <- z.string_min1_optional (wire.puzzleType x);
  parse d <- z.string_min1_optional (wire.difficulty x);
  parse ds <- z.string_optional (wire.description x);
  parse dj <- z.string_optional (wire.dataJson x);
  parse sj <- z.string_optional (wire.solutionJson x);
  Some {| name := n; puzzleType := p; difficulty := d; description := ds;
          dataJson := dj; solutionJson := sj |}.

Module result.
Record t := { id : string }.
End result.

Definition handler (input : input) (context : ActionAPIContext)
    (rt : Runtime) : Action (Envelope result.t) :=
  user <- requireUser context ;;
  let now := newDate rt in
  let id := randomUUID rt in
  insert tblPuzzleTemplates {|
    PuzzleTemplates.id := id;
    PuzzleTemplates.userId := Some (User.id user);
    PuzzleTemplates.name := name input;
    PuzzleTemplates.puzzleType := puzzleType input;
    PuzzleTemplates.difficulty := difficulty input;
    PuzzleTemplates.description := description input;
    PuzzleTemplates.dataJson := dataJson input;
    PuzzleTemplates.solutionJson := solutionJson input;
    PuzzleTemplates.isSystem := false;
    PuzzleTemplates.createdAt := now;
    PuzzleTemplates.updatedAt := now
  |} ;;;
  ret {| success := true; data := {| result.id := id |} |}.
End createPuzzleTemplate.

Module updatePuzzleTemplate.
Module wire.
Record t := {
  id : option string;
  name : option string;
  puzzleType : option string;
  difficulty : option string;
  description : option string;
  dataJson : option string;
  solutionJson : option string
}.
End wire.

Record input := {
  id : string;
  name : option string;
  puzzleType : option string;
  difficulty : option string;
  description : option string;
  dataJson : option string;
  solutionJson : option string
}.

Definition schema (x : wire.t) : option input :=
  parse i <- z.string_min1 (wire.id x);
  parse n <- z.string_min1_optional (wire.name x);
  parse p <- z.string_min1_optional (wire.puzzleType x);
  parse d <- z.string_min1_optional (wire.difficulty x);
  parse ds <- z.string_optional (wire.description x);
  parse dj <- z.string_optional (wire.dataJson x);
  parse sj <- z.string_optional (wire.solutionJson x);
  Some {| id := i; name := n; puzzleType := p; difficulty := d;
          description := ds; dataJson := dj; solutionJson := sj |}.

(** The [updates] object: a property is [None] when the object lacks it. *)
Module updates.
Record t := {
  name : option string;
  puzzleType : option string;
  difficulty : option string;
  description : option string;
  dataJson : option string;
  solutionJson : option string;
  updatedAt : Date
}.
End updates.

Definition keep_or {A} (old : A) (new : option A) : A :=
  match new with Some v => v | None => old end.
Definition keep_or_put {A} (old : option A) (new : option A) : option A :=
  match new with Some v => Some v | None => old end.

(** [.set(updates)] on one row: the columns named in the object. *)
Definition set (u : updates.t) (r : PuzzleTemplates.row) : PuzzleTemplates.row := {|
  PuzzleTemplates.id := PuzzleTemplates.id r;
  PuzzleTemplates.userId := PuzzleTemplates.userId r;
  PuzzleTemplates.name := keep_or (PuzzleTemplates.name r) (updates.name u);
  PuzzleTemplates.puzzleType :=
    keep_or_put (PuzzleTemplates.puzzleType r) (updates.puzzleType u);
  PuzzleTemplates.difficulty :=
    keep_or_put (PuzzleTemplates.difficulty r) (updates.difficulty u);
  PuzzleTemplates.description :=
    keep_or_put (PuzzleTemplates.description r) (updates.description u);
  PuzzleTemplates.dataJson :=
    keep_or_put (PuzzleTemplates.dataJson r) (updates.dataJson u);
  PuzzleTemplates.solutionJson :=
    keep_or_put (PuzzleTemplates.solutionJson r) (updates.solutionJson u);
  PuzzleTemplates.isSystem := PuzzleTemplates.isSystem r;
  PuzzleTemplates.createdAt := PuzzleTemplates.createdAt r;
  PuzzleTemplates.updatedAt := updates.updatedAt u
|}.

Module result.
Record t := { id : string }.
End result.

(** [existing.userId !== user.id] *)
Definition differs (owner : option string) (uid : string) : bool :=
  match owner with
  | Some o => negb (String.eqb o uid)
  | None => true
  end.

Definition handler (input : input) (context : ActionAPIContext)
    (rt : Runtime) : Action (Envelope result.t) :=
  user <- requireUser context ;;
  found <- select tblPuzzleTemplates
             (sql.where_ (sql.eq PuzzleTemplates.id (id input))) ;;
  match found with
  | [] => throw (ActionError NOT_FOUND "Puzzle template not found.")
  | existing :: _ =>
      if differs (PuzzleTemplates.userId existing) (User.id user)
         || PuzzleTemplates.isSystem existing
      then throw (ActionError FORBIDDEN
                    "You cannot modify this puzzle template.")
      else
        let updates := {|
          updates.name := spread_if_truthy (name input);
          updates.puzzleType := spread_if_truthy (puzzleType input);
          updates.difficulty := spread_if_truthy (difficulty input);
          updates.description := spread_if_truthy (description input);
          updates.dataJson := spread_if_truthy (dataJson input);
          updates.solutionJson := spread_if_truthy (solutionJson input);
          updates.updatedAt := newDate rt
        |} in
        update tblPuzzleTemplates [] (set updates)
          (sql.eq PuzzleTemplates.id (id input)) ;;;
        ret {| success := true; data := {| result.id := id input |} |}
  end.
End updatePuzzleTemplate.

Module listPuzzleTemplates.
Module wire.
Record t := { includeSystem : option bool }.
End wire.

Record input := { includeSystem : bool }.

Definition schema (x : wire.t) : option input :=
  parse b <- z.boolean_default true (wire.includeSystem x);
  Some {| includeSystem := b |}.

Module result.
Record t := { items : list PuzzleTemplates.row; total : Z }.
End result.

Definition handler (input : input) (context : ActionAPIContext)
    (rt : Runtime) : Action (Envelope result.t) :=
  user <- requireUser context ;;
  let conditions :=
    (if includeSystem input
     then [sql.eq PuzzleTemplates.isSystem true]
     else []) in
  let where_ :=
    sql.reduce sql.or (sql.eq PuzzleTemplates.userId (User.id user))
      conditions in
  templates <- select tblPuzzleTemplates (sql.where_ where_) ;;
  ret {| success := true;
         data := {| result.items := templates;
                    result.total := Z.of_nat (length templates) |} |}.
End listPuzzleTemplates.

Module startPuzzleSession.
Module wire.
Record t := { puzzleTemplateId : option string }.
End wire.

Record input := { puzzleTemplateId : string }.

Definition schema (x : wire.t) : option input :=
  parse i <- z.string_min1 (wire.puzzleTemplateId x);
  Some {| puzzleTemplateId := i |}.

Module result.
Record t := { id : string; puzzleTemplateId : string }.
End result.

Definition handler (input : input) (context : ActionAPIContext)
    (rt : Runtime) : Action (Envelope result.t) :=
  user <- requireUser context ;;
  found <- select tblPuzzleTemplates
             (sql.where_
                (sql.and
                   (sql.eq PuzzleTemplates.id (puzzleTemplateId input))
                   (sql.or
                      (sql.eq PuzzleTemplates.userId (User.id user))
                      (sql.eq PuzzleTemplates.isSystem true)))) ;;
  match found with
  | [] => throw (ActionError NOT_FOUND "Puzzle template not found.")
  | template :: _ =>
      let id := randomUUID rt in
      let now := newDate rt in
      insert tblPuzzleSessions {|
        PuzzleSessions.id := id;
        PuzzleSessions.puzzleTemplateId := PuzzleTemplates.id template;
        PuzzleSessions.userId := User.id user;
        PuzzleSessions.startedAt := now;
        PuzzleSessions.completedAt := None;
        PuzzleSessions.status := Some "in-progress";
        PuzzleSessions.score := None;
        PuzzleSessions.timeTakenSeconds := None
      |} ;;;
      ret {| success := true;
             data := {| result.id := id;
                        result.puzzleTemplateId := PuzzleTemplates.id template |} |}
  end.
End startPuzzleSession.

Module completePuzzleSession.
Module wire.
Record t := {
  sessionId : option string;
  status : option string;
  score : option float;
  timeTakenSeconds : option Z
}.
End wire.

(** [z.enum(["completed", "abandoned"])] *)
Inductive Status := completed | abandoned.
Definition text (s : Status) : string :=
  match s with completed => "completed" | abandoned => "abandoned" end.
Definition status_schema (x : option string) : option Status :=
  match x with
  | None => Some completed
  | Some s =>
      if String.eqb s "completed" then Some completed
      else if String.eqb s "abandoned" then Some abandoned
      else None
  end.

Record input := {
  sessionId : string;
  status : Status;
  score : option float;
  timeTakenSeconds : option Z
}.

Definition schema (x : wire.t) : option input :=
  parse i <- z.string_min1 (wire.sessionId x);
  parse st <- status_schema (wire.status x);
  parse sc <- z.number_optional (wire.score x);
  parse tt <- z.int_positive_optional (wire.timeTakenSeconds x);
  Some {| sessionId := i; status := st; score := sc; timeTakenSeconds := tt |}.

(** A property of the [set] object whose value may be [undefined]: an
    undefined value leaves the column as it is. *)
Definition put {A} (old v : option A) : option A :=
  match v with
  | Some x => Some x
  | None => old
  end.

(** The numbers that [set] binds. *)
Definition numbers (sc : option float) : list float :=
  match sc with Some f => [f] | None => [] end.

(** [.set({ status, score, timeTakenSeconds, completedAt })] on one row. *)
Definition set (st : string) (sc : option float)
    (tt : option Z) (at_ : Date) (r : PuzzleSessions.row) : PuzzleSessions.row := {|
  PuzzleSessions.id := PuzzleSessions.id r;
  PuzzleSessions.puzzleTemplateId := PuzzleSessions.puzzleTemplateId r;
  PuzzleSessions.userId := PuzzleSessions.userId r;
  PuzzleSessions.startedAt := PuzzleSessions.startedAt r;
  PuzzleSessions.completedAt := Some at_;
  PuzzleSessions.status := Some st;
  PuzzleSessions.score :=
    put (PuzzleSessions.score r) (option_map store_number sc);
  PuzzleSessions.timeTakenSeconds := put (PuzzleSessions.timeTakenSeconds r) tt
|}.

Module result.
Record t := { id : string }.
End result.

Definition handler (input : input) (context : ActionAPIContext)
    (rt : Runtime) : Action (Envelope result.t) :=
  user <- requireUser context ;;
  found <- select tblPuzzleSessions
             (sql.where_
                (sql.and
                   (sql.eq PuzzleSessions.id (sessionId input))
                   (sql.eq PuzzleSessions.userId (User.id user)))) ;;
  match found with
  | [] => throw (ActionError NOT_FOUND "Puzzle session not found.")
  | session :: _ =>
      update tblPuzzleSessions (numbers (score input))
        (set (text (status input)) (score input)
           (timeTakenSeconds input) (newDate rt))
        (sql.eq PuzzleSessions.id (sessionId input)) ;;;
      ret {| success := true; data := {| result.id := sessionId input |} |}
  end.
End completePuzzleSession.

Module recordPuzzleAttempt.
Module wire.
Record t := {
  sessionId : option string;
  attemptIndex : option Z;
  attemptDataJson : option string;
  isCorrect : option bool
}.
End wire.

Record input := {
  sessionId : string;
  attemptIndex : Z;
  attemptDataJson : option string;
  isCorrect : bool
}.

Definition schema (x : wire.t) : option input :=
  parse i <- z.string_min1 (wire.sessionId x);
  parse n <- z.int_positive (wire.attemptIndex x);
  parse dj <- z.string_optional (wire.attemptDataJson x);
  parse c <- z.boolean_default false (wire.isCorrect x);
  Some {| sessionId := i; attemptIndex := n; attemptDataJson := dj;
          isCorrect := c |}.

Module result.
Record t := { id : string }.
End result.

Definition handler (input : input) (context : ActionAPIContext)
    (rt : Runtime) : Action (Envelope result.t) :=
  user <- requireUser context ;;
  found <- select tblPuzzleSessions
             (sql.where_
                (sql.and
                   (sql.eq PuzzleSessions.id (sessionId input))
                   (sql.eq PuzzleSessions.userId (User.id user)))) ;;
  match found with
  | [] => throw (ActionError NOT_FOUND "Puzzle session not found.")
  | session :: _ =>
      let id := randomUUID rt in
      insert tblPuzzleAttempts {|
        PuzzleAttempts.id := id;
        PuzzleAttempts.sessionId := sessionId input;
        PuzzleAttempts.attemptIndex := attemptIndex input;
        PuzzleAttempts.attemptDataJson := attemptDataJson input;
        PuzzleAttempts.isCorrect := isCorrect input;
        PuzzleAttempts.createdAt := newDate rt
      |} ;;;
      ret {| success := true; data := {| result.id := id |} |}
  end.
End recordPuzzleAttempt.

Module listPuzzleSessions.
Module wire.
Record t := {
  puzzleTemplateId : option string;
  status : option string;
  page : option Z;
  pageSize : option Z
}.
End wire.

Record input := {
  puzzleTemplateId : option string;
  status : option string;
  page : Z;
  pageSize : Z
}.

Definition schema (x : wire.t) : option input :=
  parse t <- z.string_optional (wire.puzzleTemplateId x);
  parse s <- z.string_optional (wire.status x);
  parse p <- z.int_positive_default 1 (wire.page x);
  parse ps <- z.int_positive_max_default 100 20 (wire.pageSize x);
  Some {| puzzleTemplateId := t; status := s; page := p; pageSize := ps |}.

Module result.
Record t := { items : list PuzzleSessions.row; total : Z; page : Z }.
End result.

(** [if (x) { filters.push(f(x)) }] *)
Definition push_if {R} (x : option string) (f : string -> sql.cond R)
    : list (sql.cond R) :=
  match x with
  | Some v => if truthy x then [f v] else []
  | None => []
  end.

Definition handler (input : input) (context : ActionAPIContext)
    (rt : Runtime) : Action (Envelope result.t) :=
  user <- requireUser context ;;
  let filters :=
    (push_if (puzzleTemplateId input) (sql.eq PuzzleSessions.puzzleTemplateId)
     ++ push_if (status input) (sql.eq PuzzleSessions.status))%list in
  let where_ :=
    sql.reduce sql.and (sql.eq PuzzleSessions.userId (User.id user))
      filters in
  let offset := js_mul (js_sub (page input) 1) (pageSize input) in
  sessions <- select_page tblPuzzleSessions where_ (pageSize input) offset ;;
  ret {| success := true;
         data := {| result.items := sessions;
                    result.total := Z.of_nat (length sessions);
                    result.page := page input |} |}.
End listPuzzleSessions.

(** The seed step: the one built-in template. *)

(** The double quote of JSON text, and [JSON.stringify({ key: value })] for
    a text value without characters to escape. *)
Definition dquote : string := String (Ascii.ascii_of_nat 34) EmptyString.
Definition stringify1 (key value : string) : string :=
  "{" ++ dquote ++ key ++ dquote ++ ":" ++ dquote ++ value ++ dquote ++ "}".

Definition seed_template (now : Date) : PuzzleTemplates.row := {|
  PuzzleTemplates.id := "system-puzzle-sample";
  PuzzleTemplates.userId := None;
  PuzzleTemplates.name := "Starter Puzzle";
  PuzzleTemplates.puzzleType := Some "logic-grid";
  PuzzleTemplates.difficulty := Some "easy";
  PuzzleTemplates.description :=
    Some "A sample puzzle included with the starter app.";
  PuzzleTemplates.dataJson :=
    Some (stringify1 "prompt" "Match the pets to their owners.");
  PuzzleTemplates.solutionJson :=
    Some (stringify1 "answer" "sample-solution");
  PuzzleTemplates.isSystem := true;
  PuzzleTemplates.createdAt := now;
  PuzzleTemplates.updatedAt := now
|}.

Definition seed (now : Date) : Action unit :=
  insert tblPuzzleTemplates (seed_template now).

(* ================================================================== *)
(** * Vocabulary of the statements *)

(** [locals?.user] *)
Definition caller (context : ActionAPIContext) : option User.t :=
  match locals context with Some l => user l | None => None end.

(** The outcome is an [ActionError] with the given code. *)
Definition raises {A} (code : ErrorCode) (o : Outcome A) : Prop :=
  exists message, o = Throw (ActionError code message).

(** The primary key of a table holds in a storage. *)
Definition primary_key {R} (T : Table R) (d : Db) : Prop :=
  NoDup (map (pkey T) (rows T d)).

Definition consistent (d : Db) : Prop :=
  primary_key tblPuzzleTemplates d
  /\ primary_key tblPuzzleSessions d
  /\ primary_key tblPuzzleAttempts d.

(** A computation keeps the primary keys of the three tables. *)
Definition keeps_keys {A : Type} (m : Action A) : Prop :=
  forall w, consistent (db w) -> consistent (db (snd (m w))).

(* ================================================================== *)
(** * The server object: one call, and the storages calls can reach *)

Unset Implicit Arguments.

(** A call names one of the seven actions of [server] and carries the
    input that the action's schema produced. *)
Inductive Request :=
| CreatePuzzleTemplate (i : createPuzzleTemplate.input)
| UpdatePuzzleTemplate (i : updatePuzzleTemplate.input)
| ListPuzzleTemplates (i : listPuzzleTemplates.input)
| StartPuzzleSession (i : startPuzzleSession.input)
| CompletePuzzleSession (i : completePuzzleSession.input)
| RecordPuzzleAttempt (i : recordPuzzleAttempt.input)
| ListPuzzleSessions (i : listPuzzleSessions.input).

Inductive Reply :=
| TemplateCreated (r : Envelope createPuzzleTemplate.result.t)
| TemplateUpdated (r : Envelope updatePuzzleTemplate.result.t)
| TemplatesListed (r : Envelope listPuzzleTemplates.result.t)
| SessionStarted (r : Envelope startPuzzleSession.result.t)
| SessionCompleted (r : Envelope completePuzzleSession.result.t)
| AttemptRecorded (r : Envelope recordPuzzleAttempt.result.t)
| SessionsListed (r : Envelope listPuzzleSessions.result.t).

Definition answer {A : Type} (wrap : A -> Reply) (m : Action A) : Action Reply :=
  fun w =>
    match m w with
    | (Return a, w') => (Return (wrap a), w')
    | (Throw e, w') => (Throw e, w')
    end.

Definition server (r : Request) (context : ActionAPIContext) (rt : Runtime)
    : Action Reply :=
  match r with
  | CreatePuzzleTemplate i =>
      answer TemplateCreated (createPuzzleTemplate.handler i context rt)
  | UpdatePuzzleTemplate i =>
      answer TemplateUpdated (updatePuzzleTemplate.handler i context rt)
  | ListPuzzleTemplates i =>
      answer TemplatesListed (listPuzzleTemplates.handler i context rt)
  | StartPuzzleSession i =>
      answer SessionStarted (startPuzzleSession.handler i context rt)
  | CompletePuzzleSession i =>
      answer SessionCompleted (completePuzzleSession.handler i context rt)
  | RecordPuzzleAttempt i =>
      answer AttemptRecorded (recordPuzzleAttempt.handler i context rt)
  | ListPuzzleSessions i =>
      answer SessionsListed (listPuzzleSessions.handler i context rt)
  end.

(** [defineAction({ input, handler })]: the framework parses the unparsed
    input with the schema first; an input that the schema refuses is
    answered with BAD_REQUEST and the handler does not run. *)
Definition defineAction {W I D : Type} (input : W -> option I)
    (handler : I -> ActionAPIContext -> Runtime -> Action D)
    : W -> ActionAPIContext -> Runtime -> Action D :=
  fun x context rt =>
    match input x with
    | Some i => handler i context rt
    | None => throw (ActionError BAD_REQUEST "Failed to validate")
    end.

(** An invocation names one of the seven actions and carries the unparsed
    input of the request. *)
Inductive Invocation :=
| invokeCreatePuzzleTemplate (x : createPuzzleTemplate.wire.t)
| invokeUpdatePuzzleTemplate (x : updatePuzzleTemplate.wire.t)
| invokeListPuzzleTemplates (x : listPuzzleTemplates.wire.t)
| invokeStartPuzzleSession (x : startPuzzleSession.wire.t)
| invokeCompletePuzzleSession (x : completePuzzleSession.wire.t)
| invokeRecordPuzzleAttempt (x : recordPuzzleAttempt.wire.t)
| invokeListPuzzleSessions (x : listPuzzleSessions.wire.t).

Definition invoke (c : Invocation) (context : ActionAPIContext) (rt : Runtime)
    : Action Reply :=
  match c with
  | invokeCreatePuzzleTemplate x =>
      answer TemplateCreated
        (defineAction createPuzzleTemplate.schema
           createPuzzleTemplate.handler x context rt)
  | invokeUpdatePuzzleTemplate x =>
      answer TemplateUpdated
        (defineAction updatePuzzleTemplate.schema
           updatePuzzleTemplate.handler x context rt)
  | invokeListPuzzleTemplates x =>
      answer TemplatesListed
        (defineAction listPuzzleTemplates.schema
           listPuzzleTemplates.handler x context rt)
  | invokeStartPuzzleSession x =>
      answer SessionStarted
        (defineAction startPuzzleSession.schema
           startPuzzleSession.handler x context rt)
  | invokeCompletePuzzleSession x =>
      answer SessionCompleted
        (defineAction completePuzzleSession.schema
           completePuzzleSession.handler x context rt)
  | invokeRecordPuzzleAttempt x =>
      answer AttemptRecorded
        (defineAction recordPuzzleAttempt.schema
           recordPuzzleAttempt.handler x context rt)
  | invokeListPuzzleSessions x =>
      answer SessionsListed
        (defineAction listPuzzleSessions.schema
           listPuzzleSessions.handler x context rt)
  end.

(** The request that an invocation amounts to, when its schema admits the
    input. *)
Definition parsed (c : Invocation) : option Request :=
  match c with
  | invokeCreatePuzzleTemplate x =>
      option_map CreatePuzzleTemplate (createPuzzleTemplate.schema x)
  | invokeUpdatePuzzleTemplate x =>
      option_map UpdatePuzzleTemplate (updatePuzzleTemplate.schema x)
  | invokeListPuzzleTemplates x =>
      option_map ListPuzzleTemplates (listPuzzleTemplates.schema x)
  | invokeStartPuzzleSession x =>
      option_map StartPuzzleSession (startPuzzleSession.schema x)
  | invokeCompletePuzzleSession x =>
      option_map CompletePuzzleSession (completePuzzleSession.schema x)
  | invokeRecordPuzzleAttempt x =>
      option_map RecordPuzzleAttempt (recordPuzzleAttempt.schema x)
  | invokeListPuzzleSessions x =>
      option_map ListPuzzleSessions (listPuzzleSessions.schema x)
  end.

(** The numbers of a request that the client cannot bind: only the page
    arithmetic of [listPuzzleSessions] can produce one before any
    statement. *)
Definition unbound_page (r : Request) : bool :=
  match r with
  | ListPuzzleSessions i =>
      js_infinite (listPuzzleSessions.pageSize i)
      || js_infinite
           (js_mul (js_sub (listPuzzleSessions.page i) 1)
              (listPuzzleSessions.pageSize i))
  | _ => false
  end.

(** Text without the character of code 0. *)
Fixpoint nul_free (s : string) : bool :=
  match s with
  | EmptyString => true
  | String c s' => negb (Ascii.eqb c Ascii.zero) && nul_free s'
  end.

Definition empty_world : World :=
  {| db := {| templates := []; sessions := []; attempts := [] |};
     journal := [] |}.

(** The worlds that exist: the seed step on the empty storage, then calls. *)
Inductive Reachable (now : Date) : World -> Prop :=
| reach_seed : Reachable now (snd (seed now empty_world))
| reach_call (w : World) (r : Request) (context : ActionAPIContext)
    (rt : Runtime) :
    Reachable now w -> Reachable now (snd (server r context rt w)).

(** The ways in which a call of the user [uid] can change the storage. *)
Inductive Change (uid : string) (d : Db) : Db -> Prop :=
| change_nothing : Change uid d d
| change_new_template (r : PuzzleTemplates.row) :
    ~ In (PuzzleTemplates.id r) (map PuzzleTemplates.id (templates d)) ->
    PuzzleTemplates.userId r = Some uid ->
    PuzzleTemplates.isSystem r = false ->
    Change uid d
      {| templates := templates d ++ [r];
         sessions := sessions d;
         attempts := attempts d |}
| change_template (i : string) (f : PuzzleTemplates.row -> PuzzleTemplates.row) :
    (exists t, In t (templates d)
       /\ PuzzleTemplates.id t = i
       /\ PuzzleTemplates.userId t = Some uid
       /\ PuzzleTemplates.isSystem t = false) ->
    (forall r, PuzzleTemplates.id (f r) = PuzzleTemplates.id r
       /\ PuzzleTemplates.userId (f r) = PuzzleTemplates.userId r
       /\ PuzzleTemplates.isSystem (f r) = PuzzleTemplates.isSystem r
       /\ PuzzleTemplates.createdAt (f r) = PuzzleTemplates.createdAt r) ->
    Change uid d
      {| templates :=
           map (fun r => if String.eqb (PuzzleTemplates.id r) i then f r else r)
             (templates d);
         sessions := sessions d;
         attempts := attempts d |}
| change_new_session (r : PuzzleSessions.row) :
    ~ In (PuzzleSessions.id r) (map PuzzleSessions.id (sessions d)) ->
    PuzzleSessions.userId r = uid ->
    (exists t, In t (templates d)
       /\ PuzzleTemplates.id t = PuzzleSessions.puzzleTemplateId r
       /\ (PuzzleTemplates.userId t = Some uid
           \/ PuzzleTemplates.isSystem t = true)) ->
    PuzzleSessions.status r = Some "in-progress" ->
    PuzzleSessions.completedAt r = None ->
    PuzzleSessions.score r = None ->
    PuzzleSessions.timeTakenSeconds r = None ->
    Change uid d
      {| templates := templates d;
         sessions := sessions d ++ [r];
         attempts := attempts d |}
| change_session (i : string) (f : PuzzleSessions.row -> PuzzleSessions.row) :
    (exists s, In s (sessions d)
       /\ PuzzleSessions.id s = i
       /\ PuzzleSessions.userId s = uid) ->
    (forall r, PuzzleSessions.id (f r) = PuzzleSessions.id r
       /\ PuzzleSessions.userId (f r) = PuzzleSessions.userId r
       /\ PuzzleSessions.puzzleTemplateId (f r) =
            PuzzleSessions.puzzleTemplateId r
       /\ PuzzleSessions.startedAt (f r) = PuzzleSessions.startedAt r
       /\ (PuzzleSessions.status (f r) = Some "completed"
           \/ PuzzleSessions.status (f r) = Some "abandoned")
       /\ PuzzleSessions.completedAt (f r) <> None) ->
    Change uid d
      {| templates := templates d;
         sessions :=
           map (fun r => if String.eqb (PuzzleSessions.id r) i then f r else r)
             (sessions d);
         attempts := attempts d |}
| change_new_attempt (r : PuzzleAttempts.row) :
    ~ In (PuzzleAttempts.id r) (map PuzzleAttempts.id (attempts d)) ->
    (exists s, In s (sessions d)
       /\ PuzzleSessions.id s = PuzzleAttempts.sessionId r
       /\ PuzzleSessions.userId s = uid) ->
    Change uid d
      {| templates := templates d;
         sessions := sessions d;
         attempts := attempts d ++ [r] |}.

(** The references that the tables declare: a session names a stored
    template, an attempt names a stored session. *)
Definition referential (d : Db) : Prop :=
  (forall s, In s (sessions d) ->
     exists t, In t (templates d)
       /\ PuzzleTemplates.id t = PuzzleSessions.puzzleTemplateId s)
  /\ (forall a, In a (attempts d) ->
        exists s, In s (sessions d)
          /\ PuzzleSessions.id s = PuzzleAttempts.sessionId a).

(** A template is the built-in one or a user's. *)
Definition template_origin (now : Date) (t : PuzzleTemplates.row) : Prop :=
  t = seed_template now
  \/ (PuzzleTemplates.isSystem t = false
      /\ exists uid, PuzzleTemplates.userId t = Some uid).

(** A session is in progress and open, or ended and closed. *)
Definition session_lifecycle (s : PuzzleSessions.row) : Prop :=
  (PuzzleSessions.status s = Some "in-progress"
   /\ PuzzleSessions.completedAt s = None
   /\ PuzzleSessions.score s = None
   /\ PuzzleSessions.timeTakenSeconds s = None)
  \/ ((PuzzleSessions.status s = Some "completed"
       \/ PuzzleSessions.status s = Some "abandoned")
      /\ PuzzleSessions.completedAt s <> None).

(** The columns of a row that say which row it is and whose. *)
Definition template_identity (t : PuzzleTemplates.row) :=
  (PuzzleTemplates.id t, PuzzleTemplates.userId t,
   PuzzleTemplates.isSystem t, PuzzleTemplates.createdAt t).

Definition session_identity (s : PuzzleSessions.row) :=
  (PuzzleSessions.id s, PuzzleSessions.userId s,
   PuzzleSessions.puzzleTemplateId s, PuzzleSessions.startedAt s).

(** The write statements of the journal. *)
Definition is_write (s : Statement) : bool :=
  match s with SELECT _ => false | INSERT _ => true | UPDATE _ => true end.

(** The items that a list action answered with. *)
Definition session_items
    (o : Outcome (Envelope listPuzzleSessions.result.t))
    : list PuzzleSessions.row :=
  match o with
  | Return r => listPuzzleSessions.result.items (data r)
  | Throw _ => []
  end.

Definition template_items
    (o : Outcome (Envelope listPuzzleTemplates.result.t))
    : list PuzzleTemplates.row :=
  match o with
  | Return r => listPuzzleTemplates.result.items (data r)
  | Throw _ => []
  end.

(** Page [p] of size [n] of the caller's sessions under the two filters. *)
Definition session_page (t s : option string) (context : ActionAPIContext)
    (rt : Runtime) (w : World) (n : Z) (p : nat) : list PuzzleSessions.row :=
  session_items
    (fst (listPuzzleSessions.handler
            {| listPuzzleSessions.puzzleTemplateId := t;
               listPuzzleSessions.status := s;
               listPuzzleSessions.page := Z.of_nat p;
               listPuzzleSessions.pageSize := n |} context rt w)).

Set Implicit Arguments.

(* ================================================================== *)
(** * Sample requests and storage *)

Module Sample.
Definition alice : User.t := {| User.id := "u1" |}.
Definition bob : User.t := {| User.id := "u2" |}.

Definition signedIn (u : User.t) : ActionAPIContext :=
  {| locals := Some {| user := Some u |} |}.
Definition anonymous : ActionAPIContext :=
  {| locals := Some {| user := None |} |}.
Definition bare : ActionAPIContext := {| locals := None |}.

Definition rt : Runtime := {| newDate := 5000; randomUUID := "uuid-9" |}.

Definition test_template : PuzzleTemplates.row := {|
  PuzzleTemplates.id := "T";
  PuzzleTemplates.userId := Some "u1";
  PuzzleTemplates.name := "Test";
  PuzzleTemplates.puzzleType := Some "sudoku";
  PuzzleTemplates.difficulty := None;
  PuzzleTemplates.description := Some "nine by nine";
  PuzzleTemplates.dataJson := None;
  PuzzleTemplates.solutionJson := None;
  PuzzleTemplates.isSystem := false;
  PuzzleTemplates.createdAt := 1000;
  PuzzleTemplates.updatedAt := 1000
|}.

Definition session (id tid uid : string) (st : string) : PuzzleSessions.row := {|
  PuzzleSessions.id := id;
  PuzzleSessions.puzzleTemplateId := tid;
  PuzzleSessions.userId := uid;
  PuzzleSessions.startedAt := 2000;
  PuzzleSessions.completedAt := None;
  PuzzleSessions.status := Some st;
  PuzzleSessions.score := None;
  PuzzleSessions.timeTakenSeconds := None
|}.

Definition attempt1 : PuzzleAttempts.row := {|
  PuzzleAttempts.id := "a1";
  PuzzleAttempts.sessionId := "s1";
  PuzzleAttempts.attemptIndex := 1;
  PuzzleAttempts.attemptDataJson := None;
  PuzzleAttempts.isCorrect := false;
  PuzzleAttempts.createdAt := 2500
|}.

Definition store : Db := {|
  templates := [seed_template 0; test_template];
  sessions := [session "s1" "T" "u1" "in-progress";
               session "s2" "system-puzzle-sample" "u1" "completed";
               session "s3" "system-puzzle-sample" "u2" "in-progress";
               session "s4" "T" "u1" "abandoned"];
  attempts := [attempt1]
|}.

Definition world : World := {| db := store; journal := [] |}.

Definition new_test : createPuzzleTemplate.input := {|
  createPuzzleTemplate.name := "Test";
  createPuzzleTemplate.puzzleType := Some "sudoku";
  createPuzzleTemplate.difficulty := None;
  createPuzzleTemplate.description := None;
  createPuzzleTemplate.dataJson := None;
  createPuzzleTemplate.solutionJson := None
|}.

Definition hack : updatePuzzleTemplate.input := {|
  updatePuzzleTemplate.id := "T";
  updatePuzzleTemplate.name := Some "Hack";
  updatePuzzleTemplate.puzzleType := None;
  updatePuzzleTemplate.difficulty := None;
  updatePuzzleTemplate.description := None;
  updatePuzzleTemplate.dataJson := None;
  updatePuzzleTemplate.solutionJson := None
|}.

Definition abandon_s2 : completePuzzleSession.input := {|
  completePuzzleSession.sessionId := "s2";
  completePuzzleSession.status := completePuzzleSession.abandoned;
  completePuzzleSession.score := Some 12.5%float;
  completePuzzleSession.timeTakenSeconds := None
|}.

Definition guess : recordPuzzleAttempt.input := {|
  recordPuzzleAttempt.sessionId := "s1";
  recordPuzzleAttempt.attemptIndex := 1;
  recordPuzzleAttempt.attemptDataJson := Some "[1,2,3]";
  recordPuzzleAttempt.isCorrect := false
|}.

Definition late_guess : recordPuzzleAttempt.input := {|
  recordPuzzleAttempt.sessionId := "s4";
  recordPuzzleAttempt.attemptIndex := 7;
  recordPuzzleAttempt.attemptDataJson := None;
  recordPuzzleAttempt.isCorrect := true
|}.

Definition second_of_one : listPuzzleSessions.input := {|
  listPuzzleSessions.puzzleTemplateId := None;
  listPuzzleSessions.status := Some EmptyString;
  listPuzzleSessions.page := 2;
  listPuzzleSessions.pageSize := 1
|}.

Definition rt2 : Runtime := {| newDate := 6000; randomUUID := "uuid-10" |}.

Definition rename_new : updatePuzzleTemplate.input := {|
  updatePuzzleTemplate.id := "uuid-9";
  updatePuzzleTemplate.name := Some "Renamed";
  updatePuzzleTemplate.puzzleType := None;
  updatePuzzleTemplate.difficulty := None;
  updatePuzzleTemplate.description := None;
  updatePuzzleTemplate.dataJson := None;
  updatePuzzleTemplate.solutionJson := None
|}.

Definition play_new : startPuzzleSession.input :=
  {| startPuzzleSession.puzzleTemplateId := "uuid-9" |}.

Definition play_sample : startPuzzleSession.input :=
  {| startPuzzleSession.puzzleTemplateId := "system-puzzle-sample" |}.

Definition finish_new : completePuzzleSession.input := {|
  completePuzzleSession.sessionId := "uuid-9";
  completePuzzleSession.status := completePuzzleSession.completed;
  completePuzzleSession.score := None;
  completePuzzleSession.timeTakenSeconds := Some 42
|}.

Definition guess_new : recordPuzzleAttempt.input := {|
  recordPuzzleAttempt.sessionId := "uuid-9";
  recordPuzzleAttempt.attemptIndex := 1;
  recordPuzzleAttempt.attemptDataJson := None;
  recordPuzzleAttempt.isCorrect := true
|}.

Definition wanted : listPuzzleSessions.wire.t := {|
  listPuzzleSessions.wire.puzzleTemplateId := None;
  listPuzzleSessions.wire.status := Some "completed";
  listPuzzleSessions.wire.page := None;
  listPuzzleSessions.wire.pageSize := Some 100
|}.

Definition admitted : listPuzzleSessions.input := {|
  listPuzzleSessions.puzzleTemplateId := None;
  listPuzzleSessions.status := Some "completed";
  listPuzzleSessions.page := 1;
  listPuzzleSessions.pageSize := 100
|}.

Definition retitle_wire : updatePuzzleTemplate.wire.t := {|
  updatePuzzleTemplate.wire.id := Some "T";
  updatePuzzleTemplate.wire.name := Some "Nine";
  updatePuzzleTemplate.wire.puzzleType := None;
  updatePuzzleTemplate.wire.difficulty := Some "hard";
  updatePuzzleTemplate.wire.description := Some EmptyString;
  updatePuzzleTemplate.wire.dataJson := None;
  updatePuzzleTemplate.wire.solutionJson := None
|}.

Definition retitle : updatePuzzleTemplate.input := {|
  updatePuzzleTemplate.id := "T";
  updatePuzzleTemplate.name := Some "Nine";
  updatePuzzleTemplate.puzzleType := None;
  updatePuzzleTemplate.difficulty := Some "hard";
  updatePuzzleTemplate.description := Some EmptyString;
  updatePuzzleTemplate.dataJson := None;
  updatePuzzleTemplate.solutionJson := None
|}.

(** A completion that the schema admits, with a time beyond the safe
    integers, and the storage after it. *)
Definition slow_wire : completePuzzleSession.wire.t := {|
  completePuzzleSession.wire.sessionId := Some "s1";
  completePuzzleSession.wire.status := None;
  completePuzzleSession.wire.score := None;
  completePuzzleSession.wire.timeTakenSeconds := Some 9007199254740992
|}.

Definition slow : completePuzzleSession.input := {|
  completePuzzleSession.sessionId := "s1";
  completePuzzleSession.status := completePuzzleSession.completed;
  completePuzzleSession.score := None;
  completePuzzleSession.timeTakenSeconds := Some 9007199254740992
|}.

Definition stuck : World :=
  snd (completePuzzleSession.handler slow (signedIn alice) rt world).

(** A completion with an infinite score. *)
Definition boundless_wire : completePuzzleSession.wire.t := {|
  completePuzzleSession.wire.sessionId := Some "s1";
  completePuzzleSession.wire.status := None;
  completePuzzleSession.wire.score := Some infinity;
  completePuzzleSession.wire.timeTakenSeconds := None
|}.

Definition boundless : completePuzzleSession.input := {|
  completePuzzleSession.sessionId := "s1";
  completePuzzleSession.status := completePuzzleSession.completed;
  completePuzzleSession.score := Some infinity;
  completePuzzleSession.timeTakenSeconds := None
|}.

(** A page far away. *)
Definition far_wire : listPuzzleSessions.wire.t := {|
  listPuzzleSessions.wire.puzzleTemplateId := None;
  listPuzzleSessions.wire.status := None;
  listPuzzleSessions.wire.page := Some 100000000000000000;
  listPuzzleSessions.wire.pageSize := Some 100
|}.

Definition far : listPuzzleSessions.input := {|
  listPuzzleSessions.puzzleTemplateId := None;
  listPuzzleSessions.status := None;
  listPuzzleSessions.page := 100000000000000000;
  listPuzzleSessions.pageSize := 100
|}.

(** A template without a name. *)
Definition nameless : createPuzzleTemplate.wire.t := {|
  createPuzzleTemplate.wire.name := None;
  createPuzzleTemplate.wire.puzzleType := None;
  createPuzzleTemplate.wire.difficulty := None;
  createPuzzleTemplate.wire.description := None;
  createPuzzleTemplate.wire.dataJson := None;
  createPuzzleTemplate.wire.solutionJson := None
|}.

(** The seeded storage after [bob] started the built-in puzzle. *)
Definition played : World :=
  snd (server
         (StartPuzzleSession
            {| startPuzzleSession.puzzleTemplateId := "system-puzzle-sample" |})
         (signedIn bob) rt (snd (seed 0 empty_world))).

Definition harder : updatePuzzleTemplate.input := {|
  updatePuzzleTemplate.id := "T";
  updatePuzzleTemplate.name := None;
  updatePuzzleTemplate.puzzleType := None;
  updatePuzzleTemplate.difficulty := Some "hard";
  updatePuzzleTemplate.description := Some EmptyString;
  updatePuzzleTemplate.dataJson := None;
  updatePuzzleTemplate.solutionJson := None
|}.
End Sample.

(* ================================================================== *)
(** * Basic facts: the monad, [requireUser], selection by key *)

Unset Implicit Arguments.

Lemma requireUser_anonymous (context : ActionAPIContext) (w : World) :
  caller context = None ->
  requireUser context w =
    (Throw (ActionError UNAUTHORIZED
              "You must be signed in to perform this action."), w).
Proof.
  unfold caller, requireUser. intros H. rewrite H. reflexivity.
Qed.

Lemma requireUser_signed_in (context : ActionAPIContext) (u : User.t) (w : World) :
  caller context = Some u -> requireUser context w = (Return u, w).
Proof.
  unfold caller, requireUser. intros H. rewrite H. reflexivity.
Qed.

Lemma bind_requireUser_anonymous {A} (context : ActionAPIContext)
    (k : User.t -> Action A) (w : World) :
  caller context = None ->
  bind (requireUser context) k w =
    (Throw (ActionError UNAUTHORIZED
              "You must be signed in to perform this action."), w).
Proof.
  intros H. unfold bind. rewrite (requireUser_anonymous _ _ H). reflexivity.
Qed.

Lemma bind_requireUser_signed_in {A} (context : ActionAPIContext) (u : User.t)
    (k : User.t -> Action A) (w : World) :
  caller context = Some u -> bind (requireUser context) k w = k u w.
Proof.
  intros H. unfold bind. rewrite (requireUser_signed_in _ _ _ H). reflexivity.
Qed.

Lemma select_templates (q : list PuzzleTemplates.row -> list PuzzleTemplates.row)
    (w : World) :
  select tblPuzzleTemplates q w =
    (Return (q (templates (db w))), issue (SELECT TPuzzleTemplates) w).
Proof.
  unfold select. cbn [rows tname readable tblPuzzleTemplates].
  replace (forallb (fun _ : PuzzleTemplates.row => true) (q (templates (db w))))
    with true; [reflexivity |].
  symmetry. apply forallb_forall. reflexivity.
Qed.

Lemma truthy_spec (x : option string) :
  truthy x = true <-> exists v, x = Some v /\ v <> EmptyString.
Proof.
  split.
  - destruct x as [[|c s]|]; simpl; intros H; try discriminate.
    exists (String c s). split; [reflexivity | discriminate].
  - intros [v [-> Hv]]. destruct v; [congruence | reflexivity].
Qed.

Section Selection.
Context {R : Type}.

Lemma filter_empty (f : R -> bool) (l : list R) :
  filter f l = [] <-> (forall x, In x l -> f x = false).
Proof.
  induction l as [|a l IH]; simpl.
  - split; [intros _ x [] | reflexivity].
  - destruct (f a) eqn:Ha.
    + split; [discriminate |].
      intros H. specialize (H a (or_introl Logic.eq_refl)). congruence.
    + rewrite IH. split.
      * intros H x [<-|Hx]; [assumption | apply H, Hx].
      * intros H x Hx. apply H. right. exact Hx.
Qed.

Lemma filter_first (f : R -> bool) (l : list R) (x : R) (rest : list R) :
  filter f l = x :: rest -> In x l /\ f x = true.
Proof.
  intros H. apply filter_In. rewrite H. left. reflexivity.
Qed.

(** Under a key without duplicates, selecting by key yields the row. *)
Lemma filter_by_key (k : R -> string) (l : list R) (x : R) :
  NoDup (map k l) -> In x l ->
  filter (fun y => String.eqb (k y) (k x)) l = [x].
Proof.
  induction l as [|a l IH]; simpl; intros Hnd Hin; [contradiction |].
  inversion Hnd as [|? ? Hnotin Hnd']; subst.
  destruct Hin as [->|Hin].
  - rewrite String.eqb_refl. f_equal.
    apply filter_empty. intros y Hy.
    apply String.eqb_neq. intros E. apply Hnotin. rewrite <- E.
    apply in_map. exact Hy.
  - destruct (String.eqb (k a) (k x)) eqn:E.
    + apply String.eqb_eq in E. exfalso. apply Hnotin. rewrite E.
      apply in_map. exact Hin.
    + apply IH; assumption.
Qed.

Lemma in_firstn (n : nat) (l : list R) (x : R) : In x (firstn n l) -> In x l.
Proof.
  intros H. rewrite <- (firstn_skipn n l). apply in_or_app. left. exact H.
Qed.

Lemma in_skipn (n : nat) (l : list R) (x : R) : In x (skipn n l) -> In x l.
Proof.
  intros H. rewrite <- (firstn_skipn n l). apply in_or_app. right. exact H.
Qed.

Lemma existsb_key_false (k : R -> string) (l : list R) (i : string) :
  existsb (fun x => String.eqb (k x) i) l = false <-> ~ In i (map k l).
Proof.
  induction l as [|a l IH]; simpl.
  - split; [intros _ [] | reflexivity].
  - rewrite orb_false_iff, IH. split.
    + intros [Ha Hl] [E|Hin]; [|exact (Hl Hin)].
      apply String.eqb_neq in Ha. exact (Ha E).
    + intros H. split.
      * apply String.eqb_neq. intros E. apply H. left. exact E.
      * intros Hin. apply H. right. exact Hin.
Qed.
End Selection.

(* ================================================================== *)
(** * createPuzzleTemplate *)

(** C7. For a signed-in caller, [createPuzzleTemplate] appends exactly one
    row to the templates and touches nothing else: the row is owned by the
    caller, is not a system template whatever the input, carries the same
    instant as [createdAt] and [updatedAt], and copies the name and the
    optional fields of the input; the action returns the id of that row.
    This is what happens whenever the generated id is not yet a template id,
    and the action cannot succeed otherwise: the id of a created template is
    distinct from every id that was there. *)
Theorem createPuzzleTemplate_inserts_one_row
    (context : ActionAPIContext) (u : User.t) (rt : Runtime)
    (i : createPuzzleTemplate.input) (w : World) :
  caller context = Some u ->
  let created := {|
    PuzzleTemplates.id := randomUUID rt;
    PuzzleTemplates.userId := Some (User.id u);
    PuzzleTemplates.name := createPuzzleTemplate.name i;
    PuzzleTemplates.puzzleType := createPuzzleTemplate.puzzleType i;
    PuzzleTemplates.difficulty := createPuzzleTemplate.difficulty i;
    PuzzleTemplates.description := createPuzzleTemplate.description i;
    PuzzleTemplates.dataJson := createPuzzleTemplate.dataJson i;
    PuzzleTemplates.solutionJson := createPuzzleTemplate.solutionJson i;
    PuzzleTemplates.isSystem := false;
    PuzzleTemplates.createdAt := newDate rt;
    PuzzleTemplates.updatedAt := newDate rt
  |} in
  let out := createPuzzleTemplate.handler i context rt w in
  (~ In (randomUUID rt) (map PuzzleTemplates.id (templates (db w))) ->
     out =
       (Return {| success := true;
                  data := {| createPuzzleTemplate.result.id := randomUUID rt |} |},
        {| db := {| templates := templates (db w) ++ [created];
                    sessions := sessions (db w);
                    attempts := attempts (db w) |};
           journal := journal w ++ [INSERT TPuzzleTemplates] |}))
  /\ (forall r, fst out = Return r ->
        ~ In (createPuzzleTemplate.result.id (data r))
            (map PuzzleTemplates.id (templates (db w)))).
Proof.
  intros Hu created out. subst out.
  unfold createPuzzleTemplate.handler.
  rewrite (bind_requireUser_signed_in _ _ _ _ Hu).
  unfold bind, insert, ret. simpl.
  destruct (existsb _ _) eqn:E.
  - split.
    + intros Hfresh. apply existsb_key_false in Hfresh.
      rewrite Hfresh in E. discriminate.
    + simpl. intros r Hr. discriminate.
  - apply existsb_key_false in E. split.
    + intros _. reflexivity.
    + simpl. intros r Hr. injection Hr as <-. exact E.
Qed.

Lemma createPuzzleTemplate_inserts_one_row_witness :
  caller (Sample.signedIn Sample.bob) = Some Sample.bob
  /\ forall r,
       fst (createPuzzleTemplate.handler Sample.new_test
              (Sample.signedIn Sample.bob) Sample.rt Sample.world) = Return r ->
       ~ In (createPuzzleTemplate.result.id (data r))
           (map PuzzleTemplates.id (templates (db Sample.world))).
Proof.
  split; [reflexivity |].
  exact (proj2 (createPuzzleTemplate_inserts_one_row
                  (Sample.signedIn Sample.bob) Sample.bob Sample.rt
                  Sample.new_test Sample.world Logic.eq_refl)).
Defined.

(* ================================================================== *)
(** * listPuzzleTemplates *)

(** C8. For a signed-in caller, [listPuzzleTemplates] returns the stored
    templates that the caller owns when [includeSystem] is false, and those
    that the caller owns or that are system templates when it is true (the
    value the schema gives a missing [includeSystem]); [total] is the length
    of [items]; the storage is not changed; and every item of the answer
    without system templates is an item of the answer with them. *)
Theorem listPuzzleTemplates_items
    (context : ActionAPIContext) (u : User.t) (rt : Runtime) (w : World) :
  caller context = Some u ->
  let answer (b : bool) :=
    listPuzzleTemplates.handler
      {| listPuzzleTemplates.includeSystem := b |} context rt w in
  let owned (t : PuzzleTemplates.row) :=
    PuzzleTemplates.userId t = Some (User.id u) in
  let system (t : PuzzleTemplates.row) :=
    PuzzleTemplates.isSystem t = true in
  exists mine visible,
    answer false =
      (Return {| success := true;
                 data := {| listPuzzleTemplates.result.items := mine;
                            listPuzzleTemplates.result.total :=
                              Z.of_nat (length mine) |} |},
       issue (SELECT TPuzzleTemplates) w)
    /\ answer true =
      (Return {| success := true;
                 data := {| listPuzzleTemplates.result.items := visible;
                            listPuzzleTemplates.result.total :=
                              Z.of_nat (length visible) |} |},
       issue (SELECT TPuzzleTemplates) w)
    /\ (forall t, In t mine <-> In t (templates (db w)) /\ owned t)
    /\ (forall t, In t visible <->
                  In t (templates (db w)) /\ (owned t \/ system t))
    /\ (exists keep, mine = filter keep (templates (db w)))
    /\ (exists keep, visible = filter keep (templates (db w)))
    /\ incl mine visible
    /\ listPuzzleTemplates.schema
         {| listPuzzleTemplates.wire.includeSystem := None |} =
       Some {| listPuzzleTemplates.includeSystem := true |}.
Proof.
  intros Hu answer owned system. subst answer.
  unfold listPuzzleTemplates.handler.
  do 2 rewrite (bind_requireUser_signed_in _ _ _ _ Hu).
  unfold bind. rewrite !select_templates. unfold ret. simpl.
  do 2 eexists. split; [reflexivity |]. split; [reflexivity |].
  assert (Hown : forall t,
    sql.eq PuzzleTemplates.userId (User.id u) t = true <-> owned t).
  { intros t. unfold sql.eq, sql.same, sql.nullable_text, owned.
    destruct (PuzzleTemplates.userId t) as [o|].
    - rewrite String.eqb_eq. split; congruence.
    - split; discriminate. }
  assert (Hsys : forall t,
    sql.eq PuzzleTemplates.isSystem true t = true <-> system t).
  { intros t. unfold sql.eq, sql.same, sql.bool_bool, system.
    destruct (PuzzleTemplates.isSystem t); simpl; split; congruence. }
  unfold sql.where_.
  assert (Hor : forall t,
    sql.or (sql.eq PuzzleTemplates.userId (User.id u))
           (sql.eq PuzzleTemplates.isSystem true) t = true <->
    owned t \/ system t).
  { intros t. unfold sql.or. rewrite orb_true_iff, Hown, Hsys. tauto. }
  split; [intros t; rewrite filter_In, Hown; tauto |].
  split; [intros t; rewrite filter_In, Hor; tauto |].
  split; [eexists; reflexivity |].
  split; [eexists; reflexivity |].
  split; [| reflexivity].
  intros t. rewrite !filter_In, Hown, Hor. tauto.
Qed.

Lemma listPuzzleTemplates_items_witness :
  caller (Sample.signedIn Sample.alice) = Some Sample.alice
  /\ exists mine visible,
       listPuzzleTemplates.handler
         {| listPuzzleTemplates.includeSystem := false |}
         (Sample.signedIn Sample.alice) Sample.rt Sample.world =
         (Return {| success := true;
                    data := {| listPuzzleTemplates.result.items := mine;
                               listPuzzleTemplates.result.total :=
                                 Z.of_nat (length mine) |} |},
          issue (SELECT TPuzzleTemplates) Sample.world)
       /\ incl mine visible.
Proof.
  split; [reflexivity |].
  destruct (listPuzzleTemplates_items (Sample.signedIn Sample.alice)
              Sample.alice Sample.rt Sample.world Logic.eq_refl)
    as [mine [visible [Hm [_ [_ [_ [_ [_ [Hincl _]]]]]]]]].
  exists mine, visible. split; [exact Hm | exact Hincl].
Defined.

(* ================================================================== *)
(** * updatePuzzleTemplate *)

Lemma differs_spec (owner : option string) (uid : string) :
  updatePuzzleTemplate.differs owner uid = true <-> owner <> Some uid.
Proof.
  unfold updatePuzzleTemplate.differs. destruct owner as [o|].
  - rewrite negb_true_iff, String.eqb_neq. split; congruence.
  - split; [discriminate | reflexivity].
Qed.

Lemma sample_store_consistent : consistent Sample.store.
Proof.
  unfold consistent, primary_key. simpl.
  repeat split; repeat constructor; simpl; intuition discriminate.
Qed.

(** The handler of a signed-in caller, by the outcome of its one
    selection. *)
Lemma updatePuzzleTemplate_unfold
    (context : ActionAPIContext) (u : User.t) (rt : Runtime)
    (i : updatePuzzleTemplate.input) (w : World) :
  caller context = Some u ->
  updatePuzzleTemplate.handler i context rt w =
    match filter (fun r => String.eqb (PuzzleTemplates.id r)
                             (updatePuzzleTemplate.id i))
            (templates (db w)) with
    | [] =>
        (Throw (ActionError NOT_FOUND "Puzzle template not found."),
         issue (SELECT TPuzzleTemplates) w)
    | existing :: _ =>
        if updatePuzzleTemplate.differs (PuzzleTemplates.userId existing)
             (User.id u)
           || PuzzleTemplates.isSystem existing
        then (Throw (ActionError FORBIDDEN
                       "You cannot modify this puzzle template."),
              issue (SELECT TPuzzleTemplates) w)
        else
          (Return {| success := true;
                     data := {| updatePuzzleTemplate.result.id :=
                                  updatePuzzleTemplate.id i |} |},
           {| db := {|
                templates :=
                  map (fun r =>
                         if String.eqb (PuzzleTemplates.id r)
                              (updatePuzzleTemplate.id i)
                         then updatePuzzleTemplate.set {|
                           updatePuzzleTemplate.updates.name :=
                             spread_if_truthy (updatePuzzleTemplate.name i);
                           updatePuzzleTemplate.updates.puzzleType :=
                             spread_if_truthy (updatePuzzleTemplate.puzzleType i);
                           updatePuzzleTemplate.updates.difficulty :=
                             spread_if_truthy (updatePuzzleTemplate.difficulty i);
                           updatePuzzleTemplate.updates.description :=
                             spread_if_truthy (updatePuzzleTemplate.description i);
                           updatePuzzleTemplate.updates.dataJson :=
                             spread_if_truthy (updatePuzzleTemplate.dataJson i);
                           updatePuzzleTemplate.updates.solutionJson :=
                             spread_if_truthy (updatePuzzleTemplate.solutionJson i);
                           updatePuzzleTemplate.updates.updatedAt := newDate rt
                         |} r
                         else r)
                      (templates (db w));
                sessions := sessions (db w);
                attempts := attempts (db w) |};
              journal :=
                (journal w ++ [SELECT TPuzzleTemplates])
                  ++ [UPDATE TPuzzleTemplates] |})
    end.
Proof.
  intros Hu. unfold updatePuzzleTemplate.handler.
  rewrite (bind_requireUser_signed_in _ _ _ _ Hu).
  unfold bind. rewrite select_templates.
  unfold sql.where_, sql.eq, sql.same, sql.text_text. simpl.
  destruct (filter _ _) as [|existing rest]; [reflexivity |].
  destruct (_ || _); reflexivity.
Qed.

(** C2. For a signed-in caller and a storage whose template ids are a
    key, [updatePuzzleTemplate] throws [NOT_FOUND] exactly when no stored
    template has the given id, and [FORBIDDEN] exactly when the template
    with that id is not owned by the caller or is a system template, also
    when the caller is the [userId] of that system template; whenever the
    action throws, the storage is what it was. *)
Theorem updatePuzzleTemplate_refusals
    (context : ActionAPIContext) (u : User.t) (rt : Runtime)
    (i : updatePuzzleTemplate.input) (w : World) :
  caller context = Some u ->
  primary_key tblPuzzleTemplates (db w) ->
  let out := updatePuzzleTemplate.handler i context rt w in
  let target (t : PuzzleTemplates.row) :=
    In t (templates (db w))
    /\ PuzzleTemplates.id t = updatePuzzleTemplate.id i in
  (raises NOT_FOUND (fst out) <-> ~ exists t, target t)
  /\ (raises FORBIDDEN (fst out) <->
      exists t, target t
        /\ (PuzzleTemplates.userId t <> Some (User.id u)
            \/ PuzzleTemplates.isSystem t = true))
  /\ (forall t, target t -> PuzzleTemplates.isSystem t = true ->
        PuzzleTemplates.userId t = Some (User.id u) ->
        raises FORBIDDEN (fst out))
  /\ (forall e, fst out = Throw e -> db (snd out) = db w).
Proof.
  intros Hu Hkey out target. subst out.
  rewrite (updatePuzzleTemplate_unfold context u rt i w Hu).
  assert (Hforbid : forall t, target t ->
    filter (fun r => String.eqb (PuzzleTemplates.id r)
                       (updatePuzzleTemplate.id i)) (templates (db w)) = [t]).
  { intros t [Hin Hid]. rewrite <- Hid.
    apply (filter_by_key PuzzleTemplates.id); assumption. }
  destruct (filter _ _) as [|existing rest] eqn:E.
  - assert (Hnone : ~ exists t, target t).
    { intros [t Ht]. specialize (Hforbid t Ht). discriminate. }
    simpl. repeat split.
    + intros _. exact Hnone.
    + intros _. eexists. reflexivity.
    + intros [m Hm]. discriminate.
    + intros [t [Ht _]]. exfalso. apply Hnone. exists t. exact Ht.
    + intros t Ht. exfalso. apply Hnone. exists t. exact Ht.
  - destruct (filter_first _ _ _ _ E) as [Hin Hid].
    apply String.eqb_eq in Hid.
    assert (Hex : target existing) by (split; assumption).
    assert (Honly : forall t, target t -> t = existing).
    { intros t Ht. specialize (Hforbid t Ht). congruence. }
    destruct (_ || _) eqn:C; simpl.
    + apply orb_true_iff in C. rewrite differs_spec in C.
      repeat split.
      * intros [m Hm]. discriminate.
      * intros Hno. exfalso. apply Hno. exists existing. exact Hex.
      * intros _. exists existing. split; [exact Hex | exact C].
      * intros _. eexists. reflexivity.
      * intros _ _ _ _. eexists. reflexivity.
    + apply orb_false_iff in C. destruct C as [Cown Csys].
      assert (Hown : PuzzleTemplates.userId existing = Some (User.id u)).
      { destruct (PuzzleTemplates.userId existing) as [o|] eqn:Eo;
          simpl in Cown; [| discriminate].
        apply negb_false_iff, String.eqb_eq in Cown. congruence. }
      repeat split.
      * intros [m Hm]. discriminate.
      * intros Hno. exfalso. apply Hno. exists existing. exact Hex.
      * intros [m Hm]. discriminate.
      * intros [t [Ht [Hc|Hc]]]; rewrite (Honly t Ht) in Hc;
          [contradiction | congruence].
      * intros t Ht Hs _. rewrite (Honly t Ht) in Hs. congruence.
      * intros e He. discriminate.
Qed.

Lemma updatePuzzleTemplate_refusals_witness :
  let out :=
    updatePuzzleTemplate.handler Sample.hack (Sample.signedIn Sample.bob)
      Sample.rt Sample.world in
  caller (Sample.signedIn Sample.bob) = Some Sample.bob
  /\ primary_key tblPuzzleTemplates (db Sample.world)
  /\ (forall e, fst out = Throw e -> db (snd out) = db Sample.world).
Proof.
  split; [reflexivity |].
  split; [exact (proj1 sample_store_consistent) |].
  exact (proj2 (proj2 (proj2
    (updatePuzzleTemplate_refusals (Sample.signedIn Sample.bob) Sample.bob
       Sample.rt Sample.hack Sample.world Logic.eq_refl
       (proj1 sample_store_consistent))))).
Defined.

(** C6. When a signed-in caller updates a template that it owns and that
    is not a system template, the action succeeds and rewrites the
    templates row by row: a row with another id is left as it is; in the
    row with the given id each of [name], [puzzleType], [difficulty],
    [description], [dataJson] and [solutionJson] takes the value of the
    input when that value is a non-empty string and keeps its stored value
    when the input names none or names the empty string,
    [updatedAt] becomes the current instant whatever else the input holds,
    and [id], [userId], [isSystem] and [createdAt] stay.  Sessions and
    attempts are untouched. *)
Theorem updatePuzzleTemplate_writes
    (context : ActionAPIContext) (u : User.t) (rt : Runtime)
    (i : updatePuzzleTemplate.input) (w : World) (t : PuzzleTemplates.row) :
  caller context = Some u ->
  primary_key tblPuzzleTemplates (db w) ->
  In t (templates (db w)) ->
  PuzzleTemplates.id t = updatePuzzleTemplate.id i ->
  PuzzleTemplates.userId t = Some (User.id u) ->
  PuzzleTemplates.isSystem t = false ->
  let out := updatePuzzleTemplate.handler i context rt w in
  let chosen {A} (given : option string) (wrap : string -> A) (stored : A) : A :=
    match given with
    | Some (String c v) => wrap (String c v)
    | Some EmptyString => stored
    | None => stored
    end in
  fst out =
    Return {| success := true;
              data := {| updatePuzzleTemplate.result.id :=
                           updatePuzzleTemplate.id i |} |}
  /\ sessions (db (snd out)) = sessions (db w)
  /\ attempts (db (snd out)) = attempts (db w)
  /\ length (templates (db (snd out))) = length (templates (db w))
  /\ forall n r, nth_error (templates (db w)) n = Some r ->
       exists r', nth_error (templates (db (snd out))) n = Some r'
         /\ (PuzzleTemplates.id r <> updatePuzzleTemplate.id i -> r' = r)
         /\ (PuzzleTemplates.id r = updatePuzzleTemplate.id i ->
             PuzzleTemplates.name r' =
               chosen (updatePuzzleTemplate.name i) (fun v => v)
                 (PuzzleTemplates.name r)
             /\ PuzzleTemplates.puzzleType r' =
               chosen (updatePuzzleTemplate.puzzleType i) Some
                 (PuzzleTemplates.puzzleType r)
             /\ PuzzleTemplates.difficulty r' =
               chosen (updatePuzzleTemplate.difficulty i) Some
                 (PuzzleTemplates.difficulty r)
             /\ PuzzleTemplates.description r' =
               chosen (updatePuzzleTemplate.description i) Some
                 (PuzzleTemplates.description r)
             /\ PuzzleTemplates.dataJson r' =
               chosen (updatePuzzleTemplate.dataJson i) Some
                 (PuzzleTemplates.dataJson r)
             /\ PuzzleTemplates.solutionJson r' =
               chosen (updatePuzzleTemplate.solutionJson i) Some
                 (PuzzleTemplates.solutionJson r)
             /\ PuzzleTemplates.updatedAt r' = newDate rt
             /\ PuzzleTemplates.id r' = PuzzleTemplates.id r
             /\ PuzzleTemplates.userId r' = PuzzleTemplates.userId r
             /\ PuzzleTemplates.isSystem r' = PuzzleTemplates.isSystem r
             /\ PuzzleTemplates.createdAt r' = PuzzleTemplates.createdAt r).
Proof.
  intros Hu Hkey Hin Hid Hown Hsys out chosen. subst out.
  rewrite (updatePuzzleTemplate_unfold context u rt i w Hu).
  pose proof (filter_by_key PuzzleTemplates.id (templates (db w)) t Hkey Hin)
    as Hsel.
  rewrite Hid in Hsel. rewrite Hsel.
  rewrite Hown, Hsys. unfold updatePuzzleTemplate.differs.
  rewrite String.eqb_refl. simpl.
  split; [reflexivity |]. split; [reflexivity |]. split; [reflexivity |].
  split; [apply length_map |].
  intros n r Hn. rewrite nth_error_map, Hn. simpl.
  eexists. split; [reflexivity |].
  destruct (String.eqb (PuzzleTemplates.id r) (updatePuzzleTemplate.id i)) eqn:E.
  - split.
    + apply String.eqb_eq in E. intros Hne. contradiction.
    + intros _. unfold updatePuzzleTemplate.set, chosen, spread_if_truthy. simpl.
      repeat split;
        match goal with
        | |- context [truthy ?x] => destruct x as [[|c s]|]; reflexivity
        end.
  - apply String.eqb_neq in E. split; [reflexivity | contradiction].
Qed.

Lemma updatePuzzleTemplate_writes_witness :
  let out :=
    updatePuzzleTemplate.handler Sample.harder (Sample.signedIn Sample.alice)
      Sample.rt Sample.world in
  (caller (Sample.signedIn Sample.alice) = Some Sample.alice
   /\ primary_key tblPuzzleTemplates (db Sample.world)
   /\ In Sample.test_template (templates (db Sample.world))
   /\ PuzzleTemplates.id Sample.test_template = "T"
   /\ PuzzleTemplates.userId Sample.test_template = Some "u1"
   /\ PuzzleTemplates.isSystem Sample.test_template = false)
  /\ fst out =
       Return {| success := true;
                 data := {| updatePuzzleTemplate.result.id := "T" |} |}.
Proof.
  split.
  - repeat split; try reflexivity.
    + exact (proj1 sample_store_consistent).
    + simpl. right. left. reflexivity.
  - exact (proj1
      (updatePuzzleTemplate_writes (Sample.signedIn Sample.alice)
         Sample.alice Sample.rt Sample.harder Sample.world
         Sample.test_template
         Logic.eq_refl (proj1 sample_store_consistent)
         (or_intror (or_introl Logic.eq_refl))
         Logic.eq_refl Logic.eq_refl Logic.eq_refl)).
Defined.

(* ================================================================== *)
(** * startPuzzleSession *)

Lemma usable_template_spec (uid tid : string) (t : PuzzleTemplates.row) :
  sql.and (sql.eq PuzzleTemplates.id tid)
    (sql.or (sql.eq PuzzleTemplates.userId uid)
            (sql.eq PuzzleTemplates.isSystem true)) t = true
  <-> PuzzleTemplates.id t = tid
      /\ (PuzzleTemplates.userId t = Some uid
          \/ PuzzleTemplates.isSystem t = true).
Proof.
  unfold sql.and, sql.or, sql.eq, sql.same, sql.text_text, sql.nullable_text,
    sql.bool_bool.
  rewrite andb_true_iff, orb_true_iff, String.eqb_eq.
  destruct (PuzzleTemplates.userId t) as [o|];
    destruct (PuzzleTemplates.isSystem t); simpl;
    try rewrite String.eqb_eq; intuition congruence.
Qed.

(** The handler of a signed-in caller, by the outcome of its one
    selection. *)
Lemma startPuzzleSession_unfold
    (context : ActionAPIContext) (u : User.t) (rt : Runtime)
    (i : startPuzzleSession.input) (w : World) :
  caller context = Some u ->
  startPuzzleSession.handler i context rt w =
    match filter
            (sql.and
               (sql.eq PuzzleTemplates.id (startPuzzleSession.puzzleTemplateId i))
               (sql.or (sql.eq PuzzleTemplates.userId (User.id u))
                       (sql.eq PuzzleTemplates.isSystem true)))
            (templates (db w)) with
    | [] =>
        (Throw (ActionError NOT_FOUND "Puzzle template not found."),
         issue (SELECT TPuzzleTemplates) w)
    | template :: _ =>
        if existsb (fun x => String.eqb (PuzzleSessions.id x) (randomUUID rt))
             (sessions (db w))
        then (Throw (PrimaryKeyViolation TPuzzleSessions),
              issue (INSERT TPuzzleSessions) (issue (SELECT TPuzzleTemplates) w))
        else
          (Return {| success := true;
                     data := {| startPuzzleSession.result.id := randomUUID rt;
                                startPuzzleSession.result.puzzleTemplateId :=
                                  PuzzleTemplates.id template |} |},
           {| db := {|
                templates := templates (db w);
                sessions := sessions (db w) ++ [{|
                  PuzzleSessions.id := randomUUID rt;
                  PuzzleSessions.puzzleTemplateId := PuzzleTemplates.id template;
                  PuzzleSessions.userId := User.id u;
                  PuzzleSessions.startedAt := newDate rt;
                  PuzzleSessions.completedAt := None;
                  PuzzleSessions.status := Some "in-progress";
                  PuzzleSessions.score := None;
                  PuzzleSessions.timeTakenSeconds := None |}];
                attempts := attempts (db w) |};
              journal := (journal w ++ [SELECT TPuzzleTemplates])
                           ++ [INSERT TPuzzleSessions] |})
    end.
Proof.
  intros Hu. unfold startPuzzleSession.handler.
  rewrite (bind_requireUser_signed_in _ _ _ _ Hu).
  unfold bind. rewrite select_templates.
  unfold sql.where_, insert, ret, throw. simpl.
  destruct (filter _ _) as [|template rest]; [reflexivity |].
  simpl. destruct (existsb _ _); reflexivity.
Qed.

(** C3. For a signed-in caller, [startPuzzleSession] throws [NOT_FOUND]
    exactly when no stored template has the requested id and is owned by the
    caller or is a system template; it never throws [FORBIDDEN], so the
    template of another user that is not a system template is reported as
    not found.  When such a template exists and the generated id is free,
    the action appends one session and changes nothing else: the session is
    owned by the caller, points at the template, is [in-progress], started
    at the current instant and has no [completedAt]; the action returns the
    session id and the template id.  A successful call has done exactly
    that. *)
Theorem startPuzzleSession_starts
    (context : ActionAPIContext) (u : User.t) (rt : Runtime)
    (i : startPuzzleSession.input) (w : World) :
  caller context = Some u ->
  let out := startPuzzleSession.handler i context rt w in
  let usable (t : PuzzleTemplates.row) :=
    In t (templates (db w))
    /\ PuzzleTemplates.id t = startPuzzleSession.puzzleTemplateId i
    /\ (PuzzleTemplates.userId t = Some (User.id u)
        \/ PuzzleTemplates.isSystem t = true) in
  let started := {|
    PuzzleSessions.id := randomUUID rt;
    PuzzleSessions.puzzleTemplateId := startPuzzleSession.puzzleTemplateId i;
    PuzzleSessions.userId := User.id u;
    PuzzleSessions.startedAt := newDate rt;
    PuzzleSessions.completedAt := None;
    PuzzleSessions.status := Some "in-progress";
    PuzzleSessions.score := None;
    PuzzleSessions.timeTakenSeconds := None
  |} in
  let done : Outcome (Envelope startPuzzleSession.result.t) * World :=
    (Return {| success := true;
               data := {| startPuzzleSession.result.id := randomUUID rt;
                          startPuzzleSession.result.puzzleTemplateId :=
                            startPuzzleSession.puzzleTemplateId i |} |},
     {| db := {| templates := templates (db w);
                 sessions := sessions (db w) ++ [started];
                 attempts := attempts (db w) |};
        journal := (journal w ++ [SELECT TPuzzleTemplates])
                     ++ [INSERT TPuzzleSessions] |}) in
  (raises NOT_FOUND (fst out) <-> ~ exists t, usable t)
  /\ ~ raises FORBIDDEN (fst out)
  /\ ((exists t, usable t) ->
      ~ In (randomUUID rt) (map PuzzleSessions.id (sessions (db w))) ->
      out = done)
  /\ (forall r, fst out = Return r -> out = done /\ exists t, usable t).
Proof.
  intros Hu out usable started done. subst out done.
  rewrite (startPuzzleSession_unfold context u rt i w Hu).
  assert (Huse : forall t, usable t <->
    In t (templates (db w))
    /\ sql.and (sql.eq PuzzleTemplates.id (startPuzzleSession.puzzleTemplateId i))
         (sql.or (sql.eq PuzzleTemplates.userId (User.id u))
                 (sql.eq PuzzleTemplates.isSystem true)) t = true).
  { intros t. unfold usable. rewrite usable_template_spec. tauto. }
  destruct (filter _ _) as [|template rest] eqn:E.
  - assert (Hnone : ~ exists t, usable t).
    { intros [t Ht]. apply Huse in Ht. destruct Ht as [Hin Hc].
      rewrite filter_empty in E. rewrite (E t Hin) in Hc. discriminate. }
    simpl. split; [| split; [| split]].
    + split; [intros _; exact Hnone | intros _; eexists; reflexivity].
    + intros [m Hm]. discriminate.
    + intros Hex. contradiction.
    + intros r Hr. discriminate.
  - destruct (filter_first _ _ _ _ E) as [Hin Hc].
    assert (Hex : exists t, usable t).
    { exists template. apply Huse. split; assumption. }
    apply usable_template_spec in Hc. destruct Hc as [Hid _].
    rewrite Hid.
    destruct (existsb _ _) eqn:X; simpl.
    + split; [| split; [| split]].
      * split; [intros [m Hm]; discriminate | intros Hno; contradiction].
      * intros [m Hm]. discriminate.
      * intros _ Hfresh.
        apply (existsb_key_false PuzzleSessions.id) in Hfresh.
        rewrite Hfresh in X. discriminate.
      * intros r Hr. discriminate.
    + split; [| split; [| split]].
      * split; [intros [m Hm]; discriminate | intros Hno; contradiction].
      * intros [m Hm]. discriminate.
      * intros _ _. reflexivity.
      * intros r _. split; [reflexivity | exact Hex].
Qed.

Lemma startPuzzleSession_starts_witness :
  caller (Sample.signedIn Sample.bob) = Some Sample.bob
  /\ ~ raises FORBIDDEN
       (fst (startPuzzleSession.handler
               {| startPuzzleSession.puzzleTemplateId := "T" |}
               (Sample.signedIn Sample.bob) Sample.rt Sample.world)).
Proof.
  split; [reflexivity |].
  exact (proj1 (proj2
    (startPuzzleSession_starts (Sample.signedIn Sample.bob) Sample.bob
       Sample.rt {| startPuzzleSession.puzzleTemplateId := "T" |}
       Sample.world Logic.eq_refl))).
Defined.

(* ================================================================== *)
(** * completePuzzleSession and recordPuzzleAttempt *)

Lemma own_session_spec (uid sid : string) (s : PuzzleSessions.row) :
  sql.and (sql.eq PuzzleSessions.id sid) (sql.eq PuzzleSessions.userId uid) s
    = true
  <-> PuzzleSessions.id s = sid /\ PuzzleSessions.userId s = uid.
Proof.
  unfold sql.and, sql.eq, sql.same, sql.text_text.
  rewrite andb_true_iff, !String.eqb_eq. tauto.
Qed.

(** Whether the selection of the caller's session finds a row. *)
Lemma own_session_selected (uid sid : string) (l : list PuzzleSessions.row) :
  (filter (sql.and (sql.eq PuzzleSessions.id sid)
                   (sql.eq PuzzleSessions.userId uid)) l = []
   /\ ~ exists s, In s l /\ PuzzleSessions.id s = sid
                  /\ PuzzleSessions.userId s = uid)
  \/ (exists s rest,
        filter (sql.and (sql.eq PuzzleSessions.id sid)
                        (sql.eq PuzzleSessions.userId uid)) l = s :: rest
        /\ exists s, In s l /\ PuzzleSessions.id s = sid
                     /\ PuzzleSessions.userId s = uid).
Proof.
  destruct (filter _ l) as [|s rest] eqn:E.
  - left. split; [reflexivity |]. intros [s [Hin Hs]].
    rewrite filter_empty in E. apply own_session_spec in Hs.
    rewrite (E s Hin) in Hs. discriminate.
  - right. exists s, rest. split; [reflexivity |].
    destruct (filter_first _ _ _ _ E) as [Hin Hc].
    apply own_session_spec in Hc. exists s. tauto.
Qed.

Lemma bound_numbers (sc : option float) :
  forallb is_finite (completePuzzleSession.numbers sc) = whenever is_finite sc.
Proof. destruct sc; simpl; [apply andb_true_r | reflexivity]. Qed.

(** The client can read the caller's sessions of a given id. *)
Lemma own_sessions_readable (uid sid : string) (l : list PuzzleSessions.row) :
  forallb (readable tblPuzzleSessions)
    (filter (sql.and (sql.eq PuzzleSessions.id sid)
                     (sql.eq PuzzleSessions.userId uid)) l) = true
  <-> (forall s, In s l /\ PuzzleSessions.id s = sid
                 /\ PuzzleSessions.userId s = uid ->
                 readable tblPuzzleSessions s = true).
Proof.
  rewrite forallb_forall. split.
  - intros H s [Hin Hs]. apply H. apply filter_In. split; [exact Hin |].
    apply own_session_spec. exact Hs.
  - intros H s Hin. apply filter_In in Hin. destruct Hin as [Hin Hs].
    apply own_session_spec in Hs. apply H. tauto.
Qed.

Lemma completePuzzleSession_unfold
    (context : ActionAPIContext) (u : User.t) (rt : Runtime)
    (i : completePuzzleSession.input) (w : World) :
  caller context = Some u ->
  completePuzzleSession.handler i context rt w =
    match filter
            (sql.and
               (sql.eq PuzzleSessions.id (completePuzzleSession.sessionId i))
               (sql.eq PuzzleSessions.userId (User.id u)))
            (sessions (db w)) with
    | [] =>
        (Throw (ActionError NOT_FOUND "Puzzle session not found."),
         issue (SELECT TPuzzleSessions) w)
    | session :: rest =>
        if forallb (readable tblPuzzleSessions) (session :: rest)
        then
          if forallb is_finite
               (completePuzzleSession.numbers (completePuzzleSession.score i))
          then
            (Return {| success := true;
                       data := {| completePuzzleSession.result.id :=
                                    completePuzzleSession.sessionId i |} |},
             {| db := {|
                  templates := templates (db w);
                  sessions :=
                    map (fun r =>
                           if String.eqb (PuzzleSessions.id r)
                                (completePuzzleSession.sessionId i)
                           then completePuzzleSession.set
                                  (completePuzzleSession.text
                                     (completePuzzleSession.status i))
                                  (completePuzzleSession.score i)
                                  (completePuzzleSession.timeTakenSeconds i)
                                  (newDate rt) r
                           else r)
                        (sessions (db w));
                  attempts := attempts (db w) |};
                journal := (journal w ++ [SELECT TPuzzleSessions])
                             ++ [UPDATE TPuzzleSessions] |})
          else (Throw RangeError, issue (SELECT TPuzzleSessions) w)
        else (Throw RangeError, issue (SELECT TPuzzleSessions) w)
    end.
Proof.
  intros Hu. unfold completePuzzleSession.handler.
  rewrite (bind_requireUser_signed_in _ _ _ _ Hu).
  unfold bind at 1. unfold select, sql.where_.
  cbn [rows tname tblPuzzleSessions].
  destruct (filter _ _) as [|session rest]; [reflexivity |].
  destruct (forallb _ (session :: rest)); [| reflexivity].
  unfold bind, update, ret.
  destruct (forallb is_finite _); reflexivity.
Qed.

(** C4. For a signed-in caller, [completePuzzleSession] throws
    [NOT_FOUND] exactly when no stored session has the given id and the
    caller as owner.  When there is one, the client can read the caller's
    sessions of that id, and the given score, if any, is finite, the action
    succeeds whatever the status of that session is, also when it is already
    [completed] or [abandoned]; otherwise it throws a [RangeError] and the
    storage stays as it was.  A successful call has rewritten the sessions
    row by row: a row with another id is left as it is; in the row with the
    given id [status] becomes the requested status ([completed] when the
    request names none), [completedAt] becomes the current instant for
    [completed] and for [abandoned] alike, a given [score] is stored ([-0]
    as [0]) and a given [timeTakenSeconds] is stored, one that the input
    leaves out keeps its stored value, and the remaining columns stay.
    Templates and attempts are untouched. *)
Theorem completePuzzleSession_completes
    (context : ActionAPIContext) (u : User.t) (rt : Runtime)
    (i : completePuzzleSession.input) (w : World) :
  caller context = Some u ->
  let out := completePuzzleSession.handler i context rt w in
  let own (s : PuzzleSessions.row) :=
    In s (sessions (db w))
    /\ PuzzleSessions.id s = completePuzzleSession.sessionId i
    /\ PuzzleSessions.userId s = User.id u in
  let carried :=
    (forall s, own s -> readable tblPuzzleSessions s = true)
    /\ whenever is_finite (completePuzzleSession.score i) = true in
  let kept {A} (given old : option A) : option A :=
    match given with
    | Some v => Some v
    | None => old
    end in
  let done :=
    Return {| success := true;
              data := {| completePuzzleSession.result.id :=
                           completePuzzleSession.sessionId i |} |} in
  (raises NOT_FOUND (fst out) <-> ~ exists s, own s)
  /\ ((exists s, own s) -> carried -> fst out = done)
  /\ ((exists s, own s) -> ~ carried ->
      fst out = Throw RangeError /\ db (snd out) = db w)
  /\ (forall r, fst out = Return r ->
      fst out = done
      /\ (exists s, own s)
      /\ templates (db (snd out)) = templates (db w)
      /\ attempts (db (snd out)) = attempts (db w)
      /\ length (sessions (db (snd out))) = length (sessions (db w))
      /\ forall n s, nth_error (sessions (db w)) n = Some s ->
           exists s', nth_error (sessions (db (snd out))) n = Some s'
             /\ (PuzzleSessions.id s <> completePuzzleSession.sessionId i ->
                 s' = s)
             /\ (PuzzleSessions.id s = completePuzzleSession.sessionId i ->
                 PuzzleSessions.status s' =
                   Some (completePuzzleSession.text
                           (completePuzzleSession.status i))
                 /\ PuzzleSessions.completedAt s' = Some (newDate rt)
                 /\ PuzzleSessions.score s' =
                      kept (option_map store_number
                              (completePuzzleSession.score i))
                        (PuzzleSessions.score s)
                 /\ PuzzleSessions.timeTakenSeconds s' =
                      kept (completePuzzleSession.timeTakenSeconds i)
                        (PuzzleSessions.timeTakenSeconds s)
                 /\ PuzzleSessions.id s' = PuzzleSessions.id s
                 /\ PuzzleSessions.puzzleTemplateId s' =
                      PuzzleSessions.puzzleTemplateId s
                 /\ PuzzleSessions.userId s' = PuzzleSessions.userId s
                 /\ PuzzleSessions.startedAt s' = PuzzleSessions.startedAt s))
  /\ (forall x i', completePuzzleSession.schema x = Some i' ->
        completePuzzleSession.wire.status x = None ->
        completePuzzleSession.status i' = completePuzzleSession.completed)
  /\ completePuzzleSession.text completePuzzleSession.completed = "completed"
  /\ completePuzzleSession.text completePuzzleSession.abandoned = "abandoned".
Proof.
  intros Hu out own carried kept done. subst out done.
  rewrite (completePuzzleSession_unfold context u rt i w Hu).
  pose proof (own_sessions_readable (User.id u)
                (completePuzzleSession.sessionId i) (sessions (db w))) as Hread.
  pose proof (bound_numbers (completePuzzleSession.score i)) as Hnum.
  destruct (own_session_selected (User.id u)
              (completePuzzleSession.sessionId i) (sessions (db w)))
    as [[E Hno]|[s0 [rest [E Hex]]]]; rewrite E in *.
  - split; [| split; [| split; [| split; [| split; [| split; reflexivity]]]]].
    + simpl. split; [intros _; exact Hno | intros _; eexists; reflexivity].
    + intros Hyes. contradiction.
    + intros Hyes. contradiction.
    + simpl. intros r Hr. discriminate.
    + intros x i' Hs Hnone. unfold completePuzzleSession.schema in Hs.
      rewrite Hnone in Hs. unfold z.andThen in Hs. simpl in Hs.
      destruct (z.string_min1 _); [| discriminate].
      destruct (z.number_optional _); [| discriminate].
      destruct (z.int_positive_optional _); [| discriminate].
      injection Hs as <-. reflexivity.
  - split; [| split; [| split; [| split; [| split; [| split; reflexivity]]]]].
    + split; [| intros Hno; contradiction].
      destruct (forallb _ (s0 :: rest)); [destruct (forallb is_finite _) |];
        simpl; intros [m Hm]; discriminate.
    + intros _ [Hr Hf]. apply Hread in Hr. rewrite Hr, Hnum, Hf. reflexivity.
    + intros _ Hnot.
      destruct (forallb _ (s0 :: rest)) eqn:Er; [| split; reflexivity].
      destruct (forallb is_finite _) eqn:Ef; [| split; reflexivity].
      exfalso. apply Hnot. split; [apply Hread; reflexivity |].
      symmetry. exact Hnum.
    + destruct (forallb _ (s0 :: rest)); [| simpl; intros r Hr; discriminate].
      destruct (forallb is_finite _); [| simpl; intros r Hr; discriminate].
      cbn [fst snd db templates sessions attempts]. intros r _.
      split; [reflexivity |]. split; [exact Hex |].
      split; [reflexivity |]. split; [reflexivity |].
      split; [apply length_map |].
      intros n s Hn. rewrite nth_error_map, Hn. simpl.
      eexists. split; [reflexivity |].
      destruct (String.eqb (PuzzleSessions.id s)
                  (completePuzzleSession.sessionId i)) eqn:X.
      * apply String.eqb_eq in X. split; [intros Hne; contradiction |].
        intros _. unfold completePuzzleSession.set, completePuzzleSession.put,
          kept. simpl. repeat split.
      * apply String.eqb_neq in X. split; [reflexivity | contradiction].
    + intros x i' Hs Hnone. unfold completePuzzleSession.schema in Hs.
      rewrite Hnone in Hs. unfold z.andThen in Hs. simpl in Hs.
      destruct (z.string_min1 _); [| discriminate].
      destruct (z.number_optional _); [| discriminate].
      destruct (z.int_positive_optional _); [| discriminate].
      injection Hs as <-. reflexivity.
Qed.

Lemma sample_sessions_readable (s : PuzzleSessions.row) :
  In s (sessions (db Sample.world)) -> readable tblPuzzleSessions s = true.
Proof.
  simpl. intros [<-|[<-|[<-|[<-|[]]]]]; reflexivity.
Qed.

Lemma completePuzzleSession_completes_witness :
  let out :=
    completePuzzleSession.handler Sample.abandon_s2
      (Sample.signedIn Sample.alice) Sample.rt Sample.world in
  caller (Sample.signedIn Sample.alice) = Some Sample.alice
  /\ fst out =
       Return {| success := true;
                 data := {| completePuzzleSession.result.id := "s2" |} |}.
Proof.
  split; [reflexivity |].
  refine (proj1 (proj2
    (completePuzzleSession_completes (Sample.signedIn Sample.alice)
       Sample.alice Sample.rt Sample.abandon_s2 Sample.world Logic.eq_refl))
    _ _).
  - exists (Sample.session "s2" "system-puzzle-sample" "u1" "completed").
    simpl. split; [right; left; reflexivity | split; reflexivity].
  - split; [| reflexivity].
    intros s [Hin _]. exact (sample_sessions_readable s Hin).
Defined.

(** C4, as first stated, fails: one completion that the schema admits,
    with a time of [2^53] seconds, leaves a completed session of the caller
    that cannot be completed again; and a completion with an infinite score,
    which the schema admits too, does not succeed on an owned session. *)
Lemma completed_session_can_get_stuck :
  completePuzzleSession.schema Sample.slow_wire = Some Sample.slow
  /\ (exists s, In s (sessions (db Sample.stuck))
        /\ PuzzleSessions.id s = completePuzzleSession.sessionId Sample.slow
        /\ PuzzleSessions.userId s = User.id Sample.alice
        /\ PuzzleSessions.status s = Some "completed")
  /\ fst (completePuzzleSession.handler Sample.slow
            (Sample.signedIn Sample.alice) Sample.rt2 Sample.stuck) =
     Throw RangeError
  /\ completePuzzleSession.schema Sample.boundless_wire = Some Sample.boundless
  /\ fst (completePuzzleSession.handler Sample.boundless
            (Sample.signedIn Sample.alice) Sample.rt Sample.world) =
     Throw RangeError.
Proof.
  split; [reflexivity |]. split.
  - eexists. split; [left; reflexivity |]. repeat split.
  - split; [reflexivity |]. split; reflexivity.
Qed.

Lemma recordPuzzleAttempt_unfold
    (context : ActionAPIContext) (u : User.t) (rt : Runtime)
    (i : recordPuzzleAttempt.input) (w : World) :
  caller context = Some u ->
  recordPuzzleAttempt.handler i context rt w =
    match filter
            (sql.and
               (sql.eq PuzzleSessions.id (recordPuzzleAttempt.sessionId i))
               (sql.eq PuzzleSessions.userId (User.id u)))
            (sessions (db w)) with
    | [] =>
        (Throw (ActionError NOT_FOUND "Puzzle session not found."),
         issue (SELECT TPuzzleSessions) w)
    | session :: rest =>
        if forallb (readable tblPuzzleSessions) (session :: rest)
        then
          if existsb (fun x => String.eqb (PuzzleAttempts.id x) (randomUUID rt))
               (attempts (db w))
          then (Throw (PrimaryKeyViolation TPuzzleAttempts),
                issue (INSERT TPuzzleAttempts)
                  (issue (SELECT TPuzzleSessions) w))
          else
            (Return {| success := true;
                       data := {| recordPuzzleAttempt.result.id :=
                                    randomUUID rt |} |},
             {| db := {|
                  templates := templates (db w);
                  sessions := sessions (db w);
                  attempts := attempts (db w) ++ [{|
                    PuzzleAttempts.id := randomUUID rt;
                    PuzzleAttempts.sessionId := recordPuzzleAttempt.sessionId i;
                    PuzzleAttempts.attemptIndex :=
                      recordPuzzleAttempt.attemptIndex i;
                    PuzzleAttempts.attemptDataJson :=
                      recordPuzzleAttempt.attemptDataJson i;
                    PuzzleAttempts.isCorrect := recordPuzzleAttempt.isCorrect i;
                    PuzzleAttempts.createdAt := newDate rt |}] |};
                journal := (journal w ++ [SELECT TPuzzleSessions])
                             ++ [INSERT TPuzzleAttempts] |})
        else (Throw RangeError, issue (SELECT TPuzzleSessions) w)
    end.
Proof.
  intros Hu. unfold recordPuzzleAttempt.handler.
  rewrite (bind_requireUser_signed_in _ _ _ _ Hu).
  unfold bind at 1. unfold select, sql.where_.
  cbn [rows tname tblPuzzleSessions].
  destruct (filter _ _) as [|session rest]; [reflexivity |].
  destruct (forallb _ (session :: rest)); [| reflexivity].
  unfold bind, insert, ret. simpl.
  destruct (existsb _ _); reflexivity.
Qed.

(** C5. For a signed-in caller, [recordPuzzleAttempt] throws [NOT_FOUND]
    exactly when no stored session has the given id and the caller as
    owner.  When there is one, the client can read the caller's sessions of
    that id and the generated id is free, the action succeeds, whatever the
    status of the session and whatever attempts are already stored (nothing
    is asked of their [attemptIndex]): it appends one attempt carrying the
    [sessionId], [attemptIndex], [attemptDataJson] and [isCorrect] of the
    input ([false] when the request names none) and changes nothing else.
    A successful call has done exactly that.  When the client cannot read
    such a session, the action throws a [RangeError] and the storage stays
    as it was. *)
Theorem recordPuzzleAttempt_records
    (context : ActionAPIContext) (u : User.t) (rt : Runtime)
    (i : recordPuzzleAttempt.input) (w : World) :
  caller context = Some u ->
  let out := recordPuzzleAttempt.handler i context rt w in
  let own (s : PuzzleSessions.row) :=
    In s (sessions (db w))
    /\ PuzzleSessions.id s = recordPuzzleAttempt.sessionId i
    /\ PuzzleSessions.userId s = User.id u in
  let legible := forall s, own s -> readable tblPuzzleSessions s = true in
  let recorded := {|
    PuzzleAttempts.id := randomUUID rt;
    PuzzleAttempts.sessionId := recordPuzzleAttempt.sessionId i;
    PuzzleAttempts.attemptIndex := recordPuzzleAttempt.attemptIndex i;
    PuzzleAttempts.attemptDataJson := recordPuzzleAttempt.attemptDataJson i;
    PuzzleAttempts.isCorrect := recordPuzzleAttempt.isCorrect i;
    PuzzleAttempts.createdAt := newDate rt
  |} in
  let done : Outcome (Envelope recordPuzzleAttempt.result.t) * World :=
    (Return {| success := true;
               data := {| recordPuzzleAttempt.result.id := randomUUID rt |} |},
     {| db := {| templates := templates (db w);
                 sessions := sessions (db w);
                 attempts := attempts (db w) ++ [recorded] |};
        journal := (journal w ++ [SELECT TPuzzleSessions])
                     ++ [INSERT TPuzzleAttempts] |}) in
  (raises NOT_FOUND (fst out) <-> ~ exists s, own s)
  /\ (forall s, own s -> legible ->
      ~ In (randomUUID rt) (map PuzzleAttempts.id (attempts (db w))) ->
      out = done)
  /\ (forall r, fst out = Return r ->
        out = done /\ (exists s, own s) /\ legible)
  /\ ((exists s, own s) -> ~ legible ->
      fst out = Throw RangeError /\ db (snd out) = db w)
  /\ (forall x i', recordPuzzleAttempt.schema x = Some i' ->
        recordPuzzleAttempt.wire.isCorrect x = None ->
        recordPuzzleAttempt.isCorrect i' = false).
Proof.
  intros Hu out own legible recorded done. subst out done.
  rewrite (recordPuzzleAttempt_unfold context u rt i w Hu).
  pose proof (own_sessions_readable (User.id u)
                (recordPuzzleAttempt.sessionId i) (sessions (db w))) as Hread.
  destruct (own_session_selected (User.id u)
              (recordPuzzleAttempt.sessionId i) (sessions (db w)))
    as [[E Hno]|[s0 [rest [E Hex]]]]; rewrite E in *.
  - split; [| split; [| split; [| split]]].
    + simpl. split; [intros _; exact Hno | intros _; eexists; reflexivity].
    + intros s Hs. exfalso. apply Hno. exists s. exact Hs.
    + simpl. intros r Hr. discriminate.
    + intros Hyes. contradiction.
    + intros x i' Hs Hnone. unfold recordPuzzleAttempt.schema in Hs.
      rewrite Hnone in Hs. unfold z.andThen in Hs. simpl in Hs.
      destruct (z.string_min1 _); [| discriminate].
      destruct (z.int_positive _); [| discriminate].
      injection Hs as <-. reflexivity.
  - split; [| split; [| split; [| split]]].
    + split; [| intros Hno; contradiction].
      destruct (forallb _ (s0 :: rest)); [destruct (existsb _ _) |];
        simpl; intros [m Hm]; discriminate.
    + intros s _ Hl Hfresh. apply Hread in Hl. rewrite Hl.
      apply (existsb_key_false PuzzleAttempts.id) in Hfresh.
      rewrite Hfresh. reflexivity.
    + destruct (forallb _ (s0 :: rest)) eqn:Er;
        [| simpl; intros r Hr; discriminate].
      destruct (existsb _ _); [simpl; intros r Hr; discriminate |].
      intros r _. split; [reflexivity |]. split; [exact Hex |].
      exact (proj1 Hread Logic.eq_refl).
    + intros _ Hnot.
      destruct (forallb _ (s0 :: rest)) eqn:Er; [| split; reflexivity].
      exfalso. apply Hnot. exact (proj1 Hread Logic.eq_refl).
    + intros x i' Hs Hnone. unfold recordPuzzleAttempt.schema in Hs.
      rewrite Hnone in Hs. unfold z.andThen in Hs. simpl in Hs.
      destruct (z.string_min1 _); [| discriminate].
      destruct (z.int_positive _); [| discriminate].
      injection Hs as <-. reflexivity.
Qed.

Lemma recordPuzzleAttempt_records_witness :
  caller (Sample.signedIn Sample.alice) = Some Sample.alice
  /\ exists r w',
       recordPuzzleAttempt.handler Sample.late_guess
         (Sample.signedIn Sample.alice) Sample.rt Sample.world = (Return r, w')
       /\ length (attempts (db w')) = 2%nat.
Proof.
  split; [reflexivity |].
  do 2 eexists. split.
  - refine (proj1 (proj2
      (recordPuzzleAttempt_records (Sample.signedIn Sample.alice)
         Sample.alice Sample.rt Sample.late_guess Sample.world Logic.eq_refl))
      (Sample.session "s4" "T" "u1" "abandoned") _ _ _).
    + simpl. split; [do 3 right; left; reflexivity | split; reflexivity].
    + intros s [Hin _]. exact (sample_sessions_readable s Hin).
    + simpl. intros [H|[]]. discriminate.
  - reflexivity.
Defined.

(** C5, as first stated, fails: after one completion that the schema
    admits, with a time of [2^53] seconds, the caller owns the session, the
    generated id is free, and recording an attempt against it neither
    succeeds nor reports [NOT_FOUND]. *)
Lemma attempt_on_stuck_session_fails :
  completePuzzleSession.schema Sample.slow_wire = Some Sample.slow
  /\ (exists s, In s (sessions (db Sample.stuck))
        /\ PuzzleSessions.id s = recordPuzzleAttempt.sessionId Sample.guess
        /\ PuzzleSessions.userId s = User.id Sample.alice)
  /\ ~ In (randomUUID Sample.rt2)
         (map PuzzleAttempts.id (attempts (db Sample.stuck)))
  /\ fst (recordPuzzleAttempt.handler Sample.guess
            (Sample.signedIn Sample.alice) Sample.rt2 Sample.stuck) =
     Throw RangeError.
Proof.
  split; [reflexivity |]. split.
  - eexists. split; [left; reflexivity |]. split; reflexivity.
  - split; [| reflexivity]. simpl. intros [H|[]]. discriminate.
Qed.

Lemma reduce_and {R : Type} (first : sql.cond R) (more : list (sql.cond R))
    (r : R) :
  sql.reduce sql.and first more r =
    first r && forallb (fun c : R -> bool => c r) more.
Proof.
  unfold sql.reduce. revert first.
  induction more as [|c more IH]; intros first; simpl.
  - rewrite andb_true_r. reflexivity.
  - rewrite IH. unfold sql.and. rewrite andb_assoc. reflexivity.
Qed.

Lemma push_if_spec {R : Type} (x : option string) (f : string -> sql.cond R)
    (r : R) :
  forallb (fun c : R -> bool => c r) (listPuzzleSessions.push_if x f) = true
  <-> (forall v, x = Some v -> v <> EmptyString -> f v r = true).
Proof.
  unfold listPuzzleSessions.push_if.
  destruct x as [[|c s]|]; simpl.
  - split; [| reflexivity]. intros _ v Hv Hne. congruence.
  - rewrite andb_true_r. split.
    + intros H v Hv _. injection Hv as <-. exact H.
    + intros H. apply (H (String c s)); [reflexivity | discriminate].
  - split; [| reflexivity]. intros _ v Hv. discriminate.
Qed.

Lemma js_round_safe (n : Z) : Z.abs n <= MAX_SAFE_INTEGER -> js_round n = n.
Proof.
  intros H. unfold js_round. cbv zeta. apply Z.leb_le in H. rewrite H.
  reflexivity.
Qed.

(** Below [2^53] the offset of a page is computed exactly. *)
Lemma offset_is_exact (p n : Z) :
  0 < p -> 0 <= n -> (p - 1) * n <= MAX_SAFE_INTEGER ->
  js_mul (js_sub p 1) n = (p - 1) * n.
Proof.
  intros Hp Hn H. unfold js_mul, js_sub.
  destruct (Z.eq_dec n 0) as [->|Hne].
  - rewrite !Z.mul_0_r. reflexivity.
  - rewrite (js_round_safe (p - 1)) by nia.
    apply js_round_safe. nia.
Qed.

Lemma int64_is_finite (n : Z) : fits_int64 n = true -> js_infinite n = false.
Proof.
  unfold fits_int64, js_infinite. rewrite andb_true_iff, !Z.ltb_lt.
  intros [Hlo Hhi]. apply Z.leb_gt.
  assert (Hbig : 2 ^ 63 < 2 ^ 1024) by (apply Z.pow_lt_mono_r; lia).
  revert Hlo Hhi Hbig.
  generalize (2 ^ 63). generalize (2 ^ 1024). intros a b. lia.
Qed.

Lemma fits_int64_spec (n : Z) :
  fits_int64 n = true <-> - 2 ^ 63 < n < 2 ^ 63.
Proof.
  unfold fits_int64. rewrite andb_true_iff, !Z.ltb_lt. reflexivity.
Qed.

Lemma listPuzzleSessions_unfold
    (context : ActionAPIContext) (u : User.t) (rt : Runtime)
    (i : listPuzzleSessions.input) (w : World) :
  caller context = Some u ->
  let keep :=
    sql.reduce sql.and (sql.eq PuzzleSessions.userId (User.id u))
      (listPuzzleSessions.push_if (listPuzzleSessions.puzzleTemplateId i)
         (sql.eq PuzzleSessions.puzzleTemplateId)
       ++ listPuzzleSessions.push_if (listPuzzleSessions.status i)
            (sql.eq PuzzleSessions.status))%list in
  let n := listPuzzleSessions.pageSize i in
  let k := js_mul (js_sub (listPuzzleSessions.page i) 1) n in
  let items := sql.limit n (sql.offset k (filter keep (sessions (db w)))) in
  listPuzzleSessions.handler i context rt w =
    if js_infinite n || js_infinite k then (Throw RangeError, w)
    else if fits_int64 n && fits_int64 k
    then
      if forallb (readable tblPuzzleSessions) items
      then
        (Return {| success := true;
                   data := {| listPuzzleSessions.result.items := items;
                              listPuzzleSessions.result.total :=
                                Z.of_nat (length items);
                              listPuzzleSessions.result.page :=
                                listPuzzleSessions.page i |} |},
         issue (SELECT TPuzzleSessions) w)
      else (Throw RangeError, issue (SELECT TPuzzleSessions) w)
    else (Throw SQLITE_MISMATCH, issue (SELECT TPuzzleSessions) w).
Proof.
  intros Hu keep n k items. unfold listPuzzleSessions.handler.
  rewrite (bind_requireUser_signed_in _ _ _ _ Hu).
  unfold bind, select_page. fold n. fold k.
  destruct (js_infinite n || js_infinite k); [reflexivity |].
  destruct (fits_int64 n && fits_int64 k); [| reflexivity].
  unfold select, sql.where_. cbn [rows tname tblPuzzleSessions].
  fold keep. fold items.
  destruct (forallb _ items); reflexivity.
Qed.

(** Listing sessions leaves the storage as it is, whoever calls and
    whatever the answer. *)
Lemma listPuzzleSessions_reads_only
    (context : ActionAPIContext) (rt : Runtime)
    (i : listPuzzleSessions.input) (w : World) :
  db (snd (listPuzzleSessions.handler i context rt w)) = db w.
Proof.
  destruct (caller context) as [u|] eqn:Hc.
  - rewrite (listPuzzleSessions_unfold context u rt i w Hc). cbv zeta.
    destruct (_ || _); [reflexivity |].
    destruct (_ && _); [| reflexivity].
    destruct (forallb _ _); reflexivity.
  - unfold listPuzzleSessions.handler.
    rewrite (bind_requireUser_anonymous _ _ _ Hc). reflexivity.
Qed.

(** C9. For a signed-in caller, a page and a page size that the schema
    admits, and an offset [(page - 1) * pageSize] that is a safe integer,
    [listPuzzleSessions] selects the sessions that the caller owns and that
    pass each filter given with a non-empty value, all conditions holding
    together; of these, in storage order, it skips [(page - 1) * pageSize]
    and takes at most [pageSize].  When the client can read the rows taken,
    the action answers with them: [total] is their number, that is the
    smaller of [pageSize] and what is left of the matching sessions after
    the offset, and [page] is echoed.  When it cannot, the action throws a
    [RangeError].  The storage is not changed either way. *)
Theorem listPuzzleSessions_page
    (context : ActionAPIContext) (u : User.t) (rt : Runtime)
    (i : listPuzzleSessions.input) (w : World) :
  caller context = Some u ->
  0 < listPuzzleSessions.page i ->
  0 < listPuzzleSessions.pageSize i <= 100 ->
  (listPuzzleSessions.page i - 1) * listPuzzleSessions.pageSize i
    <= MAX_SAFE_INTEGER ->
  let out := listPuzzleSessions.handler i context rt w in
  let matching (s : PuzzleSessions.row) :=
    PuzzleSessions.userId s = User.id u
    /\ (forall v, listPuzzleSessions.puzzleTemplateId i = Some v ->
                  v <> EmptyString -> PuzzleSessions.puzzleTemplateId s = v)
    /\ (forall v, listPuzzleSessions.status i = Some v ->
                  v <> EmptyString -> PuzzleSessions.status s = Some v) in
  let size := Z.to_nat (listPuzzleSessions.pageSize i) in
  let skipped :=
    Z.to_nat ((listPuzzleSessions.page i - 1) * listPuzzleSessions.pageSize i) in
  exists keep items,
    (forall s, keep s = true <-> matching s)
    /\ items = firstn size (skipn skipped (filter keep (sessions (db w))))
    /\ ((forall s, In s items -> readable tblPuzzleSessions s = true) ->
        out =
        (Return {| success := true;
                   data := {| listPuzzleSessions.result.items := items;
                              listPuzzleSessions.result.total :=
                                Z.of_nat (length items);
                              listPuzzleSessions.result.page :=
                                listPuzzleSessions.page i |} |},
         issue (SELECT TPuzzleSessions) w))
    /\ ((exists s, In s items /\ readable tblPuzzleSessions s = false) ->
        out = (Throw RangeError, issue (SELECT TPuzzleSessions) w))
    /\ db (snd out) = db w
    /\ (forall s, In s items -> In s (sessions (db w)) /\ matching s)
    /\ Z.of_nat (length items) <= listPuzzleSessions.pageSize i
    /\ length items =
       Nat.min size (length (filter keep (sessions (db w))) - skipped).
Proof.
  intros Hu Hpage Hsize Hsafe out matching size skipped. subst out.
  rewrite listPuzzleSessions_reads_only.
  rewrite (listPuzzleSessions_unfold context u rt i w Hu). cbv zeta.
  rewrite (offset_is_exact _ _ Hpage (Z.lt_le_incl _ _ (proj1 Hsize)) Hsafe).
  assert (Hn : fits_int64 (listPuzzleSessions.pageSize i) = true).
  { apply fits_int64_spec. lia. }
  assert (Hk : fits_int64
                 ((listPuzzleSessions.page i - 1)
                  * listPuzzleSessions.pageSize i) = true).
  { apply fits_int64_spec. unfold MAX_SAFE_INTEGER in Hsafe. nia. }
  rewrite (int64_is_finite _ Hn), (int64_is_finite _ Hk), Hn, Hk.
  cbn [orb andb].
  unfold sql.limit, sql.offset.
  replace (listPuzzleSessions.pageSize i <? 0) with false
    by (symmetry; apply Z.ltb_ge; lia).
  fold size. fold skipped.
  set (keep :=
    sql.reduce sql.and (sql.eq PuzzleSessions.userId (User.id u))
      (listPuzzleSessions.push_if (listPuzzleSessions.puzzleTemplateId i)
         (sql.eq PuzzleSessions.puzzleTemplateId)
       ++ listPuzzleSessions.push_if (listPuzzleSessions.status i)
            (sql.eq PuzzleSessions.status))%list).
  set (items := firstn size (skipn skipped (filter keep (sessions (db w))))).
  exists keep, items.
  assert (Hkeep : forall s, keep s = true <-> matching s).
  { intros s. subst keep. rewrite reduce_and, andb_true_iff, forallb_app,
      andb_true_iff.
    rewrite (push_if_spec (listPuzzleSessions.puzzleTemplateId i)
               (sql.eq PuzzleSessions.puzzleTemplateId) s).
    rewrite (push_if_spec (listPuzzleSessions.status i)
               (sql.eq PuzzleSessions.status) s).
    unfold matching, sql.eq, sql.same, sql.text_text, sql.nullable_text.
    rewrite String.eqb_eq.
    split.
    - intros [Ho [Ht Hs]]. split; [exact Ho |]. split.
      + intros v Hv Hne. apply String.eqb_eq. exact (Ht v Hv Hne).
      + intros v Hv Hne. specialize (Hs v Hv Hne).
        destruct (PuzzleSessions.status s) as [x|]; [| discriminate].
        apply String.eqb_eq in Hs. congruence.
    - intros [Ho [Ht Hs]]. split; [exact Ho |]. split.
      + intros v Hv Hne. apply String.eqb_eq. exact (Ht v Hv Hne).
      + intros v Hv Hne. rewrite (Hs v Hv Hne). apply String.eqb_refl. }
  split; [exact Hkeep |].
  split; [reflexivity |].
  split; [| split; [| split; [reflexivity | split; [| split]]]].
  - intros Hall. apply forallb_forall in Hall. rewrite Hall. reflexivity.
  - intros [s [Hin Hs]].
    destruct (forallb _ items) eqn:E; [| reflexivity].
    rewrite forallb_forall in E. rewrite (E s Hin) in Hs. discriminate.
  - intros s Hin. apply in_firstn, in_skipn, filter_In in Hin.
    rewrite Hkeep in Hin. exact Hin.
  - pose proof (firstn_le_length size
                  (skipn skipped (filter keep (sessions (db w))))) as Hle.
    subst items size. lia.
  - subst items. rewrite length_firstn, length_skipn. reflexivity.
Qed.

Lemma listPuzzleSessions_page_witness :
  (caller (Sample.signedIn Sample.alice) = Some Sample.alice
   /\ 0 < listPuzzleSessions.page Sample.second_of_one
   /\ 0 < listPuzzleSessions.pageSize Sample.second_of_one <= 100
   /\ (listPuzzleSessions.page Sample.second_of_one - 1)
      * listPuzzleSessions.pageSize Sample.second_of_one <= MAX_SAFE_INTEGER)
  /\ exists items,
       fst (listPuzzleSessions.handler Sample.second_of_one
              (Sample.signedIn Sample.alice) Sample.rt Sample.world) =
         Return {| success := true;
                   data := {| listPuzzleSessions.result.items := items;
                              listPuzzleSessions.result.total :=
                                Z.of_nat (length items);
                              listPuzzleSessions.result.page := 2 |} |}
       /\ Z.of_nat (length items) <= 1.
Proof.
  assert (Hsize : 0 < listPuzzleSessions.pageSize Sample.second_of_one <= 100)
    by (split; [reflexivity | discriminate]).
  assert (Hsafe : (listPuzzleSessions.page Sample.second_of_one - 1)
                  * listPuzzleSessions.pageSize Sample.second_of_one
                  <= MAX_SAFE_INTEGER) by discriminate.
  split; [split; [reflexivity | split; [reflexivity | split;
            [exact Hsize | exact Hsafe]]] |].
  destruct (listPuzzleSessions_page (Sample.signedIn Sample.alice)
              Sample.alice Sample.rt Sample.second_of_one Sample.world
              Logic.eq_refl Logic.eq_refl Hsize Hsafe)
    as [keep [items [_ [Hitems [Hout [_ [_ [Hin [Hle _]]]]]]]]].
  exists items. split; [| exact Hle].
  rewrite Hout; [reflexivity |].
  intros s Hs. apply Hin in Hs. destruct Hs as [Hs _].
  exact (sample_sessions_readable s Hs).
Defined.

(** C9, as first stated, fails: the schema admits page [10^17] with page
    size [100], and for a signed-in caller the query is then refused by the
    storage engine, whose OFFSET must be a 64-bit integer. *)
Lemma far_page_is_refused :
  listPuzzleSessions.schema Sample.far_wire = Some Sample.far
  /\ caller (Sample.signedIn Sample.alice) = Some Sample.alice
  /\ 0 < listPuzzleSessions.page Sample.far
  /\ 0 < listPuzzleSessions.pageSize Sample.far
  /\ fst (listPuzzleSessions.handler Sample.far
            (Sample.signedIn Sample.alice) Sample.rt Sample.world) =
     Throw SQLITE_MISMATCH.
Proof.
  split; [reflexivity |]. split; [reflexivity |]. split; [reflexivity |].
  split; [reflexivity |]. vm_compute. reflexivity.
Qed.

(** C10. In [listPuzzleSessions] a filter given as the empty string is
    not applied: a request whose [puzzleTemplateId] is the empty string has
    the outcome of the same request without [puzzleTemplateId], and likewise
    for [status]; the schema lets the empty string through to the handler. *)
Theorem listPuzzleSessions_empty_filter_is_no_filter
    (context : ActionAPIContext) (rt : Runtime) (w : World)
    (t s : option string) (p ps : Z) :
  listPuzzleSessions.handler
    {| listPuzzleSessions.puzzleTemplateId := Some EmptyString;
       listPuzzleSessions.status := s;
       listPuzzleSessions.page := p;
       listPuzzleSessions.pageSize := ps |} context rt w
  = listPuzzleSessions.handler
      {| listPuzzleSessions.puzzleTemplateId := None;
         listPuzzleSessions.status := s;
         listPuzzleSessions.page := p;
         listPuzzleSessions.pageSize := ps |} context rt w
  /\ listPuzzleSessions.handler
       {| listPuzzleSessions.puzzleTemplateId := t;
          listPuzzleSessions.status := Some EmptyString;
          listPuzzleSessions.page := p;
          listPuzzleSessions.pageSize := ps |} context rt w
     = listPuzzleSessions.handler
         {| listPuzzleSessions.puzzleTemplateId := t;
            listPuzzleSessions.status := None;
            listPuzzleSessions.page := p;
            listPuzzleSessions.pageSize := ps |} context rt w
  /\ listPuzzleSessions.schema
       {| listPuzzleSessions.wire.puzzleTemplateId := Some EmptyString;
          listPuzzleSessions.wire.status := Some EmptyString;
          listPuzzleSessions.wire.page := None;
          listPuzzleSessions.wire.pageSize := None |}
     = Some {| listPuzzleSessions.puzzleTemplateId := Some EmptyString;
               listPuzzleSessions.status := Some EmptyString;
               listPuzzleSessions.page := 1;
               listPuzzleSessions.pageSize := 20 |}.
Proof.
  split; [| split].
  - reflexivity.
  - unfold listPuzzleSessions.handler. simpl.
    rewrite app_nil_r. reflexivity.
  - reflexivity.
Qed.

(* ================================================================== *)
(** * The primary keys are kept

    Several statements above assume that ids are a key of their table.  The
    seeded storage has that property and every handler keeps it, so it holds
    in every storage the actions can produce. *)

Lemma keeps_keys_ret {A : Type} (a : A) : keeps_keys (ret a).
Proof. intros w H. exact H. Qed.

Lemma keeps_keys_throw {A : Type} (e : Failure) : keeps_keys (@throw A e).
Proof. intros w H. exact H. Qed.

Lemma keeps_keys_bind {A B : Type} (m : Action A) (k : A -> Action B) :
  keeps_keys m -> (forall a, keeps_keys (k a)) -> keeps_keys (bind m k).
Proof.
  intros Hm Hk w H. unfold bind. specialize (Hm w H).
  destruct (m w) as [[a|e] w']; simpl in *.
  - apply Hk. exact Hm.
  - exact Hm.
Qed.

Lemma keeps_keys_requireUser (context : ActionAPIContext) :
  keeps_keys (requireUser context).
Proof.
  unfold requireUser. destruct (match locals context with _ => _ end);
    [apply keeps_keys_ret | apply keeps_keys_throw].
Qed.

Lemma keeps_keys_select {R : Type} (T : Table R) (q : list R -> list R) :
  keeps_keys (select T q).
Proof.
  intros w H. unfold select. cbv zeta.
  destruct (forallb _ _); exact H.
Qed.

Lemma keeps_keys_select_page {R : Type} (T : Table R) (c : sql.cond R)
    (n k : Z) :
  keeps_keys (select_page T c n k).
Proof.
  intros w H. unfold select_page.
  destruct (_ || _); [exact H |].
  destruct (_ && _); [| exact H].
  apply keeps_keys_select. exact H.
Qed.

Lemma NoDup_key_snoc {R : Type} (k : R -> string) (l : list R) (r : R) :
  NoDup (map k l) ->
  existsb (fun x => String.eqb (k x) (k r)) l = false ->
  NoDup (map k (l ++ [r])).
Proof.
  intros Hnd Hfresh. apply existsb_key_false in Hfresh.
  rewrite map_app. simpl.
  induction (map k l) as [|a ks IH]; simpl.
  - constructor; [intros [] | constructor].
  - inversion Hnd as [|? ? Ha Hks]; subst. constructor.
    + rewrite in_app_iff. intros [Hin|[E|[]]]; [exact (Ha Hin) |].
      apply Hfresh. left. symmetry. exact E.
    + apply IH; [exact Hks |]. intros Hin. apply Hfresh. right. exact Hin.
Qed.

Lemma map_key_update {R : Type} (k : R -> string) (f : R -> R)
    (c : R -> bool) (l : list R) :
  (forall r, k (f r) = k r) ->
  map k (map (fun r => if c r then f r else r) l) = map k l.
Proof.
  intros Hf. rewrite map_map. apply map_ext. intros r.
  destruct (c r); [apply Hf | reflexivity].
Qed.

Lemma keeps_keys_insert_template (r : PuzzleTemplates.row) :
  keeps_keys (insert tblPuzzleTemplates r).
Proof.
  intros w [Ht [Hs Ha]]. unfold insert.
  destruct (existsb _ _) eqn:E; simpl; [repeat split; assumption |].
  repeat split; try assumption.
  apply (NoDup_key_snoc PuzzleTemplates.id); assumption.
Qed.

Lemma keeps_keys_insert_session (r : PuzzleSessions.row) :
  keeps_keys (insert tblPuzzleSessions r).
Proof.
  intros w [Ht [Hs Ha]]. unfold insert.
  destruct (existsb _ _) eqn:E; simpl; [repeat split; assumption |].
  repeat split; try assumption.
  apply (NoDup_key_snoc PuzzleSessions.id); assumption.
Qed.

Lemma keeps_keys_insert_attempt (r : PuzzleAttempts.row) :
  keeps_keys (insert tblPuzzleAttempts r).
Proof.
  intros w [Ht [Hs Ha]]. unfold insert.
  destruct (existsb _ _) eqn:E; simpl; [repeat split; assumption |].
  repeat split; try assumption.
  apply (NoDup_key_snoc PuzzleAttempts.id); assumption.
Qed.

Lemma keeps_keys_update_template (numbers : list float)
    (f : PuzzleTemplates.row -> PuzzleTemplates.row)
    (c : sql.cond PuzzleTemplates.row) :
  (forall r, PuzzleTemplates.id (f r) = PuzzleTemplates.id r) ->
  keeps_keys (update tblPuzzleTemplates numbers f c).
Proof.
  intros Hf w [Ht [Hs Ha]]. unfold update.
  destruct (forallb is_finite numbers); simpl; [| repeat split; assumption].
  repeat split; try assumption.
  unfold primary_key in *. simpl in *.
  rewrite (map_key_update PuzzleTemplates.id f c _ Hf). exact Ht.
Qed.

Lemma keeps_keys_update_session (numbers : list float)
    (f : PuzzleSessions.row -> PuzzleSessions.row)
    (c : sql.cond PuzzleSessions.row) :
  (forall r, PuzzleSessions.id (f r) = PuzzleSessions.id r) ->
  keeps_keys (update tblPuzzleSessions numbers f c).
Proof.
  intros Hf w [Ht [Hs Ha]]. unfold update.
  destruct (forallb is_finite numbers); simpl; [| repeat split; assumption].
  repeat split; try assumption.
  unfold primary_key in *. simpl in *.
  rewrite (map_key_update PuzzleSessions.id f c _ Hf). exact Hs.
Qed.

Create HintDb keys.
#[local] Hint Resolve keeps_keys_ret keeps_keys_throw keeps_keys_requireUser
  keeps_keys_select keeps_keys_select_page keeps_keys_insert_template
  keeps_keys_insert_session
  keeps_keys_insert_attempt : keys.

Ltac keys_step :=
  first
    [ apply keeps_keys_bind; [| intros ?]
    | apply keeps_keys_update_template; intros ?; reflexivity
    | apply keeps_keys_update_session; intros ?; reflexivity
    | solve [auto with keys]
    | match goal with
      | |- keeps_keys (match ?l with _ => _ end) => destruct l
      | |- keeps_keys (if ?b then _ else _) => destruct b
      end ].

(** Every handler keeps the primary keys of the three tables. *)
Lemma handlers_keep_keys (context : ActionAPIContext) (rt : Runtime) :
  (forall i, keeps_keys (createPuzzleTemplate.handler i context rt))
  /\ (forall i, keeps_keys (updatePuzzleTemplate.handler i context rt))
  /\ (forall i, keeps_keys (listPuzzleTemplates.handler i context rt))
  /\ (forall i, keeps_keys (startPuzzleSession.handler i context rt))
  /\ (forall i, keeps_keys (completePuzzleSession.handler i context rt))
  /\ (forall i, keeps_keys (recordPuzzleAttempt.handler i context rt))
  /\ (forall i, keeps_keys (listPuzzleSessions.handler i context rt)).
Proof.
  repeat match goal with |- _ /\ _ => split end; intros i;
    [ unfold createPuzzleTemplate.handler
    | unfold updatePuzzleTemplate.handler
    | unfold listPuzzleTemplates.handler
    | unfold startPuzzleSession.handler
    | unfold completePuzzleSession.handler
    | unfold recordPuzzleAttempt.handler
    | unfold listPuzzleSessions.handler ];
    repeat keys_step.
Qed.

(** The seed step on an empty storage yields a consistent storage. *)
Lemma seeded_storage_consistent (now : Date) :
  let empty := {| db := {| templates := []; sessions := []; attempts := [] |};
                  journal := [] |} in
  consistent (db (snd (seed now empty)))
  /\ templates (db (snd (seed now empty))) = [seed_template now].
Proof.
  split; [| reflexivity].
  unfold consistent, primary_key. simpl.
  repeat split; repeat constructor; simpl; intuition.
Qed.

(* ================================================================== *)
(** * The scenarios of the specification, evaluated *)

(** Another user may not rename the template. *)
Example hack_is_forbidden :
  updatePuzzleTemplate.handler Sample.hack (Sample.signedIn Sample.bob)
    Sample.rt Sample.world =
  (Throw (ActionError FORBIDDEN "You cannot modify this puzzle template."),
   {| db := Sample.store; journal := [SELECT TPuzzleTemplates] |}).
Proof. reflexivity. Qed.

(** The owner sets the difficulty; the name stays, and the empty
    description of the request does not clear the stored one. *)
Example harder_keeps_the_name :
  templates (db (snd
    (updatePuzzleTemplate.handler Sample.harder (Sample.signedIn Sample.alice)
       Sample.rt Sample.world))) =
  [ seed_template 0;
    {| PuzzleTemplates.id := "T";
       PuzzleTemplates.userId := Some "u1";
       PuzzleTemplates.name := "Test";
       PuzzleTemplates.puzzleType := Some "sudoku";
       PuzzleTemplates.difficulty := Some "hard";
       PuzzleTemplates.description := Some "nine by nine";
       PuzzleTemplates.dataJson := None;
       PuzzleTemplates.solutionJson := None;
       PuzzleTemplates.isSystem := false;
       PuzzleTemplates.createdAt := 1000;
       PuzzleTemplates.updatedAt := 5000 |} ].
Proof. reflexivity. Qed.

(** The built-in template cannot be updated, and anyone can play it. *)
Example system_template_is_immutable :
  fst (updatePuzzleTemplate.handler
         {| updatePuzzleTemplate.id := "system-puzzle-sample";
            updatePuzzleTemplate.name := Some "Mine";
            updatePuzzleTemplate.puzzleType := None;
            updatePuzzleTemplate.difficulty := None;
            updatePuzzleTemplate.description := None;
            updatePuzzleTemplate.dataJson := None;
            updatePuzzleTemplate.solutionJson := None |}
         (Sample.signedIn Sample.alice) Sample.rt Sample.world) =
  Throw (ActionError FORBIDDEN "You cannot modify this puzzle template.").
Proof. reflexivity. Qed.

Example anyone_starts_the_system_puzzle :
  fst (startPuzzleSession.handler
         {| startPuzzleSession.puzzleTemplateId := "system-puzzle-sample" |}
         (Sample.signedIn Sample.bob) Sample.rt Sample.world) =
  Return {| success := true;
            data := {| startPuzzleSession.result.id := "uuid-9";
                       startPuzzleSession.result.puzzleTemplateId :=
                         "system-puzzle-sample" |} |}.
Proof. reflexivity. Qed.

Example foreign_template_is_not_found :
  fst (startPuzzleSession.handler
         {| startPuzzleSession.puzzleTemplateId := "T" |}
         (Sample.signedIn Sample.bob) Sample.rt Sample.world) =
  Throw (ActionError NOT_FOUND "Puzzle template not found.").
Proof. reflexivity. Qed.

(** A session that is already completed is completed again, here as
    abandoned. *)
Example completed_session_is_completed_again :
  nth_error (sessions (db (snd
    (completePuzzleSession.handler Sample.abandon_s2
       (Sample.signedIn Sample.alice) Sample.rt Sample.world)))) 1 =
  Some {| PuzzleSessions.id := "s2";
          PuzzleSessions.puzzleTemplateId := "system-puzzle-sample";
          PuzzleSessions.userId := "u1";
          PuzzleSessions.startedAt := 2000;
          PuzzleSessions.completedAt := Some 5000;
          PuzzleSessions.status := Some "abandoned";
          PuzzleSessions.score := Some 12.5%float;
          PuzzleSessions.timeTakenSeconds := None |}.
Proof. reflexivity. Qed.

(** An attempt with an index that the session already has is recorded. *)
Example repeated_attempt_index_is_recorded :
  map (fun a => (PuzzleAttempts.sessionId a, PuzzleAttempts.attemptIndex a))
    (attempts (db (snd
       (recordPuzzleAttempt.handler Sample.guess
          (Sample.signedIn Sample.alice) Sample.rt Sample.world)))) =
  [("s1", 1); ("s1", 1)].
Proof. reflexivity. Qed.

(** Three sessions of the caller match, the page holds one, and [total]
    is one. *)
Example total_counts_the_page :
  let answer :=
    listPuzzleSessions.handler Sample.second_of_one
      (Sample.signedIn Sample.alice) Sample.rt Sample.world in
  length (filter (fun s => String.eqb (PuzzleSessions.userId s) "u1")
            (sessions Sample.store)) = 3%nat
  /\ fst answer =
     Return {| success := true;
               data := {| listPuzzleSessions.result.items :=
                            [Sample.session "s2" "system-puzzle-sample" "u1"
                               "completed"];
                          listPuzzleSessions.result.total := 1;
                          listPuzzleSessions.result.page := 2 |} |}.
Proof. split; reflexivity. Qed.

(* ================================================================== *)
(** * One call of the server *)

Lemma createPuzzleTemplate_unfold
    (context : ActionAPIContext) (u : User.t) (rt : Runtime)
    (i : createPuzzleTemplate.input) (w : World) :
  caller context = Some u ->
  createPuzzleTemplate.handler i context rt w =
    if existsb (fun x => String.eqb (PuzzleTemplates.id x) (randomUUID rt))
         (templates (db w))
    then (Throw (PrimaryKeyViolation TPuzzleTemplates),
          issue (INSERT TPuzzleTemplates) w)
    else
      (Return {| success := true;
                 data := {| createPuzzleTemplate.result.id := randomUUID rt |} |},
       {| db := {|
            templates := templates (db w) ++ [{|
              PuzzleTemplates.id := randomUUID rt;
              PuzzleTemplates.userId := Some (User.id u);
              PuzzleTemplates.name := createPuzzleTemplate.name i;
              PuzzleTemplates.puzzleType := createPuzzleTemplate.puzzleType i;
              PuzzleTemplates.difficulty := createPuzzleTemplate.difficulty i;
              PuzzleTemplates.description := createPuzzleTemplate.description i;
              PuzzleTemplates.dataJson := createPuzzleTemplate.dataJson i;
              PuzzleTemplates.solutionJson := createPuzzleTemplate.solutionJson i;
              PuzzleTemplates.isSystem := false;
              PuzzleTemplates.createdAt := newDate rt;
              PuzzleTemplates.updatedAt := newDate rt |}];
            sessions := sessions (db w);
            attempts := attempts (db w) |};
          journal := journal w ++ [INSERT TPuzzleTemplates] |}).
Proof.
  intros Hu. unfold createPuzzleTemplate.handler.
  rewrite (bind_requireUser_signed_in _ _ _ _ Hu).
  unfold bind, insert, ret. simpl.
  destruct (existsb _ _); reflexivity.
Qed.

Lemma listPuzzleTemplates_unfold
    (context : ActionAPIContext) (u : User.t) (rt : Runtime)
    (i : listPuzzleTemplates.input) (w : World) :
  caller context = Some u ->
  exists items,
    listPuzzleTemplates.handler i context rt w =
      (Return {| success := true;
                 data := {| listPuzzleTemplates.result.items := items;
                            listPuzzleTemplates.result.total :=
                              Z.of_nat (length items) |} |},
       issue (SELECT TPuzzleTemplates) w)
    /\ items =
       filter
         (fun t =>
            sql.eq PuzzleTemplates.userId (User.id u) t
            || (listPuzzleTemplates.includeSystem i
                && PuzzleTemplates.isSystem t))
         (templates (db w)).
Proof.
  intros Hu. unfold listPuzzleTemplates.handler.
  rewrite (bind_requireUser_signed_in _ _ _ _ Hu).
  unfold bind. rewrite select_templates. unfold ret, sql.where_.
  eexists. split; [reflexivity |].
  apply filter_ext. intros t.
  destruct (listPuzzleTemplates.includeSystem i); simpl.
  - unfold sql.or, sql.eq at 2, sql.same, sql.bool_bool.
    destruct (PuzzleTemplates.isSystem t); reflexivity.
  - rewrite orb_false_r. reflexivity.
Qed.

Lemma snd_answer {A : Type} (wrap : A -> Reply) (m : Action A) (w : World) :
  snd (answer wrap m w) = snd (m w).
Proof. unfold answer. destruct (m w) as [[a|e] w']; reflexivity. Qed.

Lemma answer_throws {A : Type} (wrap : A -> Reply) (m : Action A) (w : World)
    (e : Failure) :
  fst (answer wrap m w) = Throw e <-> fst (m w) = Throw e.
Proof.
  unfold answer. destruct (m w) as [[a|e'] w']; simpl;
    split; intros H; congruence.
Qed.

(** A call without a user is refused by [requireUser]. *)
Lemma anonymous_call (r : Request) (context : ActionAPIContext) (rt : Runtime)
    (w : World) :
  caller context = None ->
  server r context rt w =
    (Throw (ActionError UNAUTHORIZED
              "You must be signed in to perform this action."), w).
Proof.
  intros Hc. destruct r as [i|i|i|i|i|i|i]; unfold server, answer;
    [ unfold createPuzzleTemplate.handler
    | unfold updatePuzzleTemplate.handler
    | unfold listPuzzleTemplates.handler
    | unfold startPuzzleSession.handler
    | unfold completePuzzleSession.handler
    | unfold recordPuzzleAttempt.handler
    | unfold listPuzzleSessions.handler ];
    rewrite (bind_requireUser_anonymous _ _ _ Hc); reflexivity.
Qed.

(** Case analysis of a handler past [requireUser]: the selection, the
    ownership test and the primary key test. *)
Ltac handler_cases :=
  repeat match goal with
    | |- context [match filter ?f ?l with _ => _ end] =>
        let E := fresh "Esel" in
        let x := fresh "found" in
        let xs := fresh "others" in
        destruct (filter f l) as [|x xs] eqn:E
    | |- context [if forallb ?f ?l then _ else _] =>
        let E := fresh "Eall" in destruct (forallb f l) eqn:E
    | |- context [if existsb ?f ?l then _ else _] =>
        let E := fresh "Ekey" in destruct (existsb f l) eqn:E
    | |- context [if ?a || ?b then _ else _] =>
        let E := fresh "Eown" in destruct (a || b) eqn:E
    end.

(** What one call of a signed-in user does to the storage. *)
Lemma call_changes (r : Request) (context : ActionAPIContext) (rt : Runtime)
    (w : World) (u : User.t) :
  caller context = Some u ->
  Change (User.id u) (db w) (db (snd (server r context rt w))).
Proof.
  intros Hc. destruct r as [i|i|i|i|i|i|i]; unfold server;
    rewrite snd_answer.
  - rewrite (createPuzzleTemplate_unfold context u rt i w Hc). handler_cases.
    + apply change_nothing.
    + simpl. apply change_new_template; try reflexivity.
      apply (existsb_key_false PuzzleTemplates.id). exact Ekey.
  - rewrite (updatePuzzleTemplate_unfold context u rt i w Hc). handler_cases;
      try apply change_nothing.
    simpl. destruct (filter_first _ _ _ _ Esel) as [Hin Hid].
    apply String.eqb_eq in Hid. apply orb_false_iff in Eown.
    destruct Eown as [Eown Esys].
    apply change_template.
    + exists found. repeat split; try assumption.
      destruct (PuzzleTemplates.userId found) as [o|]; simpl in Eown;
        [| discriminate].
      apply negb_false_iff, String.eqb_eq in Eown. congruence.
    + intros r. repeat split.
  - destruct (listPuzzleTemplates_unfold context u rt i w Hc) as [l [E _]].
    rewrite E. apply change_nothing.
  - rewrite (startPuzzleSession_unfold context u rt i w Hc). handler_cases;
      try apply change_nothing.
    simpl. destruct (filter_first _ _ _ _ Esel) as [Hin Hc'].
    apply usable_template_spec in Hc'.
    apply change_new_session; try reflexivity.
    + apply (existsb_key_false PuzzleSessions.id). exact Ekey.
    + exists found. simpl. tauto.
  - rewrite (completePuzzleSession_unfold context u rt i w Hc). handler_cases;
      try apply change_nothing.
    simpl. destruct (filter_first _ _ _ _ Esel) as [Hin Hc'].
    apply own_session_spec in Hc'.
    apply change_session.
    + exists found. tauto.
    + intros r. simpl. repeat split; try discriminate.
      destruct (completePuzzleSession.status i); [left | right]; reflexivity.
  - rewrite (recordPuzzleAttempt_unfold context u rt i w Hc). handler_cases;
      try apply change_nothing.
    simpl. destruct (filter_first _ _ _ _ Esel) as [Hin Hc'].
    apply own_session_spec in Hc'.
    apply change_new_attempt.
    + apply (existsb_key_false PuzzleAttempts.id). exact Ekey.
    + exists found. simpl. tauto.
  - rewrite listPuzzleSessions_reads_only. apply change_nothing.
Qed.

(* ================================================================== *)
(** * What a change keeps *)

Lemma key_determines_row {R : Type} (k : R -> string) (l : list R) (a b : R) :
  NoDup (map k l) -> In a l -> In b l -> k a = k b -> a = b.
Proof.
  intros Hnd Ha Hb E.
  pose proof (filter_by_key k l a Hnd Ha) as Fa.
  pose proof (filter_by_key k l b Hnd Hb) as Fb.
  rewrite E in Fa. rewrite Fa in Fb. congruence.
Qed.

Lemma nth_error_snoc_old {R : Type} (l : list R) (r x : R) (n : nat) :
  nth_error l n = Some x -> nth_error (l ++ [r]) n = Some x.
Proof.
  intros H. rewrite nth_error_app1; [exact H |].
  apply nth_error_Some. congruence.
Qed.

Lemma change_keeps_keys (uid : string) (d d' : Db) :
  Change uid d d' -> consistent d -> consistent d'.
Proof.
  intros C [Ht [Hs Ha]]. unfold consistent, primary_key in *.
  destruct C as [|r Hfresh _ _|i f _ Hf|r Hfresh _ _ _ _ _ _|i f _ Hf|r Hfresh _];
    simpl in *; repeat split; try assumption.
  - apply (NoDup_key_snoc PuzzleTemplates.id); [exact Ht |].
    apply (existsb_key_false PuzzleTemplates.id). exact Hfresh.
  - rewrite (map_key_update PuzzleTemplates.id f); [exact Ht |].
    intros r. apply Hf.
  - apply (NoDup_key_snoc PuzzleSessions.id); [exact Hs |].
    apply (existsb_key_false PuzzleSessions.id). exact Hfresh.
  - rewrite (map_key_update PuzzleSessions.id f); [exact Hs |].
    intros r. apply Hf.
  - apply (NoDup_key_snoc PuzzleAttempts.id); [exact Ha |].
    apply (existsb_key_false PuzzleAttempts.id). exact Hfresh.
Qed.

Lemma change_keeps_foreign_templates (uid : string) (d d' : Db)
    (n : nat) (t : PuzzleTemplates.row) :
  Change uid d d' ->
  primary_key tblPuzzleTemplates d ->
  nth_error (templates d) n = Some t ->
  PuzzleTemplates.isSystem t = true
  \/ PuzzleTemplates.userId t <> Some uid ->
  nth_error (templates d') n = Some t.
Proof.
  intros C Hkey Hn Hforeign.
  destruct C as [|r _ _ _|i f [t0 [Hin0 [Hid0 [Hown0 Hsys0]]]] _| | |];
    simpl; try exact Hn.
  - apply nth_error_snoc_old. exact Hn.
  - rewrite nth_error_map, Hn. simpl.
    destruct (String.eqb (PuzzleTemplates.id t) i) eqn:E; [| reflexivity].
    apply String.eqb_eq in E. exfalso.
    assert (t = t0).
    { apply (key_determines_row PuzzleTemplates.id (templates d));
        [exact Hkey | eapply nth_error_In; exact Hn | exact Hin0 | congruence]. }
    subst t0. destruct Hforeign as [H|H]; congruence.
Qed.

Lemma change_keeps_foreign_sessions (uid : string) (d d' : Db)
    (n : nat) (s : PuzzleSessions.row) :
  Change uid d d' ->
  primary_key tblPuzzleSessions d ->
  nth_error (sessions d) n = Some s ->
  PuzzleSessions.userId s <> uid ->
  nth_error (sessions d') n = Some s.
Proof.
  intros C Hkey Hn Hforeign.
  destruct C as [| | |r _ _ _ _ _ _ _|i f [s0 [Hin0 [Hid0 Hown0]]] _|];
    simpl; try exact Hn.
  - apply nth_error_snoc_old. exact Hn.
  - rewrite nth_error_map, Hn. simpl.
    destruct (String.eqb (PuzzleSessions.id s) i) eqn:E; [| reflexivity].
    apply String.eqb_eq in E. exfalso.
    assert (s = s0).
    { apply (key_determines_row PuzzleSessions.id (sessions d));
        [exact Hkey | eapply nth_error_In; exact Hn | exact Hin0 | congruence]. }
    subst s0. congruence.
Qed.

Lemma change_keeps_references (uid : string) (d d' : Db) :
  Change uid d d' -> referential d -> referential d'.
Proof.
  intros C [Hs Ha]. unfold referential.
  destruct C as [|r _ _ _|i f _ Hf|r _ _ [t Ht] _ _ _ _|i f _ Hf|r _ [s0 Hs0]];
    simpl.
  - split; assumption.
  - split; [| exact Ha]. intros s Hin. destruct (Hs s Hin) as [t [Ht Hid]].
    exists t. split; [apply in_or_app; left; exact Ht | exact Hid].
  - split; [| exact Ha]. intros s Hin. destruct (Hs s Hin) as [t [Ht Hid]].
    exists (if String.eqb (PuzzleTemplates.id t) i then f t else t). split.
    + apply (in_map (fun r =>
        if String.eqb (PuzzleTemplates.id r) i then f r else r)). exact Ht.
    + destruct (String.eqb (PuzzleTemplates.id t) i); [| exact Hid].
      rewrite (proj1 (Hf t)). exact Hid.
  - split.
    + intros s Hin. apply in_app_or in Hin. destruct Hin as [Hin|[<-|[]]].
      * apply Hs. exact Hin.
      * exists t. tauto.
    + intros a Hin. destruct (Ha a Hin) as [s [Hin' Hid]].
      exists s. split; [apply in_or_app; left; exact Hin' | exact Hid].
  - split.
    + intros s Hin. apply in_map_iff in Hin. destruct Hin as [s1 [E Hin]].
      destruct (Hs s1 Hin) as [t [Ht Hid]]. exists t. split; [exact Ht |].
      subst s. destruct (String.eqb (PuzzleSessions.id s1) i); [| exact Hid].
      rewrite (proj1 (proj2 (proj2 (Hf s1)))). exact Hid.
    + intros a Hin. destruct (Ha a Hin) as [s [Hin' Hid]].
      exists (if String.eqb (PuzzleSessions.id s) i then f s else s). split.
      * apply (in_map (fun r =>
          if String.eqb (PuzzleSessions.id r) i then f r else r)). exact Hin'.
      * destruct (String.eqb (PuzzleSessions.id s) i); [| exact Hid].
        rewrite (proj1 (Hf s)). exact Hid.
  - split; [exact Hs |].
    intros a Hin. apply in_app_or in Hin. destruct Hin as [Hin|[<-|[]]].
    + apply Ha. exact Hin.
    + exists s0. tauto.
Qed.

Lemma change_keeps_origins (now : Date) (uid : string) (d d' : Db) :
  Change uid d d' ->
  primary_key tblPuzzleTemplates d ->
  (forall t, In t (templates d) -> template_origin now t) ->
  (forall t, In t (templates d') -> template_origin now t).
Proof.
  intros C Hkey Ho.
  destruct C as [|r _ Hown Hsys|i f [t0 [Hin0 [Hid0 [Hown0 Hsys0]]]] Hf| | |];
    simpl; try exact Ho.
  - intros t Hin. apply in_app_or in Hin. destruct Hin as [Hin|[<-|[]]].
    + apply Ho. exact Hin.
    + right. split; [exact Hsys | exists uid; exact Hown].
  - intros t Hin. apply in_map_iff in Hin. destruct Hin as [t1 [E Hin1]].
    destruct (String.eqb (PuzzleTemplates.id t1) i) eqn:X.
    + apply String.eqb_eq in X.
      assert (t1 = t0).
      { apply (key_determines_row PuzzleTemplates.id (templates d));
          [exact Hkey | exact Hin1 | exact Hin0 | congruence]. }
      subst t1 t. right. destruct (Hf t0) as [_ [Hu [Hs _]]].
      split; [congruence | exists uid; congruence].
    + subst t. apply Ho. exact Hin1.
Qed.

Lemma change_keeps_lifecycle (uid : string) (d d' : Db) :
  Change uid d d' ->
  (forall s, In s (sessions d) -> session_lifecycle s) ->
  (forall s, In s (sessions d') -> session_lifecycle s).
Proof.
  intros C Hl.
  destruct C as [| | |r _ _ _ Hst Hc Hsc Htt|i f _ Hf|]; simpl; try exact Hl.
  - intros s Hin. apply in_app_or in Hin. destruct Hin as [Hin|[<-|[]]].
    + apply Hl. exact Hin.
    + left. tauto.
  - intros s Hin. apply in_map_iff in Hin. destruct Hin as [s1 [E Hin1]].
    destruct (String.eqb (PuzzleSessions.id s1) i).
    + subst s. right. destruct (Hf s1) as [_ [_ [_ [_ [Hst Hc]]]]]. tauto.
    + subst s. apply Hl. exact Hin1.
Qed.

Lemma change_appends (uid : string) (d d' : Db) :
  Change uid d d' ->
  (exists more,
     map template_identity (templates d') =
       (map template_identity (templates d) ++ more)%list)
  /\ (exists more,
        map session_identity (sessions d') =
          (map session_identity (sessions d) ++ more)%list)
  /\ (exists more, attempts d' = (attempts d ++ more)%list).
Proof.
  intros C.
  destruct C as [|r _ _ _|i f _ Hf|r _ _ _ _ _ _ _|i f _ Hf|r _ _]; simpl.
  - split; [| split]; exists []; rewrite app_nil_r; reflexivity.
  - split; [| split];
      [ eexists; rewrite map_app; reflexivity
      | exists []; rewrite app_nil_r; reflexivity
      | exists []; rewrite app_nil_r; reflexivity ].
  - split; [| split]; exists []; rewrite app_nil_r; try reflexivity.
    rewrite map_map. apply map_ext. intros t.
    destruct (String.eqb (PuzzleTemplates.id t) i); [| reflexivity].
    unfold template_identity. destruct (Hf t) as [-> [-> [-> ->]]].
    reflexivity.
  - split; [| split];
      [ exists []; rewrite app_nil_r; reflexivity
      | eexists; rewrite map_app; reflexivity
      | exists []; rewrite app_nil_r; reflexivity ].
  - split; [| split]; exists []; rewrite app_nil_r; try reflexivity.
    rewrite map_map. apply map_ext. intros s.
    destruct (String.eqb (PuzzleSessions.id s) i); [| reflexivity].
    unfold session_identity. destruct (Hf s) as [-> [-> [-> [-> _]]]].
    reflexivity.
  - split; [| split];
      [ exists []; rewrite app_nil_r; reflexivity
      | exists []; rewrite app_nil_r; reflexivity
      | eexists; reflexivity ].
Qed.

(* ================================================================== *)
(** * Invariants of the reachable storages *)

Lemma reachable_invariants (now : Date) (w : World) :
  Reachable now w ->
  consistent (db w)
  /\ referential (db w)
  /\ (forall t, In t (templates (db w)) -> template_origin now t)
  /\ (forall s, In s (sessions (db w)) -> session_lifecycle s).
Proof.
  induction 1 as [|w r context rt _ [Hk [Hr [Ho Hl]]]].
  - split; [| split; [| split]].
    + unfold consistent, primary_key. simpl.
      repeat split; repeat constructor; simpl; tauto.
    + split; simpl; intros ? [].
    + simpl. intros t [<-|[]]. left. reflexivity.
    + simpl. intros s [].
  - destruct (caller context) as [u|] eqn:Hc.
    + pose proof (call_changes r context rt w u Hc) as C.
      split; [exact (change_keeps_keys _ _ _ C Hk) |].
      split; [exact (change_keeps_references _ _ _ C Hr) |].
      split; [exact (change_keeps_origins now _ _ _ C (proj1 Hk) Ho) |].
      exact (change_keeps_lifecycle _ _ _ C Hl).
    + rewrite (anonymous_call r context rt w Hc). simpl. tauto.
Qed.

Lemma sample_played_reachable : Reachable 0 Sample.played.
Proof. apply reach_call, reach_seed. Qed.

(** X1. In every world that the seed step and calls can produce, the
    ids of the templates, of the sessions and of the attempts are keys. *)
Theorem reachable_storage_has_keys (now : Date) (w : World) :
  Reachable now w -> consistent (db w).
Proof. intros H. exact (proj1 (reachable_invariants now w H)). Qed.

Lemma reachable_storage_has_keys_witness : consistent (db Sample.played).
Proof.
  exact (reachable_storage_has_keys 0 Sample.played sample_played_reachable).
Defined.

(** X2. A call that throws, whatever the error, leaves the storage as it
    was: no handler writes before one of its checks fails. *)
Theorem failed_call_changes_nothing (r : Request) (context : ActionAPIContext)
    (rt : Runtime) (w : World) (e : Failure) :
  fst (server r context rt w) = Throw e ->
  db (snd (server r context rt w)) = db w.
Proof.
  destruct (caller context) as [u|] eqn:Hc.
  - destruct r as [i|i|i|i|i|i|i]; unfold server;
      rewrite answer_throws, snd_answer.
    + rewrite (createPuzzleTemplate_unfold context u rt i w Hc).
      handler_cases; simpl; intros H; first [reflexivity | discriminate].
    + rewrite (updatePuzzleTemplate_unfold context u rt i w Hc).
      handler_cases; simpl; intros H; first [reflexivity | discriminate].
    + destruct (listPuzzleTemplates_unfold context u rt i w Hc) as [l [E _]].
      rewrite E. reflexivity.
    + rewrite (startPuzzleSession_unfold context u rt i w Hc).
      handler_cases; simpl; intros H; first [reflexivity | discriminate].
    + rewrite (completePuzzleSession_unfold context u rt i w Hc).
      handler_cases; simpl; intros H; first [reflexivity | discriminate].
    + rewrite (recordPuzzleAttempt_unfold context u rt i w Hc).
      handler_cases; simpl; intros H; first [reflexivity | discriminate].
    + intros _. apply listPuzzleSessions_reads_only.
  - rewrite (anonymous_call r context rt w Hc). reflexivity.
Qed.

Lemma failed_call_changes_nothing_witness :
  fst (server (UpdatePuzzleTemplate Sample.hack) (Sample.signedIn Sample.bob)
         Sample.rt Sample.world) =
    Throw (ActionError FORBIDDEN "You cannot modify this puzzle template.")
  /\ db (snd (server (UpdatePuzzleTemplate Sample.hack)
                (Sample.signedIn Sample.bob) Sample.rt Sample.world)) =
     db Sample.world.
Proof.
  split; [reflexivity |].
  exact (failed_call_changes_nothing (UpdatePuzzleTemplate Sample.hack)
           (Sample.signedIn Sample.bob) Sample.rt Sample.world _
           Logic.eq_refl).
Defined.

Ltac pick_shape := simpl; repeat (first [left; reflexivity | right]).

Ltac settle_statements :=
  eexists; split;
    [ unfold issue; simpl; rewrite <- ?app_assoc; simpl; reflexivity
    | split; [pick_shape
      | split; [split; intros; discriminate
        | split; [simpl; intros; first [reflexivity | discriminate]
          | simpl; auto]]]].

(** The statements of one call of a signed-in user. *)
Lemma signed_in_statements (r : Request) (context : ActionAPIContext)
    (rt : Runtime) (w : World) (u : User.t) :
  caller context = Some u ->
  exists ops,
    journal (snd (server r context rt w)) = (journal w ++ ops)%list
    /\ In ops
         [ [];
           [SELECT TPuzzleTemplates];
           [SELECT TPuzzleSessions];
           [INSERT TPuzzleTemplates];
           [SELECT TPuzzleTemplates; UPDATE TPuzzleTemplates];
           [SELECT TPuzzleTemplates; INSERT TPuzzleSessions];
           [SELECT TPuzzleSessions; UPDATE TPuzzleSessions];
           [SELECT TPuzzleSessions; INSERT TPuzzleAttempts] ]
    /\ (ops = [] <-> unbound_page r = true)
    /\ (existsb is_write ops = false ->
        db (snd (server r context rt w)) = db w)
    /\ match r with
       | ListPuzzleTemplates _ | ListPuzzleSessions _ =>
           existsb is_write ops = false
       | _ => True
       end.
Proof.
  intros Hc.
  destruct r as [i|i|i|i|i|i|i]; unfold server; rewrite snd_answer.
  - rewrite (createPuzzleTemplate_unfold context u rt i w Hc).
    handler_cases; settle_statements.
  - rewrite (updatePuzzleTemplate_unfold context u rt i w Hc).
    handler_cases; settle_statements.
  - destruct (listPuzzleTemplates_unfold context u rt i w Hc) as [l [E _]].
    rewrite E. settle_statements.
  - rewrite (startPuzzleSession_unfold context u rt i w Hc).
    handler_cases; settle_statements.
  - rewrite (completePuzzleSession_unfold context u rt i w Hc).
    handler_cases; settle_statements.
  - rewrite (recordPuzzleAttempt_unfold context u rt i w Hc).
    handler_cases; settle_statements.
  - rewrite (listPuzzleSessions_unfold context u rt i w Hc). cbv zeta.
    unfold unbound_page.
    destruct (_ || _).
    + exists []. simpl. rewrite app_nil_r.
      split; [reflexivity |]. split; [tauto |]. split; [tauto |].
      split; reflexivity.
    + destruct (_ && _); [destruct (forallb _ _) |]; settle_statements.
Qed.

(** An invocation is answered by the handler on the parsed input, or
    refused by the schema without touching anything. *)
Lemma invoke_parsed (c : Invocation) (context : ActionAPIContext)
    (rt : Runtime) (w : World) :
  invoke c context rt w =
    match parsed c with
    | Some r => server r context rt w
    | None => (Throw (ActionError BAD_REQUEST "Failed to validate"), w)
    end.
Proof.
  destruct c as [x|x|x|x|x|x|x]; unfold invoke, parsed, defineAction;
    match goal with
    | |- context [option_map _ ?s] => destruct s
    end; reflexivity.
Qed.

(* ================================================================== *)
(** * Invocations: the schema first, then [requireUser] *)

(** C1. When the request context carries no user, an invocation of any
    of the seven actions whose input the schema admits is answered with
    [UNAUTHORIZED] and leaves the world as it found it: the storage is the
    same and the journal of statements has not grown, so nothing was read
    and nothing was written.  The schema comes first, though: an input that
    it refuses is answered with [BAD_REQUEST], not [UNAUTHORIZED], again
    without any storage access. *)
Theorem unauthenticated_is_rejected
    (context : ActionAPIContext) (rt : Runtime) (w : World) :
  caller context = None ->
  let denied : Outcome Reply * World :=
    (Throw (ActionError UNAUTHORIZED
              "You must be signed in to perform this action."), w) in
  let refused : Outcome Reply * World :=
    (Throw (ActionError BAD_REQUEST "Failed to validate"), w) in
  (forall c r, parsed c = Some r -> invoke c context rt w = denied)
  /\ (forall c, parsed c = None -> invoke c context rt w = refused)
  /\ (forall r, server r context rt w = denied)
  /\ (forall c, snd (invoke c context rt w) = w).
Proof.
  intros Hc denied refused. subst denied refused.
  split; [| split; [| split]].
  - intros c r Hp. rewrite invoke_parsed, Hp.
    apply anonymous_call. exact Hc.
  - intros c Hp. rewrite invoke_parsed, Hp. reflexivity.
  - intros r. apply anonymous_call. exact Hc.
  - intros c. rewrite invoke_parsed. destruct (parsed c) as [r|];
      [rewrite (anonymous_call r context rt w Hc) |]; reflexivity.
Qed.

Lemma unauthenticated_is_rejected_witness :
  caller Sample.bare = None
  /\ invoke (invokeListPuzzleSessions Sample.wanted) Sample.bare Sample.rt
       Sample.world =
     (Throw (ActionError UNAUTHORIZED
               "You must be signed in to perform this action."),
      Sample.world).
Proof.
  split; [reflexivity |].
  exact (proj1
    (unauthenticated_is_rejected Sample.bare Sample.rt Sample.world
       Logic.eq_refl)
    (invokeListPuzzleSessions Sample.wanted)
    (ListPuzzleSessions Sample.admitted) Logic.eq_refl).
Defined.

(** C1, as first stated, fails: without a user, a [createPuzzleTemplate]
    invocation that names no [name] is refused by the schema before the
    handler runs, and the answer is not [UNAUTHORIZED]. *)
Lemma refused_input_is_not_unauthorized :
  caller Sample.bare = None
  /\ fst (invoke (invokeCreatePuzzleTemplate Sample.nameless) Sample.bare
            Sample.rt Sample.world) =
     Throw (ActionError BAD_REQUEST "Failed to validate")
  /\ ~ raises UNAUTHORIZED
         (fst (invoke (invokeCreatePuzzleTemplate Sample.nameless) Sample.bare
                 Sample.rt Sample.world)).
Proof.
  split; [reflexivity |]. split; [reflexivity |].
  intros [m Hm]. discriminate.
Qed.

(** X3. One invocation issues at most one read and then at most one
    write, in one of eight fixed shapes.  It issues nothing when the schema
    refuses the input or the context has no user, and otherwise only when
    the page arithmetic of [listPuzzleSessions] yields a number that cannot
    be bound.  The storage can differ only after a write statement, and the
    two list actions never write. *)
Theorem call_statements (c : Invocation) (context : ActionAPIContext)
    (rt : Runtime) (w : World) :
  exists ops,
    journal (snd (invoke c context rt w)) = (journal w ++ ops)%list
    /\ In ops
         [ [];
           [SELECT TPuzzleTemplates];
           [SELECT TPuzzleSessions];
           [INSERT TPuzzleTemplates];
           [SELECT TPuzzleTemplates; UPDATE TPuzzleTemplates];
           [SELECT TPuzzleTemplates; INSERT TPuzzleSessions];
           [SELECT TPuzzleSessions; UPDATE TPuzzleSessions];
           [SELECT TPuzzleSessions; INSERT TPuzzleAttempts] ]
    /\ (parsed c = None \/ caller context = None -> ops = [])
    /\ (ops = [] ->
        parsed c = None \/ caller context = None
        \/ exists r, parsed c = Some r /\ unbound_page r = true)
    /\ (existsb is_write ops = false ->
        db (snd (invoke c context rt w)) = db w)
    /\ match c with
       | invokeListPuzzleTemplates _ | invokeListPuzzleSessions _ =>
           existsb is_write ops = false
       | _ => True
       end.
Proof.
  rewrite (invoke_parsed c context rt w).
  destruct (parsed c) as [r|] eqn:Hp.
  - destruct (caller context) as [u|] eqn:Hc.
    + destruct (signed_in_statements r context rt w u Hc)
        as [ops [Hj [Hs [Hn [Hw Hl]]]]].
      exists ops. split; [exact Hj |]. split; [exact Hs |].
      split; [intros [H|H]; discriminate |].
      split; [intros H; right; right; exists r; split;
              [reflexivity | apply Hn; exact H] |].
      split; [exact Hw |].
      destruct c as [x|x|x|x|x|x|x]; try exact I; unfold parsed in Hp;
        match type of Hp with
        | option_map _ ?s = _ => destruct s; [| discriminate]
        end; injection Hp as <-; exact Hl.
    + rewrite (anonymous_call r context rt w Hc). exists []. simpl.
      rewrite app_nil_r. split; [reflexivity |]. split; [tauto |].
      split; [tauto |]. split; [tauto |]. split; [reflexivity |].
      destruct c; auto.
  - exists []. simpl. rewrite app_nil_r.
    split; [reflexivity |]. split; [tauto |]. split; [tauto |].
    split; [tauto |]. split; [reflexivity |]. destruct c; auto.
Qed.

(** X4. No call removes a row or changes which row is which: after a
    call the templates still start with the same ids, owners, system flags
    and creation instants, the sessions with the same ids, owners, templates
    and start instants, and the attempts with the very same rows. *)
Theorem nothing_is_deleted (r : Request) (context : ActionAPIContext)
    (rt : Runtime) (w : World) :
  let d := db w in
  let d' := db (snd (server r context rt w)) in
  (exists more,
     map template_identity (templates d') =
       (map template_identity (templates d) ++ more)%list)
  /\ (exists more,
        map session_identity (sessions d') =
          (map session_identity (sessions d) ++ more)%list)
  /\ (exists more, attempts d' = (attempts d ++ more)%list).
Proof.
  intros d d'. subst d d'. destruct (caller context) as [u|] eqn:Hc.
  - exact (change_appends _ _ _ (call_changes r context rt w u Hc)).
  - rewrite (anonymous_call r context rt w Hc). simpl.
    exact (change_appends EmptyString _ _ (change_nothing _ _)).
Qed.

(** X5. Under the primary key, a call leaves in place, unchanged, every
    template that is a system template or that the caller does not own. *)
Theorem foreign_templates_are_untouched (r : Request)
    (context : ActionAPIContext) (rt : Runtime) (w : World)
    (n : nat) (t : PuzzleTemplates.row) :
  primary_key tblPuzzleTemplates (db w) ->
  nth_error (templates (db w)) n = Some t ->
  PuzzleTemplates.isSystem t = true
  \/ (forall u, caller context = Some u ->
        PuzzleTemplates.userId t <> Some (User.id u)) ->
  nth_error (templates (db (snd (server r context rt w)))) n = Some t.
Proof.
  intros Hkey Hn Hforeign. destruct (caller context) as [u|] eqn:Hc.
  - apply (change_keeps_foreign_templates (User.id u) (db w));
      [exact (call_changes r context rt w u Hc) | exact Hkey | exact Hn |].
    destruct Hforeign as [H|H]; [left; exact H | right; exact (H u Logic.eq_refl)].
  - rewrite (anonymous_call r context rt w Hc). exact Hn.
Qed.

Lemma foreign_templates_are_untouched_witness :
  (primary_key tblPuzzleTemplates (db Sample.world)
   /\ nth_error (templates (db Sample.world)) 0 = Some (seed_template 0)
   /\ PuzzleTemplates.isSystem (seed_template 0) = true)
  /\ nth_error
       (templates (db (snd (server (UpdatePuzzleTemplate Sample.harder)
                             (Sample.signedIn Sample.alice) Sample.rt
                             Sample.world)))) 0 =
     Some (seed_template 0).
Proof.
  split.
  - split; [exact (proj1 sample_store_consistent) | split; reflexivity].
  - exact (foreign_templates_are_untouched (UpdatePuzzleTemplate Sample.harder)
             (Sample.signedIn Sample.alice) Sample.rt Sample.world 0%nat
             (seed_template 0) (proj1 sample_store_consistent) Logic.eq_refl
             (or_introl Logic.eq_refl)).
Defined.

(** X6. Under the primary key, a call leaves in place, unchanged, every
    session that the caller does not own. *)
Theorem foreign_sessions_are_untouched (r : Request)
    (context : ActionAPIContext) (rt : Runtime) (w : World)
    (n : nat) (s : PuzzleSessions.row) :
  primary_key tblPuzzleSessions (db w) ->
  nth_error (sessions (db w)) n = Some s ->
  (forall u, caller context = Some u ->
     PuzzleSessions.userId s <> User.id u) ->
  nth_error (sessions (db (snd (server r context rt w)))) n = Some s.
Proof.
  intros Hkey Hn Hforeign. destruct (caller context) as [u|] eqn:Hc.
  - apply (change_keeps_foreign_sessions (User.id u) (db w));
      [exact (call_changes r context rt w u Hc) | exact Hkey | exact Hn |].
    exact (Hforeign u Logic.eq_refl).
  - rewrite (anonymous_call r context rt w Hc). exact Hn.
Qed.

Lemma foreign_sessions_are_untouched_witness :
  (primary_key tblPuzzleSessions (db Sample.world)
   /\ nth_error (sessions (db Sample.world)) 2 =
      Some (Sample.session "s3" "system-puzzle-sample" "u2" "in-progress"))
  /\ nth_error
       (sessions (db (snd (server
          (CompletePuzzleSession
             {| completePuzzleSession.sessionId := "s3";
                completePuzzleSession.status := completePuzzleSession.completed;
                completePuzzleSession.score := None;
                completePuzzleSession.timeTakenSeconds := Some 3 |})
          (Sample.signedIn Sample.alice) Sample.rt Sample.world)))) 2 =
     Some (Sample.session "s3" "system-puzzle-sample" "u2" "in-progress").
Proof.
  split.
  - split; [exact (proj1 (proj2 sample_store_consistent)) | reflexivity].
  - apply (foreign_sessions_are_untouched _ (Sample.signedIn Sample.alice)
             Sample.rt Sample.world 2%nat _
             (proj1 (proj2 sample_store_consistent)) Logic.eq_refl).
    intros u H. injection H as <-. discriminate.
Defined.

(** X7. In every reachable world each session names a stored template
    and each attempt names a stored session. *)
Theorem reachable_storage_is_referential (now : Date) (w : World) :
  Reachable now w -> referential (db w).
Proof. intros H. exact (proj1 (proj2 (reachable_invariants now w H))). Qed.

Lemma reachable_storage_is_referential_witness :
  referential (db Sample.played).
Proof.
  exact (reachable_storage_is_referential 0 Sample.played
           sample_played_reachable).
Defined.

(** X8. In every reachable world a stored template is either the seeded
    one, exactly as the seed step wrote it, or a template that is not a
    system template and has an owner: no call creates, alters or disowns a
    system template. *)
Theorem only_the_seed_is_system (now : Date) (w : World)
    (t : PuzzleTemplates.row) :
  Reachable now w ->
  In t (templates (db w)) ->
  template_origin now t.
Proof.
  intros H. exact (proj1 (proj2 (proj2 (reachable_invariants now w H))) t).
Qed.

Lemma only_the_seed_is_system_witness :
  In (seed_template 0) (templates (db Sample.played))
  /\ template_origin 0 (seed_template 0).
Proof.
  split; [left; reflexivity |].
  exact (only_the_seed_is_system 0 Sample.played (seed_template 0)
           sample_played_reachable (or_introl Logic.eq_refl)).
Defined.

(** X9. In every reachable world a session is either in progress, with
    no [completedAt], score or time, or completed or abandoned with a
    [completedAt]. *)
Theorem sessions_follow_the_lifecycle (now : Date) (w : World)
    (s : PuzzleSessions.row) :
  Reachable now w ->
  In s (sessions (db w)) ->
  session_lifecycle s.
Proof.
  intros H. exact (proj2 (proj2 (proj2 (reachable_invariants now w H))) s).
Qed.

Lemma sessions_follow_the_lifecycle_witness :
  exists s, In s (sessions (db Sample.played)) /\ session_lifecycle s.
Proof.
  eexists. split; [left; reflexivity |].
  apply (sessions_follow_the_lifecycle 0 Sample.played _
           sample_played_reachable).
  left. reflexivity.
Defined.

(* ================================================================== *)
(** * Calls in sequence *)

Lemma fresh_key_selects_nothing {R : Type} (k : R -> string)
    (c : R -> bool) (l : list R) (i : string) :
  ~ In i (map k l) ->
  filter (fun r => String.eqb (k r) i && c r) l = [].
Proof.
  intros Hfresh. apply filter_empty. intros x Hx.
  apply andb_false_iff. left. apply String.eqb_neq. intros E.
  apply Hfresh. rewrite <- E. apply in_map. exact Hx.
Qed.

Lemma fresh_id_selects_nothing {R : Type} (k : R -> string)
    (l : list R) (i : string) :
  ~ In i (map k l) -> filter (fun r => String.eqb (k r) i) l = [].
Proof.
  intros Hfresh. apply filter_empty. intros x Hx.
  apply String.eqb_neq. intros E.
  apply Hfresh. rewrite <- E. apply in_map. exact Hx.
Qed.

(** X10. After a signed-in caller created a template under an id that
    was free, with texts that hold no character of code 0 (the storage
    client hands a text back only up to that character), the caller's
    template list, with or without system templates, is the list from
    before followed by the created template, which carries the fields of
    the input; the list of a caller with another id is the list from
    before. *)
Theorem created_template_is_listed
    (context context' : ActionAPIContext) (u v : User.t) (rt rt' : Runtime)
    (i : createPuzzleTemplate.input) (b : bool) (w : World) :
  caller context = Some u ->
  caller context' = Some v ->
  ~ In (randomUUID rt) (map PuzzleTemplates.id (templates (db w))) ->
  nul_free (randomUUID rt) = true ->
  nul_free (User.id u) = true ->
  nul_free (createPuzzleTemplate.name i) = true ->
  forallb (whenever nul_free)
    [createPuzzleTemplate.puzzleType i; createPuzzleTemplate.difficulty i;
     createPuzzleTemplate.description i; createPuzzleTemplate.dataJson i;
     createPuzzleTemplate.solutionJson i] = true ->
  let w1 := snd (createPuzzleTemplate.handler i context rt w) in
  let listed (c : ActionAPIContext) (x : World) :=
    template_items
      (fst (listPuzzleTemplates.handler
              {| listPuzzleTemplates.includeSystem := b |} c rt' x)) in
  let created := {|
    PuzzleTemplates.id := randomUUID rt;
    PuzzleTemplates.userId := Some (User.id u);
    PuzzleTemplates.name := createPuzzleTemplate.name i;
    PuzzleTemplates.puzzleType := createPuzzleTemplate.puzzleType i;
    PuzzleTemplates.difficulty := createPuzzleTemplate.difficulty i;
    PuzzleTemplates.description := createPuzzleTemplate.description i;
    PuzzleTemplates.dataJson := createPuzzleTemplate.dataJson i;
    PuzzleTemplates.solutionJson := createPuzzleTemplate.solutionJson i;
    PuzzleTemplates.isSystem := false;
    PuzzleTemplates.createdAt := newDate rt;
    PuzzleTemplates.updatedAt := newDate rt
  |} in
  listed context w1 = (listed context w ++ [created])%list
  /\ (User.id v <> User.id u -> listed context' w1 = listed context' w).
Proof.
  intros Hu Hv Hfresh _ _ _ _ w1 listed created. subst w1 listed.
  rewrite (createPuzzleTemplate_unfold context u rt i w Hu).
  apply (existsb_key_false PuzzleTemplates.id) in Hfresh. rewrite Hfresh.
  cbn [snd]. fold created.
  split.
  - destruct (listPuzzleTemplates_unfold context u rt'
                {| listPuzzleTemplates.includeSystem := b |} w Hu)
      as [l0 [E0 F0]].
    destruct (listPuzzleTemplates_unfold context u rt'
                {| listPuzzleTemplates.includeSystem := b |}
                {| db := {| templates := templates (db w) ++ [created];
                            sessions := sessions (db w);
                            attempts := attempts (db w) |};
                   journal := journal w ++ [INSERT TPuzzleTemplates] |} Hu)
      as [l1 [E1 F1]].
    rewrite E0, E1. simpl. subst l0 l1. simpl. rewrite filter_app. simpl.
    unfold sql.eq, sql.same, sql.nullable_text. simpl.
    rewrite String.eqb_refl. reflexivity.
  - intros Hne.
    destruct (listPuzzleTemplates_unfold context' v rt'
                {| listPuzzleTemplates.includeSystem := b |} w Hv)
      as [l0 [E0 F0]].
    destruct (listPuzzleTemplates_unfold context' v rt'
                {| listPuzzleTemplates.includeSystem := b |}
                {| db := {| templates := templates (db w) ++ [created];
                            sessions := sessions (db w);
                            attempts := attempts (db w) |};
                   journal := journal w ++ [INSERT TPuzzleTemplates] |} Hv)
      as [l1 [E1 F1]].
    rewrite E0, E1. simpl. subst l0 l1. simpl. rewrite filter_app. simpl.
    unfold sql.eq, sql.same, sql.nullable_text. simpl.
    replace (String.eqb (User.id u) (User.id v)) with false
      by (symmetry; apply String.eqb_neq; congruence).
    rewrite andb_false_r. simpl. apply app_nil_r.
Qed.

Lemma created_template_is_listed_witness :
  (caller (Sample.signedIn Sample.bob) = Some Sample.bob
   /\ ~ In (randomUUID Sample.rt)
          (map PuzzleTemplates.id (templates (db Sample.world)))
   /\ nul_free (randomUUID Sample.rt) = true
   /\ nul_free (User.id Sample.bob) = true
   /\ nul_free (createPuzzleTemplate.name Sample.new_test) = true)
  /\ length
       (template_items
          (fst (listPuzzleTemplates.handler
                  {| listPuzzleTemplates.includeSystem := true |}
                  (Sample.signedIn Sample.bob) Sample.rt
                  (snd (createPuzzleTemplate.handler Sample.new_test
                          (Sample.signedIn Sample.bob) Sample.rt
                          Sample.world))))) = 2%nat.
Proof.
  assert (Hfresh : ~ In (randomUUID Sample.rt)
                     (map PuzzleTemplates.id (templates (db Sample.world)))).
  { simpl. intros [H|[H|[]]]; discriminate. }
  split; [split; [reflexivity | split; [exact Hfresh | repeat split]] |].
  rewrite (proj1 (created_template_is_listed (Sample.signedIn Sample.bob)
                    (Sample.signedIn Sample.alice) Sample.bob Sample.alice
                    Sample.rt Sample.rt Sample.new_test true Sample.world
                    Logic.eq_refl Logic.eq_refl Hfresh Logic.eq_refl
                    Logic.eq_refl Logic.eq_refl Logic.eq_refl)).
  reflexivity.
Defined.

(** X11. A template that a caller created under a free id is private to
    that caller: for a caller with another id, updating it is [FORBIDDEN]
    and starting a session on it is [NOT_FOUND]; for its creator the update
    succeeds and starting a session is not refused as not found. *)
Theorem created_template_is_private
    (context context' : ActionAPIContext) (u v : User.t) (rt rt' : Runtime)
    (i : createPuzzleTemplate.input) (ui : updatePuzzleTemplate.input)
    (si : startPuzzleSession.input) (w : World) :
  caller context = Some u ->
  caller context' = Some v ->
  User.id v <> User.id u ->
  ~ In (randomUUID rt) (map PuzzleTemplates.id (templates (db w))) ->
  updatePuzzleTemplate.id ui = randomUUID rt ->
  startPuzzleSession.puzzleTemplateId si = randomUUID rt ->
  let w1 := snd (createPuzzleTemplate.handler i context rt w) in
  raises FORBIDDEN (fst (updatePuzzleTemplate.handler ui context' rt' w1))
  /\ raises NOT_FOUND (fst (startPuzzleSession.handler si context' rt' w1))
  /\ (exists r, fst (updatePuzzleTemplate.handler ui context rt' w1) = Return r)
  /\ ~ raises NOT_FOUND (fst (startPuzzleSession.handler si context rt' w1)).
Proof.
  intros Hu Hv Hne Hfresh Hui Hsi w1. subst w1.
  rewrite (createPuzzleTemplate_unfold context u rt i w Hu).
  rewrite (proj2 (existsb_key_false PuzzleTemplates.id _ _) Hfresh).
  cbn [snd].
  match goal with
  | |- context [(templates (db w) ++ [?r])%list] => set (created := r)
  end.
  assert (Hone :
    filter (fun r => String.eqb (PuzzleTemplates.id r) (randomUUID rt))
      (templates (db w) ++ [created])%list = [created]).
  { rewrite filter_app.
    rewrite (fresh_id_selects_nothing PuzzleTemplates.id _ _ Hfresh).
    simpl. rewrite String.eqb_refl. reflexivity. }
  assert (Hsel : forall uid x,
    In x (filter
            (sql.and (sql.eq PuzzleTemplates.id (randomUUID rt))
               (sql.or (sql.eq PuzzleTemplates.userId uid)
                       (sql.eq PuzzleTemplates.isSystem true)))
            (templates (db w) ++ [created])%list)
    <-> x = created /\ User.id u = uid).
  { intros uid x. rewrite filter_In, usable_template_spec, in_app_iff. split.
    - intros [[Hin|[<-|[]]] [Hid Hown]].
      + exfalso. apply Hfresh. rewrite <- Hid. apply in_map. exact Hin.
      + split; [reflexivity |]. simpl in Hown.
        destruct Hown as [H|H]; [congruence | discriminate].
    - intros [-> <-]. simpl. tauto. }
  split; [| split; [| split]].
  - rewrite (updatePuzzleTemplate_unfold context' v rt' ui _ Hv).
    cbn [db templates]. rewrite Hui, Hone. simpl.
    replace (String.eqb (User.id u) (User.id v)) with false
      by (symmetry; apply String.eqb_neq; congruence).
    simpl. eexists. reflexivity.
  - rewrite (startPuzzleSession_unfold context' v rt' si _ Hv).
    cbn [db templates]. rewrite Hsi.
    destruct (filter (sql.and _ _) _) as [|x rest] eqn:E.
    + eexists. reflexivity.
    + exfalso. assert (Hx : In x (x :: rest)) by (left; reflexivity).
      rewrite <- E in Hx. apply Hsel in Hx. destruct Hx as [_ Hx].
      congruence.
  - rewrite (updatePuzzleTemplate_unfold context u rt' ui _ Hu).
    cbn [db templates]. rewrite Hui, Hone. simpl.
    rewrite String.eqb_refl. simpl. eexists. reflexivity.
  - rewrite (startPuzzleSession_unfold context u rt' si _ Hu).
    cbn [db templates]. rewrite Hsi.
    destruct (filter (sql.and _ _) _) as [|x rest] eqn:E.
    + exfalso. assert (Hin : In created []); [| exact Hin].
      rewrite <- E. apply Hsel. split; reflexivity.
    + destruct (existsb _ _); simpl; intros [m Hm]; discriminate.
Qed.

Lemma sample_uuid_is_free :
  ~ In (randomUUID Sample.rt)
      (map PuzzleTemplates.id (templates (db Sample.world))).
Proof. simpl. intros [H|[H|[]]]; discriminate. Qed.

Lemma created_template_is_private_witness :
  (caller (Sample.signedIn Sample.alice) = Some Sample.alice
   /\ caller (Sample.signedIn Sample.bob) = Some Sample.bob
   /\ User.id Sample.bob <> User.id Sample.alice
   /\ updatePuzzleTemplate.id Sample.rename_new = randomUUID Sample.rt
   /\ startPuzzleSession.puzzleTemplateId Sample.play_new =
      randomUUID Sample.rt)
  /\ raises FORBIDDEN
       (fst (updatePuzzleTemplate.handler Sample.rename_new
               (Sample.signedIn Sample.bob) Sample.rt2
               (snd (createPuzzleTemplate.handler Sample.new_test
                       (Sample.signedIn Sample.alice) Sample.rt
                       Sample.world)))).
Proof.
  assert (Hne : User.id Sample.bob <> User.id Sample.alice) by discriminate.
  split; [repeat split; try reflexivity; exact Hne |].
  exact (proj1 (created_template_is_private (Sample.signedIn Sample.alice)
                  (Sample.signedIn Sample.bob) Sample.alice Sample.bob
                  Sample.rt Sample.rt2 Sample.new_test Sample.rename_new
                  Sample.play_new Sample.world Logic.eq_refl Logic.eq_refl
                  Hne sample_uuid_is_free Logic.eq_refl Logic.eq_refl)).
Defined.

(** X12. A session that a caller started belongs to that caller: with
    the returned session id, the starter completes it successfully, given a
    completion whose score, if any, is finite, and is not refused as not
    found when recording an attempt, while a caller with another id gets
    [NOT_FOUND] from both actions. *)
Theorem started_session_is_private
    (context context' : ActionAPIContext) (u v : User.t) (rt rt' : Runtime)
    (i : startPuzzleSession.input) (ci : completePuzzleSession.input)
    (ai : recordPuzzleAttempt.input) (w : World)
    (r : Envelope startPuzzleSession.result.t) :
  caller context = Some u ->
  caller context' = Some v ->
  User.id v <> User.id u ->
  fst (startPuzzleSession.handler i context rt w) = Return r ->
  completePuzzleSession.sessionId ci = startPuzzleSession.result.id (data r) ->
  recordPuzzleAttempt.sessionId ai = startPuzzleSession.result.id (data r) ->
  whenever is_finite (completePuzzleSession.score ci) = true ->
  let w1 := snd (startPuzzleSession.handler i context rt w) in
  (fst (completePuzzleSession.handler ci context rt' w1) =
     Return {| success := true;
               data := {| completePuzzleSession.result.id :=
                            startPuzzleSession.result.id (data r) |} |})
  /\ ~ raises NOT_FOUND (fst (recordPuzzleAttempt.handler ai context rt' w1))
  /\ raises NOT_FOUND (fst (completePuzzleSession.handler ci context' rt' w1))
  /\ raises NOT_FOUND (fst (recordPuzzleAttempt.handler ai context' rt' w1)).
Proof.
  intros Hu Hv Hne. rewrite (startPuzzleSession_unfold context u rt i w Hu).
  destruct (filter _ _) as [|template rest]; [discriminate |].
  destruct (existsb _ _) eqn:Ekey; [discriminate |].
  apply (existsb_key_false PuzzleSessions.id) in Ekey.
  cbn [fst snd]. intros Hr Hci Hai Hfin. injection Hr as <-.
  cbn [data startPuzzleSession.result.id] in Hci, Hai.
  match goal with
  | |- context [(sessions (db w) ++ [?s])%list] => set (started := s)
  end.
  assert (Hsel : forall uid x,
    In x (filter
            (sql.and (sql.eq PuzzleSessions.id (randomUUID rt))
                     (sql.eq PuzzleSessions.userId uid))
            (sessions (db w) ++ [started])%list)
    <-> x = started /\ User.id u = uid).
  { intros uid x. rewrite filter_In, own_session_spec, in_app_iff. split.
    - intros [[Hin|[<-|[]]] [Hid Hown]].
      + exfalso. apply Ekey. rewrite <- Hid. apply in_map. exact Hin.
      + split; [reflexivity | exact Hown].
    - intros [-> <-]. simpl. tauto. }
  assert (Hmine : exists x rest',
    filter (sql.and (sql.eq PuzzleSessions.id (randomUUID rt))
                    (sql.eq PuzzleSessions.userId (User.id u)))
      (sessions (db w) ++ [started])%list = x :: rest').
  { destruct (filter (sql.and _ (sql.eq PuzzleSessions.userId (User.id u))) _)
      as [|x rest'] eqn:E; [| exists x, rest'; reflexivity].
    exfalso. assert (Hin : In started []); [| exact Hin].
    rewrite <- E. apply Hsel. split; reflexivity. }
  assert (Hnone :
    filter (sql.and (sql.eq PuzzleSessions.id (randomUUID rt))
                    (sql.eq PuzzleSessions.userId (User.id v)))
      (sessions (db w) ++ [started])%list = []).
  { destruct (filter (sql.and _ (sql.eq PuzzleSessions.userId (User.id v))) _)
      as [|x rest'] eqn:E; [reflexivity |].
    exfalso. assert (Hx : In x (x :: rest')) by (left; reflexivity).
    rewrite <- E in Hx. apply Hsel in Hx. destruct Hx as [_ Hx]. congruence. }
  destruct Hmine as [x [rest' Hmine]].
  assert (Hread : forallb (readable tblPuzzleSessions) (x :: rest') = true).
  { apply forallb_forall. intros y Hy. rewrite <- Hmine in Hy.
    apply Hsel in Hy. destruct Hy as [-> _]. reflexivity. }
  split; [| split; [| split]].
  - rewrite (completePuzzleSession_unfold context u rt' ci _ Hu).
    cbn [db sessions]. rewrite Hci, Hmine, Hread, bound_numbers, Hfin.
    reflexivity.
  - rewrite (recordPuzzleAttempt_unfold context u rt' ai _ Hu).
    cbn [db sessions]. rewrite Hai, Hmine, Hread.
    destruct (existsb _ _); simpl; intros [m Hm]; discriminate.
  - rewrite (completePuzzleSession_unfold context' v rt' ci _ Hv).
    cbn [db sessions]. rewrite Hci, Hnone. eexists. reflexivity.
  - rewrite (recordPuzzleAttempt_unfold context' v rt' ai _ Hv).
    cbn [db sessions]. rewrite Hai, Hnone. eexists. reflexivity.
Qed.

Lemma started_session_is_private_witness :
  (caller (Sample.signedIn Sample.alice) = Some Sample.alice
   /\ caller (Sample.signedIn Sample.bob) = Some Sample.bob
   /\ User.id Sample.bob <> User.id Sample.alice)
  /\ raises NOT_FOUND
       (fst (completePuzzleSession.handler Sample.finish_new
               (Sample.signedIn Sample.bob) Sample.rt2
               (snd (startPuzzleSession.handler Sample.play_sample
                       (Sample.signedIn Sample.alice) Sample.rt
                       Sample.world)))).
Proof.
  assert (Hne : User.id Sample.bob <> User.id Sample.alice) by discriminate.
  split; [repeat split; try reflexivity; exact Hne |].
  exact (proj1 (proj2 (proj2
    (started_session_is_private (Sample.signedIn Sample.alice)
       (Sample.signedIn Sample.bob) Sample.alice Sample.bob Sample.rt
       Sample.rt2 Sample.play_sample Sample.finish_new Sample.guess_new
       Sample.world _ Logic.eq_refl Logic.eq_refl Hne Logic.eq_refl
       Logic.eq_refl Logic.eq_refl Logic.eq_refl)))).
Defined.

Lemma filter_map_stable {R : Type} (p : R -> bool) (g : R -> R) (l : list R) :
  (forall r, p (g r) = p r) ->
  filter p (map g l) = map g (filter p l).
Proof.
  intros H. induction l as [|a l IH]; simpl; [reflexivity |].
  rewrite H. destruct (p a); simpl; rewrite IH; reflexivity.
Qed.

Lemma set_twice (u : updatePuzzleTemplate.updates.t) (r : PuzzleTemplates.row) :
  updatePuzzleTemplate.set u (updatePuzzleTemplate.set u r) =
  updatePuzzleTemplate.set u r.
Proof.
  unfold updatePuzzleTemplate.set, updatePuzzleTemplate.keep_or,
    updatePuzzleTemplate.keep_or_put. simpl.
  destruct u as [n p d ds dj sj at_]. simpl.
  destruct n, p, d, ds, dj, sj; reflexivity.
Qed.

(** X13. Updating a template is idempotent: when an update succeeds,
    the same request at the same instant succeeds again with the same answer
    and leaves the storage as the first call left it. *)
Theorem updatePuzzleTemplate_is_idempotent
    (context : ActionAPIContext) (u : User.t) (rt : Runtime)
    (i : updatePuzzleTemplate.input) (w : World)
    (r : Envelope updatePuzzleTemplate.result.t) :
  caller context = Some u ->
  fst (updatePuzzleTemplate.handler i context rt w) = Return r ->
  let w1 := snd (updatePuzzleTemplate.handler i context rt w) in
  fst (updatePuzzleTemplate.handler i context rt w1) = Return r
  /\ db (snd (updatePuzzleTemplate.handler i context rt w1)) = db w1.
Proof.
  intros Hu. rewrite (updatePuzzleTemplate_unfold context u rt i w Hu).
  destruct (filter _ _) as [|existing rest] eqn:E; [discriminate |].
  destruct (_ || _) eqn:C; [discriminate |].
  cbn [fst snd]. intros Hr. injection Hr as <-.
  rewrite (updatePuzzleTemplate_unfold context u rt i _ Hu).
  cbn [db templates sessions attempts].
  match goal with
  | |- context [map ?f (templates (db w))] => set (g := f)
  end.
  assert (Hg : forall x,
    String.eqb (PuzzleTemplates.id (g x)) (updatePuzzleTemplate.id i) =
    String.eqb (PuzzleTemplates.id x) (updatePuzzleTemplate.id i)).
  { intros x. subst g. simpl.
    destruct (String.eqb (PuzzleTemplates.id x) (updatePuzzleTemplate.id i))
      eqn:X; [| exact X]. simpl. exact X. }
  rewrite (filter_map_stable
             (fun x => String.eqb (PuzzleTemplates.id x)
                         (updatePuzzleTemplate.id i)) g _ Hg).
  rewrite E. cbn [map].
  destruct (filter_first _ _ _ _ E) as [_ Hid].
  assert (Hge : g existing = updatePuzzleTemplate.set
    {| updatePuzzleTemplate.updates.name :=
         spread_if_truthy (updatePuzzleTemplate.name i);
       updatePuzzleTemplate.updates.puzzleType :=
         spread_if_truthy (updatePuzzleTemplate.puzzleType i);
       updatePuzzleTemplate.updates.difficulty :=
         spread_if_truthy (updatePuzzleTemplate.difficulty i);
       updatePuzzleTemplate.updates.description :=
         spread_if_truthy (updatePuzzleTemplate.description i);
       updatePuzzleTemplate.updates.dataJson :=
         spread_if_truthy (updatePuzzleTemplate.dataJson i);
       updatePuzzleTemplate.updates.solutionJson :=
         spread_if_truthy (updatePuzzleTemplate.solutionJson i);
       updatePuzzleTemplate.updates.updatedAt := newDate rt |} existing).
  { subst g. simpl. rewrite Hid. reflexivity. }
  rewrite Hge. cbn [updatePuzzleTemplate.set PuzzleTemplates.userId
                    PuzzleTemplates.isSystem].
  rewrite C. cbn [fst snd db].
  split; [reflexivity |]. f_equal.
  rewrite map_map. apply map_ext. intros x.
  pose proof (Hg x) as Hx. subst g. cbn beta in *.
  destruct (String.eqb (PuzzleTemplates.id x) (updatePuzzleTemplate.id i));
    [| rewrite Hx; reflexivity].
  rewrite Hx. apply set_twice.
Qed.

Lemma updatePuzzleTemplate_is_idempotent_witness :
  caller (Sample.signedIn Sample.alice) = Some Sample.alice
  /\ db (snd (updatePuzzleTemplate.handler Sample.harder
                (Sample.signedIn Sample.alice) Sample.rt
                (snd (updatePuzzleTemplate.handler Sample.harder
                        (Sample.signedIn Sample.alice) Sample.rt
                        Sample.world)))) =
     db (snd (updatePuzzleTemplate.handler Sample.harder
                (Sample.signedIn Sample.alice) Sample.rt Sample.world)).
Proof.
  split; [reflexivity |].
  exact (proj2 (updatePuzzleTemplate_is_idempotent
                  (Sample.signedIn Sample.alice) Sample.alice Sample.rt
                  Sample.harder Sample.world _ Logic.eq_refl Logic.eq_refl)).
Defined.

(* ================================================================== *)
(** * Paging through the sessions *)

Lemma firstn_plus {R : Type} (a b : nat) (l : list R) :
  firstn (a + b) l = (firstn a l ++ firstn b (skipn a l))%list.
Proof.
  revert l. induction a as [|a IH]; intros l; simpl; [reflexivity |].
  destruct l as [|x l]; simpl.
  - rewrite firstn_nil. reflexivity.
  - rewrite IH. reflexivity.
Qed.

(** A page of a signed-in caller, as a window on the matching sessions:
    for an offset that is a safe integer and a storage whose sessions the
    client can read. *)
Lemma session_page_window (t s : option string) (context : ActionAPIContext)
    (u : User.t) (rt : Runtime) (w : World) (n : Z) (p : nat) :
  caller context = Some u ->
  0 <= n <= MAX_SAFE_INTEGER ->
  (1 <= p)%nat ->
  (Z.of_nat p - 1) * n <= MAX_SAFE_INTEGER ->
  (forall x, In x (sessions (db w)) -> readable tblPuzzleSessions x = true) ->
  session_page t s context rt w n p =
    firstn (Z.to_nat n)
      (skipn ((p - 1) * Z.to_nat n)
         (filter
            (sql.reduce sql.and (sql.eq PuzzleSessions.userId (User.id u))
               (listPuzzleSessions.push_if t
                  (sql.eq PuzzleSessions.puzzleTemplateId)
                ++ listPuzzleSessions.push_if s
                     (sql.eq PuzzleSessions.status))%list)
            (sessions (db w)))).
Proof.
  intros Hu Hn Hp Hsafe Hread. unfold session_page.
  rewrite (listPuzzleSessions_unfold context u rt _ w Hu). cbv zeta.
  cbn [listPuzzleSessions.puzzleTemplateId listPuzzleSessions.status
       listPuzzleSessions.page listPuzzleSessions.pageSize].
  rewrite (offset_is_exact (Z.of_nat p) n) by lia.
  assert (Fn : fits_int64 n = true).
  { apply fits_int64_spec. unfold MAX_SAFE_INTEGER in Hn. lia. }
  assert (Fk : fits_int64 ((Z.of_nat p - 1) * n) = true).
  { apply fits_int64_spec. unfold MAX_SAFE_INTEGER in Hsafe. nia. }
  rewrite (int64_is_finite _ Fn), (int64_is_finite _ Fk), Fn, Fk.
  cbn [orb andb]. unfold sql.limit, sql.offset.
  replace (n <? 0) with false by (symmetry; apply Z.ltb_ge; lia).
  replace (Z.to_nat ((Z.of_nat p - 1) * n)) with ((p - 1) * Z.to_nat n)%nat
    by nia.
  match goal with
  | |- context [forallb ?f ?l] =>
      assert (E : forallb f l = true);
        [apply forallb_forall; intros x Hx; apply Hread;
         apply in_firstn, in_skipn, filter_In in Hx; exact (proj1 Hx)
        | rewrite E]
  end.
  reflexivity.
Qed.

Lemma session_page_anonymous (t s : option string) (context : ActionAPIContext)
    (rt : Runtime) (w : World) (n : Z) (p : nat) :
  caller context = None -> session_page t s context rt w n p = [].
Proof.
  intros Hc. unfold session_page, listPuzzleSessions.handler.
  rewrite (bind_requireUser_anonymous _ _ _ Hc). reflexivity.
Qed.

(** X14. Paging is exact as long as the offsets are safe integers and the
    client can read the stored sessions: for a positive page size [n] with
    [k * n] a safe integer, the pages [1 .. k] of size [n], one after the
    other, are the single first page of size [k * n], so no session is
    skipped or repeated; and a page that holds fewer than [n] sessions is
    followed by an empty page. *)
Theorem pages_concatenate (t s : option string) (context : ActionAPIContext)
    (rt : Runtime) (w : World) (n : Z) (k : nat) :
  0 < n ->
  Z.of_nat k * n <= MAX_SAFE_INTEGER ->
  (forall x, In x (sessions (db w)) -> readable tblPuzzleSessions x = true) ->
  flat_map (session_page t s context rt w n) (seq 1 k) =
    session_page t s context rt w (Z.of_nat k * n) 1
  /\ (forall p, (1 <= p <= k)%nat ->
        (length (session_page t s context rt w n p) < Z.to_nat n)%nat ->
        session_page t s context rt w n (S p) = []).
Proof.
  intros Hn Hsafe Hread. destruct (caller context) as [u|] eqn:Hc.
  - split.
    + rewrite (session_page_window t s context u rt w _ 1 Hc)
        by (try exact Hread; simpl; lia).
      simpl skipn.
      replace (Z.to_nat (Z.of_nat k * n)) with (k * Z.to_nat n)%nat by nia.
      induction k as [|k IH]; [reflexivity |].
      rewrite seq_S, flat_map_app, IH by nia.
      simpl flat_map. rewrite app_nil_r.
      change (1 + k)%nat with (S k).
      rewrite (session_page_window t s context u rt w n (S k) Hc)
        by (try exact Hread; nia).
      replace (S k - 1)%nat with k by lia.
      replace (S k * Z.to_nat n)%nat with (k * Z.to_nat n + Z.to_nat n)%nat
        by lia.
      symmetry. apply firstn_plus.
    + intros p Hp.
      rewrite (session_page_window t s context u rt w n p Hc)
        by (try exact Hread; nia).
      rewrite (session_page_window t s context u rt w n (S p) Hc)
        by (try exact Hread; nia).
      rewrite length_firstn, length_skipn. intros Hshort.
      rewrite skipn_all2; [apply firstn_nil |].
      replace (S p - 1)%nat with p by lia. nia.
  - split.
    + rewrite (session_page_anonymous t s context rt w _ 1 Hc).
      induction (seq 1 k) as [|p l IH]; simpl; [reflexivity |].
      rewrite (session_page_anonymous t s context rt w n p Hc). exact IH.
    + intros p _ _. apply session_page_anonymous. exact Hc.
Qed.

Lemma pages_concatenate_witness :
  (0 < 1 /\ Z.of_nat 2 * 1 <= MAX_SAFE_INTEGER)
  /\ flat_map
       (session_page None None (Sample.signedIn Sample.alice) Sample.rt
          Sample.world 1) (seq 1 2) =
     session_page None None (Sample.signedIn Sample.alice) Sample.rt
       Sample.world (Z.of_nat 2 * 1) 1.
Proof.
  assert (Hsafe : Z.of_nat 2 * 1 <= MAX_SAFE_INTEGER) by discriminate.
  split; [split; [reflexivity | exact Hsafe] |].
  exact (proj1 (pages_concatenate None None (Sample.signedIn Sample.alice)
                  Sample.rt Sample.world 1 2 Logic.eq_refl Hsafe
                  sample_sessions_readable)).
Defined.

(** Without the proviso on the stored sessions the pages do not add up:
    after a completion with a time of [2^53] seconds, which the schema
    admits, the page that holds the completed session is refused while the
    other pages are answered, and the one large page is refused as a
    whole. *)
Lemma unreadable_row_breaks_paging :
  completePuzzleSession.schema Sample.slow_wire = Some Sample.slow
  /\ flat_map
       (session_page None None (Sample.signedIn Sample.alice) Sample.rt2
          Sample.stuck 1) (seq 1 3) <>
     session_page None None (Sample.signedIn Sample.alice) Sample.rt2
       Sample.stuck (Z.of_nat 3 * 1) 1.
Proof.
  split; [reflexivity |]. vm_compute. discriminate.
Qed.

(** X15. A request that the schema of [listPuzzleSessions] admits has a
    page of at least 1 and a page size between 1 and 100 (1 and 20 when the
    request names none), and its answer never holds more than 100
    sessions. *)
Theorem admitted_page_is_bounded (x : listPuzzleSessions.wire.t)
    (i : listPuzzleSessions.input) (context : ActionAPIContext)
    (rt : Runtime) (w : World) :
  listPuzzleSessions.schema x = Some i ->
  1 <= listPuzzleSessions.page i
  /\ 1 <= listPuzzleSessions.pageSize i <= 100
  /\ (listPuzzleSessions.wire.page x = None -> listPuzzleSessions.page i = 1)
  /\ (listPuzzleSessions.wire.pageSize x = None ->
      listPuzzleSessions.pageSize i = 20)
  /\ (length (session_items
                (fst (listPuzzleSessions.handler i context rt w))) <= 100)%nat.
Proof.
  intros Hs. unfold listPuzzleSessions.schema, z.andThen, z.string_optional,
    z.int_positive_default, z.int_positive_max_default in Hs.
  assert (Hp : 1 <= listPuzzleSessions.page i
               /\ 1 <= listPuzzleSessions.pageSize i <= 100
               /\ (listPuzzleSessions.wire.page x = None ->
                   listPuzzleSessions.page i = 1)
               /\ (listPuzzleSessions.wire.pageSize x = None ->
                   listPuzzleSessions.pageSize i = 20)).
  { destruct (listPuzzleSessions.wire.page x) as [p|];
      destruct (listPuzzleSessions.wire.pageSize x) as [ps|];
      repeat match type of Hs with
        | context [if ?b then _ else _] => destruct b eqn:?; try discriminate
        end;
      injection Hs as <-; simpl;
      repeat match goal with
        | H : (_ && _) = true |- _ => apply andb_true_iff in H; destruct H
        | H : (_ <? _) = true |- _ => apply Z.ltb_lt in H
        | H : (_ <=? _) = true |- _ => apply Z.leb_le in H
        end;
      repeat split; intros; try discriminate; lia. }
  destruct Hp as [H1 [H2 [H3 H4]]].
  repeat match goal with |- _ /\ _ => split end; try assumption; try lia.
  destruct (caller context) as [u|] eqn:Hc.
  - rewrite (listPuzzleSessions_unfold context u rt i w Hc). cbv zeta.
    destruct (_ || _); [simpl; lia |].
    destruct (_ && _); [| simpl; lia].
    destruct (forallb _ _); [| simpl; lia].
    cbn [fst session_items data listPuzzleSessions.result.items].
    unfold sql.limit.
    replace (listPuzzleSessions.pageSize i <? 0) with false
      by (symmetry; apply Z.ltb_ge; lia).
    match goal with
    | |- (length (firstn ?a ?b) <= _)%nat =>
        pose proof (firstn_le_length a b)
    end.
    lia.
  - unfold listPuzzleSessions.handler.
    rewrite (bind_requireUser_anonymous _ _ _ Hc). simpl. lia.
Qed.

Lemma admitted_page_is_bounded_witness :
  listPuzzleSessions.schema Sample.wanted = Some Sample.admitted
  /\ (length (session_items
                (fst (listPuzzleSessions.handler Sample.admitted
                        (Sample.signedIn Sample.alice) Sample.rt
                        Sample.world))) <= 100)%nat.
Proof.
  split; [reflexivity |].
  exact (proj2 (proj2 (proj2 (proj2
    (admitted_page_is_bounded Sample.wanted Sample.admitted
       (Sample.signedIn Sample.alice) Sample.rt Sample.world
       Logic.eq_refl))))).
Defined.

(* ================================================================== *)
(** * Schemas and handlers together, and the seed step *)

Lemma admitted_text_is_truthy (x : option string) (y : option string) :
  z.string_min1_optional x = Some y -> y = x /\ spread_if_truthy y = x.
Proof.
  unfold z.string_min1_optional, spread_if_truthy.
  destruct x as [[|c s]|]; simpl; intros H; try discriminate;
    injection H as <-; split; reflexivity.
Qed.

(** X16. For a request that the schema of [updatePuzzleTemplate] admits,
    a successful update writes every [name], [puzzleType] and [difficulty]
    that the request names into the row with the given id, and keeps the
    stored value of each one that the request leaves out: the schema has
    already refused the empty strings that the handler would skip. *)
Theorem admitted_update_writes_what_it_names
    (x : updatePuzzleTemplate.wire.t) (i : updatePuzzleTemplate.input)
    (context : ActionAPIContext) (u : User.t) (rt : Runtime) (w : World)
    (r : Envelope updatePuzzleTemplate.result.t) :
  updatePuzzleTemplate.schema x = Some i ->
  caller context = Some u ->
  fst (updatePuzzleTemplate.handler i context rt w) = Return r ->
  forall n t,
    nth_error (templates (db w)) n = Some t ->
    PuzzleTemplates.id t = updatePuzzleTemplate.id i ->
    exists t',
      nth_error
        (templates (db (snd (updatePuzzleTemplate.handler i context rt w)))) n
        = Some t'
      /\ PuzzleTemplates.name t' =
         match updatePuzzleTemplate.wire.name x with
         | Some v => v
         | None => PuzzleTemplates.name t
         end
      /\ PuzzleTemplates.puzzleType t' =
         match updatePuzzleTemplate.wire.puzzleType x with
         | Some v => Some v
         | None => PuzzleTemplates.puzzleType t
         end
      /\ PuzzleTemplates.difficulty t' =
         match updatePuzzleTemplate.wire.difficulty x with
         | Some v => Some v
         | None => PuzzleTemplates.difficulty t
         end.
Proof.
  intros Hs Hu. unfold updatePuzzleTemplate.schema, z.andThen in Hs.
  destruct (z.string_min1 _) as [i0|]; [| discriminate].
  destruct (z.string_min1_optional (updatePuzzleTemplate.wire.name x))
    as [n0|] eqn:En; [| discriminate].
  destruct (z.string_min1_optional (updatePuzzleTemplate.wire.puzzleType x))
    as [p0|] eqn:Ep; [| discriminate].
  destruct (z.string_min1_optional (updatePuzzleTemplate.wire.difficulty x))
    as [d0|] eqn:Ed; [| discriminate].
  simpl in Hs. injection Hs as <-.
  apply admitted_text_is_truthy in En, Ep, Ed.
  destruct En as [_ En], Ep as [_ Ep], Ed as [_ Ed].
  rewrite (updatePuzzleTemplate_unfold context u rt _ w Hu).
  destruct (filter _ _) as [|existing rest]; [discriminate |].
  destruct (_ || _); [discriminate |].
  cbn [fst snd db templates]. intros _ n t Hn Hid.
  rewrite nth_error_map, Hn. cbn [option_map].
  cbn [updatePuzzleTemplate.id] in *.
  rewrite (proj2 (String.eqb_eq _ _) Hid).
  eexists. split; [reflexivity |].
  cbn [updatePuzzleTemplate.set PuzzleTemplates.name PuzzleTemplates.puzzleType
       PuzzleTemplates.difficulty updatePuzzleTemplate.updates.name
       updatePuzzleTemplate.updates.puzzleType
       updatePuzzleTemplate.updates.difficulty updatePuzzleTemplate.name
       updatePuzzleTemplate.puzzleType updatePuzzleTemplate.difficulty].
  rewrite En, Ep, Ed.
  destruct (updatePuzzleTemplate.wire.name x),
    (updatePuzzleTemplate.wire.puzzleType x),
    (updatePuzzleTemplate.wire.difficulty x); repeat split.
Qed.

Lemma admitted_update_writes_what_it_names_witness :
  (updatePuzzleTemplate.schema Sample.retitle_wire = Some Sample.retitle
   /\ caller (Sample.signedIn Sample.alice) = Some Sample.alice
   /\ nth_error (templates (db Sample.world)) 1 = Some Sample.test_template
   /\ PuzzleTemplates.id Sample.test_template =
      updatePuzzleTemplate.id Sample.retitle)
  /\ exists t',
       nth_error
         (templates (db (snd (updatePuzzleTemplate.handler Sample.retitle
                                (Sample.signedIn Sample.alice) Sample.rt
                                Sample.world)))) 1 = Some t'
       /\ PuzzleTemplates.name t' = "Nine".
Proof.
  split; [repeat split |].
  destruct (admitted_update_writes_what_it_names Sample.retitle_wire
              Sample.retitle (Sample.signedIn Sample.alice) Sample.alice
              Sample.rt Sample.world _ Logic.eq_refl Logic.eq_refl
              Logic.eq_refl 1%nat Sample.test_template Logic.eq_refl
              Logic.eq_refl) as [t' [Hn [Hname _]]].
  exists t'. split; [exact Hn | exact Hname].
Defined.

(** X17. The seed step is idempotent by its fixed id: on a storage
    without a template of id [system-puzzle-sample] it appends the built-in
    template and nothing else; on a storage that has one it fails on the
    primary key and changes nothing; so seeding a second time, at whatever
    instant, leaves the storage of the first seeding. *)
Theorem seed_is_idempotent (now now' : Date) (w : World) :
  let present :=
    In "system-puzzle-sample" (map PuzzleTemplates.id (templates (db w))) in
  (~ present ->
   fst (seed now w) = Return tt
   /\ db (snd (seed now w)) =
      {| templates := (templates (db w) ++ [seed_template now])%list;
         sessions := sessions (db w);
         attempts := attempts (db w) |})
  /\ (present ->
      fst (seed now w) = Throw (PrimaryKeyViolation TPuzzleTemplates)
      /\ db (snd (seed now w)) = db w)
  /\ db (snd (seed now' (snd (seed now w)))) = db (snd (seed now w)).
Proof.
  intros present. subst present.
  assert (Hrun : forall t (x : World),
    (existsb (fun r => String.eqb (PuzzleTemplates.id r) "system-puzzle-sample")
       (templates (db x)) = false
     /\ fst (seed t x) = Return tt
     /\ db (snd (seed t x)) =
        {| templates := (templates (db x) ++ [seed_template t])%list;
           sessions := sessions (db x);
           attempts := attempts (db x) |})
    \/ (existsb (fun r => String.eqb (PuzzleTemplates.id r) "system-puzzle-sample")
          (templates (db x)) = true
        /\ fst (seed t x) = Throw (PrimaryKeyViolation TPuzzleTemplates)
        /\ db (snd (seed t x)) = db x)).
  { intros t x. unfold seed, insert. cbn [rows tblPuzzleTemplates pkey
      seed_template PuzzleTemplates.id].
    destruct (existsb _ _); [right | left]; repeat split. }
  split; [| split].
  - intros Hno. apply (existsb_key_false PuzzleTemplates.id) in Hno.
    destruct (Hrun now w) as [[_ H]|[E _]]; [exact H | congruence].
  - intros Hyes.
    destruct (Hrun now w) as [[E _]|[_ H]]; [| exact H].
    apply (existsb_key_false PuzzleTemplates.id) in E. contradiction.
  - destruct (Hrun now' (snd (seed now w))) as [[E _]|[_ [_ H]]]; [| exact H].
    exfalso. apply (existsb_key_false PuzzleTemplates.id) in E. apply E.
    destruct (Hrun now w) as [[_ [_ H]]|[E' [_ H]]]; rewrite H.
    + simpl. rewrite map_app. apply in_or_app. right. left. reflexivity.
    + destruct (existsb _ _) eqn:X in E'; [| discriminate].
      destruct (in_dec string_dec "system-puzzle-sample"
                  (map PuzzleTemplates.id (templates (db w)))) as [Hin|Hout];
        [exact Hin |].
      apply (existsb_key_false PuzzleTemplates.id) in Hout. congruence.
Qed.

Lemma seed_is_idempotent_witness :
  ~ In "system-puzzle-sample"
      (map PuzzleTemplates.id (templates (db empty_world)))
  /\ fst (seed 0 empty_world) = Return tt.
Proof.
  assert (Hno : ~ In "system-puzzle-sample"
                  (map PuzzleTemplates.id (templates (db empty_world))))
    by (simpl; tauto).
  split; [exact Hno |].
  exact (proj1 (proj1 (seed_is_idempotent 0 0 empty_world) Hno)).
Defined.

(* ================================================================== *)
(** * What other callers see *)

Lemma filter_map_fixed {R : Type} (p : R -> bool) (g : R -> R) (l : list R) :
  (forall x, In x l -> if p x then g x = x else p (g x) = false) ->
  filter p (map g l) = filter p l.
Proof.
  induction l as [|a l IH]; intros H; simpl; [reflexivity |].
  pose proof (H a (or_introl Logic.eq_refl)) as Ha.
  rewrite IH by (intros x Hx; apply H; right; exact Hx).
  destruct (p a) eqn:E.
  - rewrite Ha, E. reflexivity.
  - rewrite Ha. reflexivity.
Qed.

Lemma change_is_hidden_in_templates (uid vid : string) (b : bool) (d d' : Db) :
  Change uid d d' ->
  primary_key tblPuzzleTemplates d ->
  vid <> uid ->
  filter (fun t => sql.eq PuzzleTemplates.userId vid t
                   || (b && PuzzleTemplates.isSystem t)) (templates d') =
  filter (fun t => sql.eq PuzzleTemplates.userId vid t
                   || (b && PuzzleTemplates.isSystem t)) (templates d).
Proof.
  intros C Hkey Hne.
  destruct C as [|r _ Hown Hsys|i f [t0 [Hin0 [Hid0 [Hown0 Hsys0]]]] Hf| | |];
    simpl; try reflexivity.
  - rewrite filter_app. simpl.
    unfold sql.eq, sql.same, sql.nullable_text. rewrite Hown, Hsys.
    replace (String.eqb uid vid) with false
      by (symmetry; apply String.eqb_neq; congruence).
    rewrite andb_false_r. simpl. apply app_nil_r.
  - apply filter_map_fixed. intros x Hx.
    unfold sql.eq, sql.same, sql.nullable_text.
    destruct (String.eqb (PuzzleTemplates.id x) i) eqn:E.
    + apply String.eqb_eq in E.
      assert (x = t0).
      { apply (key_determines_row PuzzleTemplates.id (templates d));
          [exact Hkey | exact Hx | exact Hin0 | congruence]. }
      subst x. destruct (Hf t0) as [_ [Hu [Hs _]]].
      rewrite Hu, Hs, Hown0, Hsys0.
      replace (String.eqb uid vid) with false
        by (symmetry; apply String.eqb_neq; congruence).
      rewrite andb_false_r. reflexivity.
    + destruct (_ || _); reflexivity.
Qed.

Lemma change_is_hidden_in_sessions (uid vid : string)
    (more : list (sql.cond PuzzleSessions.row)) (d d' : Db) :
  Change uid d d' ->
  primary_key tblPuzzleSessions d ->
  vid <> uid ->
  filter (sql.reduce sql.and (sql.eq PuzzleSessions.userId vid) more)
    (sessions d') =
  filter (sql.reduce sql.and (sql.eq PuzzleSessions.userId vid) more)
    (sessions d).
Proof.
  intros C Hkey Hne.
  destruct C as [| | |r _ Hown _ _ _ _ _|i f [s0 [Hin0 [Hid0 Hown0]]] Hf|];
    simpl; try reflexivity.
  - rewrite filter_app. simpl. rewrite reduce_and.
    unfold sql.eq, sql.same, sql.text_text. rewrite Hown.
    replace (String.eqb uid vid) with false
      by (symmetry; apply String.eqb_neq; congruence).
    simpl. apply app_nil_r.
  - apply filter_map_fixed. intros x Hx. rewrite !reduce_and.
    assert (Howner : forall y,
      sql.eq PuzzleSessions.userId vid y =
      String.eqb (PuzzleSessions.userId y) vid) by reflexivity.
    rewrite !Howner.
    destruct (String.eqb (PuzzleSessions.id x) i) eqn:E.
    + apply String.eqb_eq in E.
      assert (x = s0).
      { apply (key_determines_row PuzzleSessions.id (sessions d));
          [exact Hkey | exact Hx | exact Hin0 | congruence]. }
      subst x. destruct (Hf s0) as [_ [Hu _]]. rewrite Hu, Hown0.
      replace (String.eqb uid vid) with false
        by (symmetry; apply String.eqb_neq; congruence).
      reflexivity.
    + destruct (_ && _); reflexivity.
Qed.

(** X18. Callers do not see each other's calls: under the primary keys,
    whatever a signed-in caller calls, the template list and every page of
    the session list of a caller with another id are the same after the
    call as before it. *)
Theorem other_callers_lists_are_unchanged
    (r : Request) (context context' : ActionAPIContext) (u v : User.t)
    (rt rt' : Runtime) (w : World)
    (ti : listPuzzleTemplates.input) (si : listPuzzleSessions.input) :
  caller context = Some u ->
  caller context' = Some v ->
  User.id v <> User.id u ->
  consistent (db w) ->
  let w1 := snd (server r context rt w) in
  template_items (fst (listPuzzleTemplates.handler ti context' rt' w1)) =
    template_items (fst (listPuzzleTemplates.handler ti context' rt' w))
  /\ session_items (fst (listPuzzleSessions.handler si context' rt' w1)) =
     session_items (fst (listPuzzleSessions.handler si context' rt' w)).
Proof.
  intros Hu Hv Hne [Ht [Hs _]] w1. subst w1.
  pose proof (call_changes r context rt w u Hu) as C.
  split.
  - destruct (listPuzzleTemplates_unfold context' v rt' ti w Hv)
      as [l0 [E0 F0]].
    destruct (listPuzzleTemplates_unfold context' v rt' ti
                (snd (server r context rt w)) Hv) as [l1 [E1 F1]].
    rewrite E0, E1. simpl. subst l0 l1.
    apply (change_is_hidden_in_templates (User.id u)); assumption.
  - rewrite (listPuzzleSessions_unfold context' v rt' si w Hv).
    rewrite (listPuzzleSessions_unfold context' v rt' si
               (snd (server r context rt w)) Hv).
    cbv zeta.
    rewrite (change_is_hidden_in_sessions (User.id u) (User.id v) _ _ _ C Hs Hne).
    destruct (_ || _); [reflexivity |].
    destruct (_ && _); [| reflexivity].
    destruct (forallb _ _); reflexivity.
Qed.

Lemma other_callers_lists_are_unchanged_witness :
  (caller (Sample.signedIn Sample.alice) = Some Sample.alice
   /\ caller (Sample.signedIn Sample.bob) = Some Sample.bob
   /\ User.id Sample.bob <> User.id Sample.alice
   /\ consistent (db Sample.world))
  /\ session_items
       (fst (listPuzzleSessions.handler Sample.admitted
               (Sample.signedIn Sample.bob) Sample.rt2
               (snd (server (CompletePuzzleSession Sample.abandon_s2)
                       (Sample.signedIn Sample.alice) Sample.rt
                       Sample.world)))) =
     session_items
       (fst (listPuzzleSessions.handler Sample.admitted
               (Sample.signedIn Sample.bob) Sample.rt2 Sample.world)).
Proof.
  assert (Hne : User.id Sample.bob <> User.id Sample.alice) by discriminate.
  split.
  - repeat split; try reflexivity; try exact Hne;
      apply sample_store_consistent.
  - exact (proj2 (other_callers_lists_are_unchanged
                    (CompletePuzzleSession Sample.abandon_s2)
                    (Sample.signedIn Sample.alice) (Sample.signedIn Sample.bob)
                    Sample.alice Sample.bob Sample.rt Sample.rt2 Sample.world
                    {| listPuzzleTemplates.includeSystem := true |}
                    Sample.admitted Logic.eq_refl Logic.eq_refl Hne
                    sample_store_consistent)).
Defined.
